(** * TCP client / TCP server sketches for the Arduino Nano 33 IoT

    A shallow embedding of the two sketches of the repository (the TCP
    client and the TCP server) and the verification of their connection
    state machines.

    Both sketches are a single [loop()] that calls, in a fixed order, one
    procedure per task; the global [connectionState] decides which
    procedure acts.  Every global of a sketch is a field of a record
    [state]; every procedure is a function on that record.

    - [unsigned long] is 32 bits wide on the board (SAMD21): timestamps
      and counters are integers in [0, 2^32) and [+] / [++] wrap around.
    - The drivers (clock, WiFi, TCP client and server objects) are external.
      What they answer during one call of a procedure is an [env]; what the
      sketch asks them to do (serial output, pin writes, WiFi and TCP
      calls) is appended to the [trace] field of the state, most recent
      event first.
    - The scratch buffer [s200] only carries a text from [sprintf] or
      [strcat] to the [Serial.print] that follows (it is large enough for
      each of them); the text is kept in the event and the buffer is not a
      field of the state.  [SECRET_SSID] comes from [secrets.h]; its text
      is printed as the name of the macro.
    - [execFlowPulses] (server) pulses a pin between short busy waits on
      [micros()]; it is one event of the trace. *)

From Stdlib Require Import ZArith List Bool Ascii String Lia.
Import ListNotations.
Open Scope Z_scope.

(** ** 32-bit unsigned arithmetic *)

Definition ULONG_MODULUS : Z := 2 ^ 32.

Definition wrap32 (z : Z) : Z := z mod ULONG_MODULUS.

(** [a + b] on [unsigned long]. *)
Definition add32 (a b : Z) : Z := wrap32 (a + b).

(** [a++] on [unsigned long] (the new value). *)
Definition incr32 (a : Z) : Z := add32 a 1.

Definition is_ulong (z : Z) : Prop := 0 <= z < ULONG_MODULUS.

(** ** Characters and C strings *)

Definition NUL : ascii := "000"%char.
Definition LF : ascii := "010"%char.
Definition CR : ascii := "013"%char.

Definition nl : string := String LF EmptyString.

(** The C string held by [char c [2] = ""] once [c[0]] has been assigned:
    empty when the character is NUL. *)
Definition cstring_of_char (c : ascii) : string :=
  if Ascii.eqb c NUL then EmptyString else String c EmptyString.

(** [strcat(dest, src)] into an array of [cap] bytes.  The result and its
    terminating NUL must fit; writing beyond the array is undefined
    behaviour, modelled as [None]. *)
Definition strcat (cap : nat) (dest src : string) : option string :=
  let r := (dest ++ src)%string in
  if (String.length r <? cap)%nat then Some r else None.

(** ** Events: what a sketch asks of its environment *)

Inductive event : Type :=
| SerialPrint (s : string)                (* Serial.print(text) *)
| SerialPrintln (s : string)              (* Serial.println(text) *)
| SerialPrintNum (n : Z)                  (* Serial.print(integer) *)
| SerialPrintlnNum (n : Z)                (* Serial.println(integer or address) *)
| SerialPrintlnSeconds (ms : Z)           (* Serial.println((float) millis() / 1000.), [ms] the reading *)
| SerialPrintf (fmt : string) (args : list Z) (* sprintf(s200, fmt, args); Serial.print(s200) *)
| DigitalWrite (pin : Z) (high : bool)
| ExecFlowPulses (pulses : Z)             (* the oscilloscope cue, taken as one event *)
| WiFiDisconnect
| WiFiEnd
| WiFiConfig
| WiFiBegin
| ServerBegin
| ServerAvailable                         (* client = server.available() *)
| ClientConnect                           (* client.connect(serverAddress, serverPort) *)
| ClientStop
| ClientPrintln (n : Z)                   (* client.println(number) *)
| ClientPrint (s : string)                (* client.print(text) *)
| ClientRead (c : ascii).                 (* client.read(), with the character read *)

(** ** Environment: what the drivers answer during one call of a procedure

    [clock k] is the time the [k]-th [millis()] call site of the procedure
    (counted in the order of the source text, from 0) would see; the other
    fields are the values returned by the driver calls of the same name. *)

Record env : Type := mkEnv {
  clock : nat -> Z;
  WiFi_status : Z;
  WiFi_begin : Z;
  WiFi_localIP : Z;
  WiFi_RSSI : Z;
  client_connected : bool;
  client_connect : Z;
  client_available : Z;
  client_read : ascii;
  client_write : Z
}.

(** [millis()] returns an [unsigned long]. *)
Definition millis (e : env) (site : nat) : Z := wrap32 (clock e site).

Definition WL_CONNECTED : Z := 3.

Definition HIGH : bool := true.
Definition LOW : bool := false.

(** The answers [e] of the drivers, except that one character [c] is
    waiting in the TCP client. *)
Definition deliver (c : ascii) (e : env) : env :=
  mkEnv (clock e) (WiFi_status e) (WiFi_begin e) (WiFi_localIP e) (WiFi_RSSI e)
    (client_connected e) (client_connect e) 1 c (client_write e).

(** The answers [e] of the drivers, except that no client is connected. *)
Definition nobody (e : env) : env :=
  mkEnv (clock e) (WiFi_status e) (WiFi_begin e) (WiFi_localIP e) (WiFi_RSSI e)
    false (client_connect e) (client_available e) (client_read e) (client_write e).

(** Drivers at time [t] when all goes well: WiFi associated, the peer
    connected and answering to [connect], nothing to read, 9 bytes
    written. *)
Definition quiet (t : Z) : env :=
  mkEnv (fun _ => t) WL_CONNECTED WL_CONNECTED 0 0 true 1 0 NUL 9.

(** The same with the WiFi link down and [WiFi.begin] failing. *)
Definition no_wifi (t : Z) : env :=
  mkEnv (fun _ => t) 0 0 0 0 true 1 0 NUL 9.

(** The same with the WiFi link reported lost but [WiFi.begin] succeeding. *)
Definition wifi_lost (t : Z) : env :=
  mkEnv (fun _ => t) 0 WL_CONNECTED 0 0 true 1 0 NUL 9.

(** The same as [quiet] with [client.connect] refused. *)
Definition refused (t : Z) : env :=
  mkEnv (fun _ => t) WL_CONNECTED WL_CONNECTED 0 0 true 0 0 NUL 9.

Definition list_of_string : string -> list ascii := list_ascii_of_string.

(** The request line of the test set-up: seven digits, carriage return,
    line feed. *)
Definition request_line : string :=
  ("1230001" ++ String CR (String LF EmptyString))%string.

(** ** Observations on a trace *)

Definition heartbeat_text : string := "******** Heartbeat - connection state is S%d at ".

Definition count_events (f : event -> bool) (t : list event) : nat :=
  List.length (List.filter f t).

(** [WiFi.begin] was called: an attempt to associate. *)
Definition is_wifi_attempt (ev : event) : bool :=
  match ev with WiFiBegin => true | _ => false end.

(** [client.connect] (client) or [server.available] (server) was called:
    an attempt to establish the TCP connection. *)
Definition is_connect_attempt (ev : event) : bool :=
  match ev with ClientConnect | ServerAvailable => true | _ => false end.

(** A heartbeat line was printed. *)
Definition is_heartbeat (ev : event) : bool :=
  match ev with SerialPrintf f _ => String.eqb f heartbeat_text | _ => false end.

(** A poll of the listening socket was announced on the serial monitor
    (the [<] printed before the poll). *)
Definition is_poll_report (ev : event) : bool :=
  match ev with SerialPrint r => String.eqb r "<" | _ => false end.

(** [changeConnectionState] reported the state of number [n]. *)
Definition is_state_report (n : Z) (ev : event) : bool :=
  match ev with
  | SerialPrintf f [m] => String.eqb f "(S%d)" && (m =? n)
  | _ => false
  end.

(** The number of the state last reported by [changeConnectionState], if
    any. *)
Fixpoint last_state_report (t : list event) : option Z :=
  match t with
  | [] => None
  | SerialPrintf f [n] :: t' =>
      if String.eqb f "(S%d)" then Some n else last_state_report t'
  | _ :: t' => last_state_report t'
  end.

(** A few answers of the drivers, enough to take every branch of the
    procedures from the initial values of the timestamps. *)
Definition probes : list env :=
  [quiet 0; quiet 20000; no_wifi 6000; wifi_lost 6000; refused 6000;
   nobody (quiet 0); nobody (quiet 6000); deliver LF (quiet 0)].

(** Every character of a C string passes the test. *)
Fixpoint string_forall (f : ascii -> bool) (b : string) : bool :=
  match b with
  | EmptyString => true
  | String c b' => f c && string_forall f b'
  end.

Definition not_char (x c : ascii) : bool := negb (Ascii.eqb c x).

(** The characters the client keeps of a response: all but carriage
    return, line feed and NUL. *)
Definition kept (c : ascii) : bool :=
  negb (Ascii.eqb c CR || Ascii.eqb c LF || Ascii.eqb c NUL).

(** [client.stop()] was called. *)
Definition is_client_stop (ev : event) : bool :=
  match ev with ClientStop => true | _ => false end.

(** The value of a 32-bit counter that counts the events passing [f]. *)
Definition tally (f : event -> bool) (t : list event) : Z :=
  wrap32 (Z.of_nat (count_events f t)).

(** A cycle of WiFi association was announced (both sketches print the
    same texts). *)
Definition is_link_report (ev : event) : bool :=
  match ev with
  | SerialPrint r =>
      String.eqb r "Connecting to WiFi, SSID = "
      || String.eqb r "Wifi connection lost. Reconnecting, SSID = "
  | _ => false
  end.

(** Something that is not part of a heartbeat line was printed on the
    serial monitor: a text, a number, or a formatted text other than the
    heartbeat's (the time stamps that close the lines are left out). *)
Definition is_report (ev : event) : bool :=
  match ev with
  | SerialPrint _ | SerialPrintNum _ | SerialPrintlnNum _ => true
  | SerialPrintln r => negb (String.eqb r EmptyString)
  | SerialPrintf f _ => negb (String.eqb f heartbeat_text)
  | _ => false
  end.

(** The text of the summary printed by [lastConnectionReport]. *)
Definition summary_text : string :=
  "Connections WiFi: %ld, client: %ld. Errors: %ld at ".

(** Every summary printed shows the numbers of link cycles, of
    connections and of errors reported before it. *)
Fixpoint summaries_match (conn err : event -> bool) (t : list event) : Prop :=
  match t with
  | [] => True
  | ev :: t' =>
      (forall w c e, ev = SerialPrintf summary_text [w; c; e] ->
                     w = tally is_link_report t' /\
                     c = tally conn t' /\
                     e = tally err t') /\
      summaries_match conn err t'
  end.

(** The level last written to pin 13, the on-board LED that flags an open
    TCP connection; low as long as the pin was not written. *)
Fixpoint pin13_high (t : list event) : bool :=
  match t with
  | [] => false
  | DigitalWrite pin high :: t' => if pin =? 13 then high else pin13_high t'
  | _ :: t' => pin13_high t'
  end.

Notation "s |> f" := (f s) (at level 45, left associativity, only parsing).

(** ** The client sketch *)

Module Client.

Inductive ConnectionState_type : Type :=
| conn_0_wifiConnectNow
| conn_1_wifiDelayConnection
| conn_2_wifiConnected
| conn_3_clientDelayConnection
| conn_4_clientConnected
| conn_5_requestSent
| conn_6_stopClientNow
| conn_7_report.

(** The integer value of an enumerator. *)
Definition code (c : ConnectionState_type) : Z :=
  match c with
  | conn_0_wifiConnectNow => 0
  | conn_1_wifiDelayConnection => 1
  | conn_2_wifiConnected => 2
  | conn_3_clientDelayConnection => 3
  | conn_4_clientConnected => 4
  | conn_5_requestSent => 5
  | conn_6_stopClientNow => 6
  | conn_7_report => 7
  end.

Definition wifiConnectDelay : Z := 5000.
Definition clientConnectDelay : Z := 100.
Definition readingTimeOut : Z := 10000.
Definition heartbeatPeriod : Z := 1000.

(** Size of [char serverResponse [ 20 ]]. *)
Definition serverResponse_size : nat := 20.

Record state : Type := mkState {
  messageCounter : Z;
  errors : Z;
  startReadingAt : Z;
  lastHeartbeat : Z;
  wifiConnectTime : Z;
  clientStopTime : Z;
  wifiConnections : Z;
  clientConnections : Z;
  connectionState : ConnectionState_type;
  serverResponse : string;
  trace : list event
}.

Definition init : state :=
  {| messageCounter := 1230001; errors := 0;
     startReadingAt := 0; lastHeartbeat := 0;
     wifiConnectTime := 0; clientStopTime := 0;
     wifiConnections := 0; clientConnections := 0;
     connectionState := conn_0_wifiConnectNow;
     serverResponse := EmptyString;
     trace := [] |}.

Definition set_messageCounter (v : Z) (s : state) : state :=
  mkState v (errors s) (startReadingAt s) (lastHeartbeat s) (wifiConnectTime s)
    (clientStopTime s) (wifiConnections s) (clientConnections s)
    (connectionState s) (serverResponse s) (trace s).

Definition set_errors (v : Z) (s : state) : state :=
  mkState (messageCounter s) v (startReadingAt s) (lastHeartbeat s) (wifiConnectTime s)
    (clientStopTime s) (wifiConnections s) (clientConnections s)
    (connectionState s) (serverResponse s) (trace s).

Definition set_startReadingAt (v : Z) (s : state) : state :=
  mkState (messageCounter s) (errors s) v (lastHeartbeat s) (wifiConnectTime s)
    (clientStopTime s) (wifiConnections s) (clientConnections s)
    (connectionState s) (serverResponse s) (trace s).

Definition set_lastHeartbeat (v : Z) (s : state) : state :=
  mkState (messageCounter s) (errors s) (startReadingAt s) v (wifiConnectTime s)
    (clientStopTime s) (wifiConnections s) (clientConnections s)
    (connectionState s) (serverResponse s) (trace s).

Definition set_wifiConnectTime (v : Z) (s : state) : state :=
  mkState (messageCounter s) (errors s) (startReadingAt s) (lastHeartbeat s) v
    (clientStopTime s) (wifiConnections s) (clientConnections s)
    (connectionState s) (serverResponse s) (trace s).

Definition set_clientStopTime (v : Z) (s : state) : state :=
  mkState (messageCounter s) (errors s) (startReadingAt s) (lastHeartbeat s) (wifiConnectTime s)
    v (wifiConnections s) (clientConnections s)
    (connectionState s) (serverResponse s) (trace s).

Definition set_wifiConnections (v : Z) (s : state) : state :=
  mkState (messageCounter s) (errors s) (startReadingAt s) (lastHeartbeat s) (wifiConnectTime s)
    (clientStopTime s) v (clientConnections s)
    (connectionState s) (serverResponse s) (trace s).

Definition set_clientConnections (v : Z) (s : state) : state :=
  mkState (messageCounter s) (errors s) (startReadingAt s) (lastHeartbeat s) (wifiConnectTime s)
    (clientStopTime s) (wifiConnections s) v
    (connectionState s) (serverResponse s) (trace s).

Definition set_connectionState (v : ConnectionState_type) (s : state) : state :=
  mkState (messageCounter s) (errors s) (startReadingAt s) (lastHeartbeat s) (wifiConnectTime s)
    (clientStopTime s) (wifiConnections s) (clientConnections s)
    v (serverResponse s) (trace s).

Definition set_serverResponse (v : string) (s : state) : state :=
  mkState (messageCounter s) (errors s) (startReadingAt s) (lastHeartbeat s) (wifiConnectTime s)
    (clientStopTime s) (wifiConnections s) (clientConnections s)
    (connectionState s) v (trace s).

(** A call on a driver: the event is recorded in front of the trace. *)
Definition emit (ev : event) (s : state) : state :=
  mkState (messageCounter s) (errors s) (startReadingAt s) (lastHeartbeat s) (wifiConnectTime s)
    (clientStopTime s) (wifiConnections s) (clientConnections s)
    (connectionState s) (serverResponse s) (ev :: trace s).

Definition changeConnectionState (newState : ConnectionState_type) (s : state) : state :=
  s |> set_connectionState newState
    |> emit (SerialPrintf "(S%d)" [code newState]).

Definition reportWifiStatus (e : env) (s : state) : state :=
  s |> emit (SerialPrint "IP Address: ")
    |> emit (SerialPrintlnNum (WiFi_localIP e))
    |> emit (SerialPrint "signal strength (RSSI):")
    |> emit (SerialPrintNum (WiFi_RSSI e))
    |> emit (SerialPrintln (" dBm" ++ nl)).

(** The part of [connectToWiFi] after the [switch]: "try connecting to
    wifi now".  Clock sites 2 and 3 of [connectToWiFi]. *)
Definition tryConnectingToWiFi (e : env) (s : state) : state :=
  let s := s |> emit (SerialPrint "...")
             |> emit WiFiDisconnect
             |> emit WiFiEnd
             |> emit WiFiBegin in
  let s :=
    if WiFi_begin e =? WL_CONNECTED then
      s |> emit (SerialPrint (nl ++ "Connected to wifi at "))
        |> emit (SerialPrintlnSeconds (millis e 2))
        |> reportWifiStatus e
        |> changeConnectionState conn_2_wifiConnected
    else
      s |> emit (SerialPrint "...")
        |> changeConnectionState conn_1_wifiDelayConnection in
  s |> set_wifiConnectTime (millis e 3).

(** Clock sites: 0 the test of [conn_1_wifiDelayConnection], 1 the test of
    the [default] case, 2 the report of success, 3 the final record. *)
Definition connectToWiFi (e : env) (s : state) : state :=
  match connectionState s with
  | conn_0_wifiConnectNow =>
      s |> emit (SerialPrint "Connecting to WiFi, SSID = ")
        |> emit (SerialPrintln "SECRET_SSID")
        |> set_wifiConnections (incr32 (wifiConnections s))
        |> tryConnectingToWiFi e
  | conn_1_wifiDelayConnection =>
      if add32 (wifiConnectTime s) wifiConnectDelay >? millis e 0 then s
      else tryConnectingToWiFi e s
  | _ =>
      if WiFi_status e =? WL_CONNECTED then s
      else if add32 (wifiConnectTime s) wifiConnectDelay >? millis e 1 then s
      else
        s |> emit (SerialPrint "Wifi connection lost. Reconnecting, SSID = ")
          |> emit (SerialPrintln "SECRET_SSID")
          |> set_wifiConnections (incr32 (wifiConnections s))
          |> emit (DigitalWrite 13 LOW)
          |> tryConnectingToWiFi e
  end.

(** The part of [connectToServer] after the [switch]: "try connecting
    with server now".  Clock sites 2 to 5 of [connectToServer]. *)
Definition tryConnectingWithServer (e : env) (s : state) : state :=
  let s := s |> emit (SerialPrint "Connecting client... at ")
             |> emit (SerialPrintlnSeconds (millis e 2))
             |> emit ClientConnect in
  if negb (client_connect e =? 0) then
    s |> emit (SerialPrint "connected to server at ")
      |> emit (SerialPrintlnSeconds (millis e 3))
      |> emit (DigitalWrite 13 HIGH)
      |> set_clientConnections (incr32 (clientConnections s))
      |> changeConnectionState conn_4_clientConnected
  else
    s |> set_errors (incr32 (errors s))
      |> set_clientStopTime (millis e 4)
      |> emit (SerialPrint "not connected yet at ")
      |> emit (SerialPrintlnSeconds (millis e 5))
      |> changeConnectionState conn_3_clientDelayConnection.

(** Clock sites: 0 the test of [conn_3_clientDelayConnection], 1 the
    report of a lost connection, 2 to 5 in the attempt. *)
Definition connectToServer (e : env) (s : state) : state :=
  if code (connectionState s) <? code conn_2_wifiConnected then s
  else
    match connectionState s with
    | conn_2_wifiConnected => tryConnectingWithServer e s
    | conn_3_clientDelayConnection =>
        if add32 (clientStopTime s) clientConnectDelay >? millis e 0 then s
        else
          s |> changeConnectionState conn_2_wifiConnected
            |> tryConnectingWithServer e
    | _ =>
        if negb (client_connected e) then
          s |> set_errors (incr32 (errors s))
            |> emit (SerialPrint "**** Error: client connection was lost at ")
            |> emit (SerialPrintlnSeconds (millis e 1))
            |> changeConnectionState conn_6_stopClientNow
        else s
    end.

(** Clock sites: 0 the report, 1 the record of [startReadingAt]. *)
Definition sendRequestToServer (e : env) (s : state) : state :=
  match connectionState s with
  | conn_4_clientConnected =>
      let s := s |> emit (ClientPrintln (messageCounter s)) in
      let n := client_write e in
      let s :=
        if negb (n =? 9) then
          s |> emit (SerialPrint "===================================")
            |> emit (SerialPrintlnNum n)
        else s in
      s |> emit (SerialPrintf "request sent: %ld at " [messageCounter s])
        |> emit (SerialPrintlnSeconds (millis e 0))
        |> set_serverResponse EmptyString
        |> set_startReadingAt (millis e 1)
        |> changeConnectionState conn_5_requestSent
  | _ => s
  end.

(** Clock sites: 0 the report of a complete response, 1 the time-out
    test, 2 the report of the time-out.  [None]: [strcat] wrote beyond
    [serverResponse]. *)
Definition assembleServerResponse (e : env) (s : state) : option state :=
  match connectionState s with
  | conn_5_requestSent =>
      if negb (client_available e =? 0) then
        let c0 := client_read e in
        let c := cstring_of_char c0 in
        let s := s |> emit (SerialPrint "[")
                   |> emit (ClientRead c0) in
        let appended :=
          if negb (Ascii.eqb c0 CR || Ascii.eqb c0 LF) then
            match strcat serverResponse_size (serverResponse s) c with
            | Some r => Some (s |> set_serverResponse r |> emit (SerialPrint c))
            | None => None
            end
          else
            Some (s |> emit (SerialPrint
                     (if Ascii.eqb c0 CR then "(CR)"
                      else if Ascii.eqb c0 LF then "(LF)" else "(??)"))) in
        match appended with
        | None => None
        | Some s =>
            let s := s |> emit (SerialPrint "]") in
            if Ascii.eqb c0 LF then
              Some (s |> emit (SerialPrint ("response read: " ++ serverResponse s ++ " at "))
                      |> emit (SerialPrintlnSeconds (millis e 0))
                      |> set_messageCounter (incr32 (messageCounter s))
                      |> changeConnectionState conn_6_stopClientNow)
            else Some s
        end
      else if add32 (startReadingAt s) readingTimeOut <? millis e 1 then
        Some (s |> set_errors (incr32 (errors s))
                |> emit (SerialPrint (nl ++ "**** Error: timeout while reading response at "))
                |> emit (SerialPrintlnSeconds (millis e 2))
                |> changeConnectionState conn_6_stopClientNow)
      else Some s
  | _ => Some s
  end.

(** Clock sites: 0 the record of [clientStopTime], 1 the report. *)
Definition stopTCPconnection (e : env) (s : state) : state :=
  match connectionState s with
  | conn_6_stopClientNow =>
      s |> emit (SerialPrint "stopping... ")
        |> emit ClientStop
        |> set_clientStopTime (millis e 0)
        |> emit (DigitalWrite 13 LOW)
        |> emit (SerialPrint "disconnected from client at ")
        |> emit (SerialPrintlnSeconds (millis e 1))
        |> changeConnectionState conn_7_report
  | _ => s
  end.

(** Clock site 0: the report. *)
Definition lastConnectionReport (e : env) (s : state) : state :=
  match connectionState s with
  | conn_7_report =>
      s |> emit (SerialPrintf "Connections WiFi: %ld, client: %ld. Errors: %ld at "
                   [wifiConnections s; clientConnections s; errors s])
        |> emit (SerialPrintlnSeconds (millis e 0))
        |> emit (SerialPrintln ("------------------------------------------------------------" ++ nl))
        |> changeConnectionState conn_3_clientDelayConnection
  | _ => s
  end.

(** Clock sites: 0 the test, 1 the report, 2 the record of
    [lastHeartbeat]. *)
Definition heartbeat (e : env) (s : state) : state :=
  if add32 (lastHeartbeat s) heartbeatPeriod <? millis e 0 then
    let s :=
      if (code (connectionState s) <=? code conn_2_wifiConnected)
         || (code (connectionState s) =? code conn_4_clientConnected)
      then s |> emit (SerialPrintln EmptyString)
      else s in
    s |> emit (SerialPrintf heartbeat_text [code (connectionState s)])
      |> emit (SerialPrintlnSeconds (millis e 1))
      |> set_lastHeartbeat (millis e 2)
  else s.

(** The procedures called by [loop()], in the order of the calls. *)
Inductive procedure : Type :=
| ConnectToWiFi
| ConnectToServer
| SendRequestToServer
| AssembleServerResponse
| StopTCPconnection
| LastConnectionReport
| Heartbeat.

Definition call (p : procedure) (e : env) (s : state) : option state :=
  match p with
  | ConnectToWiFi => Some (connectToWiFi e s)
  | ConnectToServer => Some (connectToServer e s)
  | SendRequestToServer => Some (sendRequestToServer e s)
  | AssembleServerResponse => assembleServerResponse e s
  | StopTCPconnection => Some (stopTCPconnection e s)
  | LastConnectionReport => Some (lastConnectionReport e s)
  | Heartbeat => Some (heartbeat e s)
  end.

(** The answers of the drivers during one pass of [loop()]: one [env] per
    procedure called. *)
Definition pass : Type := procedure -> env.

Fixpoint calls (ps : list procedure) (w : pass) (s : state) : option state :=
  match ps with
  | [] => Some s
  | p :: ps' =>
      match call p (w p) s with
      | Some s' => calls ps' w s'
      | None => None
      end
  end.

Definition loop_order : list procedure :=
  [ConnectToWiFi; ConnectToServer; SendRequestToServer; AssembleServerResponse;
   StopTCPconnection; LastConnectionReport; Heartbeat].

Definition loop (w : pass) (s : state) : option state := calls loop_order w s.

(** Successive passes of [loop()]. *)
Fixpoint run (ws : list pass) (s : state) : option state :=
  match ws with
  | [] => Some s
  | w :: ws' =>
      match loop w s with
      | Some s' => run ws' s'
      | None => None
      end
  end.

(** *** Notions used by the statements about the client *)

(** The states in which a procedure goes past its test of
    [connectionState].  [connectToWiFi] has a case for every state (it
    watches the WiFi link in the states after [conn_1_wifiDelayConnection])
    and [heartbeat] does not look at the state to decide. *)
Definition armed (p : procedure) (c : ConnectionState_type) : bool :=
  match p with
  | ConnectToWiFi => true
  | ConnectToServer => code conn_2_wifiConnected <=? code c
  | SendRequestToServer => code c =? code conn_4_clientConnected
  | AssembleServerResponse => code c =? code conn_5_requestSent
  | StopTCPconnection => code c =? code conn_6_stopClientNow
  | LastConnectionReport => code c =? code conn_7_report
  | Heartbeat => true
  end.

(** Every [unsigned long] global holds a 32-bit value. *)
Definition wf (s : state) : Prop :=
  is_ulong (messageCounter s) /\ is_ulong (errors s) /\
  is_ulong (startReadingAt s) /\ is_ulong (lastHeartbeat s) /\
  is_ulong (wifiConnectTime s) /\ is_ulong (clientStopTime s) /\
  is_ulong (wifiConnections s) /\ is_ulong (clientConnections s).

(** The numbers sent as requests, most recent first. *)
Fixpoint requests (t : list event) : list Z :=
  match t with
  | [] => []
  | ClientPrintln n :: t' => n :: requests t'
  | _ :: t' => requests t'
  end.

(** The characters read from the server, most recent first. *)
Fixpoint reads (t : list event) : list ascii :=
  match t with
  | [] => []
  | ClientRead c :: t' => c :: reads t'
  | _ :: t' => reads t'
  end.

(** The number of exchanges completed: a line feed was read from the
    server. *)
Fixpoint completed (t : list event) : Z :=
  match t with
  | [] => 0
  | ClientRead c :: t' => (if Ascii.eqb c LF then 1 else 0) + completed t'
  | _ :: t' => completed t'
  end.

(** Every request carries the initial number plus the number of exchanges
    completed before it was sent. *)
Fixpoint numbered (t : list event) : Prop :=
  match t with
  | [] => True
  | ClientPrintln n :: t' => n = wrap32 (messageCounter init + completed t') /\ numbered t'
  | _ :: t' => numbered t'
  end.

(** Successive calls of [assembleServerResponse], one character of [cs]
    available at each call; [base k] gives the other answers of the
    drivers at call [k]. *)
Fixpoint feed (k : nat) (cs : list ascii) (base : nat -> env) (s : state) : option state :=
  match cs with
  | [] => Some s
  | c :: cs' =>
      match assembleServerResponse (deliver c (base k)) s with
      | Some s' => feed (S k) cs' base s'
      | None => None
      end
  end.

(** State, time of the last attempt to join the WiFi network, time of the
    last stop or failed connection, numbers of attempts to join the WiFi
    network and to connect so far. *)
Definition retry_summary (s : state) : ConnectionState_type * Z * Z * nat * nat :=
  (connectionState s, wifiConnectTime s, clientStopTime s,
   count_events is_wifi_attempt (trace s),
   count_events is_connect_attempt (trace s)).

(** Time of the last heartbeat and number of heartbeats so far. *)
Definition heartbeat_summary (s : state) : Z * nat :=
  (lastHeartbeat s, count_events is_heartbeat (trace s)).

(** *** Notions used by further statements about the client *)

Definition all_states : list ConnectionState_type :=
  [conn_0_wifiConnectNow; conn_1_wifiDelayConnection; conn_2_wifiConnected;
   conn_3_clientDelayConnection; conn_4_clientConnected; conn_5_requestSent;
   conn_6_stopClientNow; conn_7_report].

Definition state_eqb (a b : ConnectionState_type) : bool := code a =? code b.

(** The changes of [connectionState] one call of a procedure can make. *)
Definition transition (p : procedure) (a b : ConnectionState_type) : bool :=
  match p, a with
  | ConnectToWiFi, (conn_0_wifiConnectNow | conn_1_wifiDelayConnection) =>
      state_eqb b conn_1_wifiDelayConnection || state_eqb b conn_2_wifiConnected
  | ConnectToWiFi, _ =>
      state_eqb b a || state_eqb b conn_1_wifiDelayConnection
      || state_eqb b conn_2_wifiConnected
  | ConnectToServer, (conn_0_wifiConnectNow | conn_1_wifiDelayConnection) => state_eqb b a
  | ConnectToServer, (conn_2_wifiConnected | conn_3_clientDelayConnection) =>
      state_eqb b conn_3_clientDelayConnection || state_eqb b conn_4_clientConnected
  | ConnectToServer, _ => state_eqb b a || state_eqb b conn_6_stopClientNow
  | SendRequestToServer, conn_4_clientConnected => state_eqb b conn_5_requestSent
  | AssembleServerResponse, conn_5_requestSent =>
      state_eqb b conn_5_requestSent || state_eqb b conn_6_stopClientNow
  | StopTCPconnection, conn_6_stopClientNow => state_eqb b conn_7_report
  | LastConnectionReport, conn_7_report => state_eqb b conn_3_clientDelayConnection
  | _, _ => state_eqb b a
  end.

(** Some answer of [probes] takes procedure [p] from state [a] to state [b]
    (the other globals as at the start). *)
Definition realised (p : procedure) (a b : ConnectionState_type) : bool :=
  existsb (fun e => match call p e (set_connectionState a init) with
                    | Some s' => state_eqb (connectionState s') b
                    | None => false
                    end) probes.

(** The changes of [connectionState] a sequence of calls can make. *)
Fixpoint path (ps : list procedure) (a b : ConnectionState_type) : bool :=
  match ps with
  | [] => state_eqb b a
  | p :: ps' => existsb (fun c => transition p a c && path ps' c b) all_states
  end.

(** The states in which a pass of [loop()] can end. *)
Definition pass_end (c : ConnectionState_type) : bool :=
  match c with
  | conn_1_wifiDelayConnection | conn_3_clientDelayConnection | conn_5_requestSent => true
  | _ => false
  end.

(** [connectionState] is the state last reported, or the initial one when
    none was reported yet. *)
Definition state_is_traced (s : state) : Prop :=
  match last_state_report (trace s) with
  | Some n => n = code (connectionState s)
  | None => connectionState s = conn_0_wifiConnectNow
  end.

(** [serverResponse] holds kept characters only. *)
Definition response_ok (s : state) : Prop :=
  string_forall kept (serverResponse s) = true.

(** The reports that go with [clientConnections] and with [errors]. *)
Definition is_connection_report (ev : event) : bool :=
  match ev with
  | SerialPrint r => String.eqb r "connected to server at "
  | _ => false
  end.

Definition is_error_report (ev : event) : bool :=
  match ev with
  | SerialPrint r =>
      String.eqb r "**** Error: client connection was lost at "
      || String.eqb r "not connected yet at "
      || String.eqb r (nl ++ "**** Error: timeout while reading response at ")
  | _ => false
  end.

(** The three counters are the numbers of reports printed, and so are the
    figures of the summaries. *)
Definition counters_match (s : state) : Prop :=
  wifiConnections s = tally is_link_report (trace s) /\
  clientConnections s = tally is_connection_report (trace s) /\
  errors s = tally is_error_report (trace s) /\
  summaries_match is_connection_report is_error_report (trace s).

(** The TCP connection is new: [client.connect] succeeded (pin 13 was set
    high) and, since then, no request was sent, [client.stop] was not
    called and the link was not announced lost (pin 13 set low). *)
Fixpoint fresh_connection (t : list event) : bool :=
  match t with
  | [] => false
  | DigitalWrite _ high :: _ => high
  | ClientPrintln _ :: _ => false
  | ClientStop :: _ => false
  | _ :: t' => fresh_connection t'
  end.

(** Every request was sent on a new connection. *)
Fixpoint requests_on_fresh_connections (t : list event) : bool :=
  match t with
  | [] => true
  | ClientPrintln n :: t' => fresh_connection t' && requests_on_fresh_connections t'
  | _ :: t' => requests_on_fresh_connections t'
  end.

(** The driver call a procedure is there for: [WiFi.begin],
    [client.connect], [client.println] of the request, [client.read],
    [client.stop]. *)
Definition driver_call (p : procedure) (ev : event) : bool :=
  match p, ev with
  | ConnectToWiFi, WiFiBegin => true
  | ConnectToServer, ClientConnect => true
  | SendRequestToServer, ClientPrintln _ => true
  | AssembleServerResponse, ClientRead _ => true
  | StopTCPconnection, ClientStop => true
  | _, _ => false
  end.

(** The states in which the TCP connection is open: from the connection
    to the call of [client.stop]. *)
Definition connection_open (c : ConnectionState_type) : bool :=
  (code conn_4_clientConnected <=? code c) && (code c <=? code conn_6_stopClientNow).

End Client.

(** ** The server sketch *)

Module Server.

Inductive ConnectionState_type : Type :=
| conn_0_wifiConnectNow
| conn_1_wifiDelayConnection
| conn_2_wifiConnected
| conn_3_clientDelayConnection
| conn_4_clientConnected
| conn_5_requestReceived
| conn_6_stopClientNow
| conn_7_report.

Definition code (c : ConnectionState_type) : Z :=
  match c with
  | conn_0_wifiConnectNow => 0
  | conn_1_wifiDelayConnection => 1
  | conn_2_wifiConnected => 2
  | conn_3_clientDelayConnection => 3
  | conn_4_clientConnected => 4
  | conn_5_requestReceived => 5
  | conn_6_stopClientNow => 6
  | conn_7_report => 7
  end.

Definition wifiConnectDelay : Z := 5000.
Definition clientConnectDelay : Z := 100.
Definition readingTimeOut : Z := 10000.
Definition heartbeatPeriod : Z := 1000.
Definition reportingTimeout : Z := 120000.

(** Size of [char clientRequest [ 20 ]]. *)
Definition clientRequest_size : nat := 20.

Record state : Type := mkState {
  errors : Z;
  startReadingAt : Z;
  lastHeartbeat : Z;
  wifiConnectTime : Z;
  clientStopTime : Z;
  wifiConnections : Z;
  clientConnections : Z;
  ConnTriesAfterStateChange : Z;
  reportingStartTime : Z;
  reportToSerialMonitor : bool;
  connectionState : ConnectionState_type;
  clientRequest : string;
  trace : list event
}.

Definition init : state :=
  {| errors := 0;
     startReadingAt := 0; lastHeartbeat := 0;
     wifiConnectTime := 0; clientStopTime := 0;
     wifiConnections := 0; clientConnections := 0;
     ConnTriesAfterStateChange := 0;
     reportingStartTime := 0;
     reportToSerialMonitor := true;
     connectionState := conn_0_wifiConnectNow;
     clientRequest := EmptyString;
     trace := [] |}.

Definition set_errors (v : Z) (s : state) : state :=
  mkState v (startReadingAt s) (lastHeartbeat s) (wifiConnectTime s) (clientStopTime s)
    (wifiConnections s) (clientConnections s) (ConnTriesAfterStateChange s)
    (reportingStartTime s) (reportToSerialMonitor s) (connectionState s)
    (clientRequest s) (trace s).

Definition set_startReadingAt (v : Z) (s : state) : state :=
  mkState (errors s) v (lastHeartbeat s) (wifiConnectTime s) (clientStopTime s)
    (wifiConnections s) (clientConnections s) (ConnTriesAfterStateChange s)
    (reportingStartTime s) (reportToSerialMonitor s) (connectionState s)
    (clientRequest s) (trace s).

Definition set_lastHeartbeat (v : Z) (s : state) : state :=
  mkState (errors s) (startReadingAt s) v (wifiConnectTime s) (clientStopTime s)
    (wifiConnections s) (clientConnections s) (ConnTriesAfterStateChange s)
    (reportingStartTime s) (reportToSerialMonitor s) (connectionState s)
    (clientRequest s) (trace s).

Definition set_wifiConnectTime (v : Z) (s : state) : state :=
  mkState (errors s) (startReadingAt s) (lastHeartbeat s) v (clientStopTime s)
    (wifiConnections s) (clientConnections s) (ConnTriesAfterStateChange s)
    (reportingStartTime s) (reportToSerialMonitor s) (connectionState s)
    (clientRequest s) (trace s).

Definition set_clientStopTime (v : Z) (s : state) : state :=
  mkState (errors s) (startReadingAt s) (lastHeartbeat s) (wifiConnectTime s) v
    (wifiConnections s) (clientConnections s) (ConnTriesAfterStateChange s)
    (reportingStartTime s) (reportToSerialMonitor s) (connectionState s)
    (clientRequest s) (trace s).

Definition set_wifiConnections (v : Z) (s : state) : state :=
  mkState (errors s) (startReadingAt s) (lastHeartbeat s) (wifiConnectTime s) (clientStopTime s)
    v (clientConnections s) (ConnTriesAfterStateChange s)
    (reportingStartTime s) (reportToSerialMonitor s) (connectionState s)
    (clientRequest s) (trace s).

Definition set_clientConnections (v : Z) (s : state) : state :=
  mkState (errors s) (startReadingAt s) (lastHeartbeat s) (wifiConnectTime s) (clientStopTime s)
    (wifiConnections s) v (ConnTriesAfterStateChange s)
    (reportingStartTime s) (reportToSerialMonitor s) (connectionState s)
    (clientRequest s) (trace s).

Definition set_ConnTriesAfterStateChange (v : Z) (s : state) : state :=
  mkState (errors s) (startReadingAt s) (lastHeartbeat s) (wifiConnectTime s) (clientStopTime s)
    (wifiConnections s) (clientConnections s) v
    (reportingStartTime s) (reportToSerialMonitor s) (connectionState s)
    (clientRequest s) (trace s).

Definition set_reportingStartTime (v : Z) (s : state) : state :=
  mkState (errors s) (startReadingAt s) (lastHeartbeat s) (wifiConnectTime s) (clientStopTime s)
    (wifiConnections s) (clientConnections s) (ConnTriesAfterStateChange s)
    v (reportToSerialMonitor s) (connectionState s)
    (clientRequest s) (trace s).

Definition set_reportToSerialMonitor (v : bool) (s : state) : state :=
  mkState (errors s) (startReadingAt s) (lastHeartbeat s) (wifiConnectTime s) (clientStopTime s)
    (wifiConnections s) (clientConnections s) (ConnTriesAfterStateChange s)
    (reportingStartTime s) v (connectionState s)
    (clientRequest s) (trace s).

Definition set_connectionState (v : ConnectionState_type) (s : state) : state :=
  mkState (errors s) (startReadingAt s) (lastHeartbeat s) (wifiConnectTime s) (clientStopTime s)
    (wifiConnections s) (clientConnections s) (ConnTriesAfterStateChange s)
    (reportingStartTime s) (reportToSerialMonitor s) v
    (clientRequest s) (trace s).

Definition set_clientRequest (v : string) (s : state) : state :=
  mkState (errors s) (startReadingAt s) (lastHeartbeat s) (wifiConnectTime s) (clientStopTime s)
    (wifiConnections s) (clientConnections s) (ConnTriesAfterStateChange s)
    (reportingStartTime s) (reportToSerialMonitor s) (connectionState s)
    v (trace s).

Definition emit (ev : event) (s : state) : state :=
  mkState (errors s) (startReadingAt s) (lastHeartbeat s) (wifiConnectTime s) (clientStopTime s)
    (wifiConnections s) (clientConnections s) (ConnTriesAfterStateChange s)
    (reportingStartTime s) (reportToSerialMonitor s) (connectionState s)
    (clientRequest s) (ev :: trace s).

Definition changeConnectionState (newState : ConnectionState_type) (s : state) : state :=
  s |> set_connectionState newState
    |> emit (SerialPrintf "(S%d)" [code newState]).

Definition reportWifiStatus (e : env) (s : state) : state :=
  s |> emit (SerialPrint "IP Address: ")
    |> emit (SerialPrintlnNum (WiFi_localIP e))
    |> emit (SerialPrint "signal strength (RSSI):")
    |> emit (SerialPrintNum (WiFi_RSSI e))
    |> emit (SerialPrintln (" dBm" ++ nl)).

(** The part of [connectToWiFi] after the [switch].  Clock sites 2, 3 and
    4 of [connectToWiFi]. *)
Definition tryConnectingToWiFi (e : env) (s : state) : state :=
  let s := s |> emit (SerialPrint "...")
             |> set_reportToSerialMonitor true
             |> set_reportingStartTime (millis e 2)
             |> emit WiFiDisconnect
             |> emit WiFiEnd
             |> emit WiFiConfig
             |> emit WiFiBegin in
  let s :=
    if WiFi_begin e =? WL_CONNECTED then
      s |> set_ConnTriesAfterStateChange 0
        |> emit (SerialPrint (nl ++ "Connected to wifi at "))
        |> emit (SerialPrintlnSeconds (millis e 3))
        |> reportWifiStatus e
        |> emit ServerBegin
        |> changeConnectionState conn_2_wifiConnected
    else
      s |> emit (SerialPrint "...")
        |> changeConnectionState conn_1_wifiDelayConnection in
  s |> set_wifiConnectTime (millis e 4).

(** Clock sites: 0 the test of [conn_1_wifiDelayConnection], 1 the test of
    the [default] case, 2 the re-trigger of the reporting window, 3 the
    report of success, 4 the final record. *)
Definition connectToWiFi (e : env) (s : state) : state :=
  match connectionState s with
  | conn_0_wifiConnectNow =>
      s |> emit (SerialPrint "Connecting to WiFi, SSID = ")
        |> emit (SerialPrintln "SECRET_SSID")
        |> set_wifiConnections (incr32 (wifiConnections s))
        |> tryConnectingToWiFi e
  | conn_1_wifiDelayConnection =>
      if add32 (wifiConnectTime s) wifiConnectDelay >? millis e 0 then s
      else tryConnectingToWiFi e s
  | _ =>
      if WiFi_status e =? WL_CONNECTED then s
      else if add32 (wifiConnectTime s) wifiConnectDelay >? millis e 1 then s
      else
        s |> emit (SerialPrint "Wifi connection lost. Reconnecting, SSID = ")
          |> emit (SerialPrintln "SECRET_SSID")
          |> set_wifiConnections (incr32 (wifiConnections s))
          |> emit (DigitalWrite 13 LOW)
          |> tryConnectingToWiFi e
  end.

(** The part of [connectToClient] after the [switch]: "try connecting
    client now", one poll of the listening socket.  Clock sites 2, 3 and 4
    of [connectToClient]. *)
Definition tryConnectingClient (e : env) (s : state) : state :=
  let s :=
    if (ConnTriesAfterStateChange s <=? 20) && reportToSerialMonitor s
    then s |> emit (SerialPrint "<") else s in
  let s := s |> emit (DigitalWrite 10 HIGH)
             |> emit (ExecFlowPulses 3)
             |> emit ServerAvailable
             |> emit (DigitalWrite 10 LOW) in
  let tries := ConnTriesAfterStateChange s in
  let s := s |> set_ConnTriesAfterStateChange (incr32 tries) in
  let s :=
    if (tries <=? 20) && reportToSerialMonitor s
    then s |> emit (SerialPrint
                  (if negb (ConnTriesAfterStateChange s =? 21) then ">" else "...>"))
    else s in
  let s := s |> emit (DigitalWrite 10 HIGH)
             |> emit (ExecFlowPulses 3) in
  let s :=
    if client_connected e then
      s |> set_reportToSerialMonitor true
        |> set_reportingStartTime (millis e 2)
        |> emit (SerialPrint (nl ++ "connected to client at "))
        |> emit (SerialPrintlnSeconds (millis e 3))
        |> emit (DigitalWrite 13 HIGH)
        |> set_clientConnections (incr32 (clientConnections s))
        |> set_clientRequest EmptyString
        |> set_startReadingAt (millis e 4)
        |> changeConnectionState conn_4_clientConnected
    else s in
  s |> emit (DigitalWrite 10 LOW).

(** Clock sites: 0 the test of [conn_3_clientDelayConnection], 1 the
    report of a disconnected client, 2 to 4 in the poll. *)
Definition connectToClient (e : env) (s : state) : state :=
  if code (connectionState s) <? code conn_2_wifiConnected then s
  else
    match connectionState s with
    | conn_2_wifiConnected => tryConnectingClient e s
    | conn_3_clientDelayConnection =>
        if add32 (clientStopTime s) clientConnectDelay >? millis e 0 then s
        else
          s |> set_ConnTriesAfterStateChange 0
            |> changeConnectionState conn_2_wifiConnected
            |> tryConnectingClient e
    | _ =>
        let s := s |> emit (DigitalWrite 10 HIGH)
                   |> emit (ExecFlowPulses 1) in
        let s :=
          if negb (client_connected e) then
            s |> emit (SerialPrint "Client disconnected (or connection lost) at ")
              |> emit (SerialPrintlnSeconds (millis e 1))
              |> changeConnectionState conn_6_stopClientNow
          else s in
        s |> emit (DigitalWrite 10 LOW)
    end.

(** Clock sites: 0 the report of a complete request, 1 the time-out test,
    2 the report of the time-out.  [None]: [strcat] wrote beyond
    [clientRequest]. *)
Definition assembleClientRequest (e : env) (s : state) : option state :=
  match connectionState s with
  | conn_4_clientConnected =>
      let s := s |> emit (DigitalWrite 10 HIGH)
                 |> emit (ExecFlowPulses 2) in
      let result :=
        if negb (client_available e =? 0) then
          let c0 := client_read e in
          let c := cstring_of_char c0 in
          let s := s |> emit (SerialPrint "[")
                     |> emit (ExecFlowPulses 0)
                     |> emit (ClientRead c0) in
          match strcat clientRequest_size (clientRequest s) c with
          | None => None
          | Some r =>
              let s := s |> set_clientRequest r in
              let s :=
                if negb (Ascii.eqb c0 CR || Ascii.eqb c0 LF) then
                  s |> emit (SerialPrint c)
                else
                  s |> emit (SerialPrint
                        (if Ascii.eqb c0 CR then "(CR)"
                         else if Ascii.eqb c0 LF then "(LF)" else "(??)")) in
              let s := s |> emit (SerialPrint "]") in
              if Ascii.eqb c0 LF then
                Some (s |> emit (SerialPrint (nl ++ "request read at "))
                        |> emit (SerialPrintlnSeconds (millis e 0))
                        |> changeConnectionState conn_5_requestReceived)
              else Some s
          end
        else if add32 (startReadingAt s) readingTimeOut <? millis e 1 then
          Some (s |> set_errors (incr32 (errors s))
                  |> emit (SerialPrint (nl ++ "**** Error: timeout while reading request at "))
                  |> emit (SerialPrintlnSeconds (millis e 2))
                  |> changeConnectionState conn_6_stopClientNow)
        else Some s in
      match result with
      | Some s => Some (s |> emit (DigitalWrite 10 LOW))
      | None => None
      end
  | _ => Some s
  end.

(** Clock sites: 0 the report, 1 the record of [startReadingAt]. *)
Definition sendResponseToClient (e : env) (s : state) : state :=
  match connectionState s with
  | conn_5_requestReceived =>
      let s := s |> emit (ClientPrint (clientRequest s)) in
      let n := client_write e in
      let s :=
        if negb (n =? 9) then
          s |> emit (SerialPrint "===================================")
            |> emit (SerialPrintlnNum n)
        else s in
      s |> emit (SerialPrint "response sent at ")
        |> emit (SerialPrintlnSeconds (millis e 0))
        |> set_clientRequest EmptyString
        |> set_startReadingAt (millis e 1)
        |> changeConnectionState conn_4_clientConnected
  | _ => s
  end.

(** Clock sites: 0 the record of [clientStopTime], 1 the report. *)
Definition stopTCPconnection (e : env) (s : state) : state :=
  match connectionState s with
  | conn_6_stopClientNow =>
      s |> emit (SerialPrint "stopping... ")
        |> emit ClientStop
        |> set_clientStopTime (millis e 0)
        |> emit (DigitalWrite 13 LOW)
        |> emit (SerialPrint "disconnected from client at ")
        |> emit (SerialPrintlnSeconds (millis e 1))
        |> changeConnectionState conn_7_report
  | _ => s
  end.

(** Clock site 0: the report. *)
Definition lastConnectionReport (e : env) (s : state) : state :=
  match connectionState s with
  | conn_7_report =>
      s |> emit (SerialPrintf "Connections WiFi: %ld, client: %ld. Errors: %ld at "
                   [wifiConnections s; clientConnections s; errors s])
        |> emit (SerialPrintlnSeconds (millis e 0))
        |> emit (SerialPrintln ("------------------------------------------------------------" ++ nl))
        |> changeConnectionState conn_3_clientDelayConnection
  | _ => s
  end.

Definition stop_reporting_text : string :=
  (nl ++ nl ++ "No connection since a while: stopping reporting at ")%string.

(** Clock sites: 0 the heartbeat test, 1 the test of the reporting window,
    2 the report, 3 the record of [lastHeartbeat], 4 the announcement that
    reporting stops. *)
Definition heartbeat (e : env) (s : state) : state :=
  let s := s |> emit (ExecFlowPulses 0) in
  if add32 (lastHeartbeat s) heartbeatPeriod <? millis e 0 then
    let s := s |> set_ConnTriesAfterStateChange 0 in
    if add32 (reportingStartTime s) reportingTimeout >? millis e 1 then
      let s :=
        if (code (connectionState s) <=? code conn_2_wifiConnected)
           || (code (connectionState s) =? code conn_4_clientConnected)
        then s |> emit (SerialPrintln EmptyString)
        else s in
      s |> emit (SerialPrintf heartbeat_text [code (connectionState s)])
        |> emit (SerialPrintlnSeconds (millis e 2))
        |> set_lastHeartbeat (millis e 3)
    else if reportToSerialMonitor s then
      s |> set_reportToSerialMonitor false
        |> emit (SerialPrint stop_reporting_text)
        |> emit (SerialPrintlnSeconds (millis e 4))
    else s
  else s.

Inductive procedure : Type :=
| ConnectToWiFi
| ConnectToClient
| AssembleClientRequest
| SendResponseToClient
| StopTCPconnection
| LastConnectionReport
| Heartbeat.

Definition call (p : procedure) (e : env) (s : state) : option state :=
  match p with
  | ConnectToWiFi => Some (connectToWiFi e s)
  | ConnectToClient => Some (connectToClient e s)
  | AssembleClientRequest => assembleClientRequest e s
  | SendResponseToClient => Some (sendResponseToClient e s)
  | StopTCPconnection => Some (stopTCPconnection e s)
  | LastConnectionReport => Some (lastConnectionReport e s)
  | Heartbeat => Some (heartbeat e s)
  end.

Definition pass : Type := procedure -> env.

Fixpoint calls (ps : list procedure) (w : pass) (s : state) : option state :=
  match ps with
  | [] => Some s
  | p :: ps' =>
      match call p (w p) s with
      | Some s' => calls ps' w s'
      | None => None
      end
  end.

Definition loop_order : list procedure :=
  [ConnectToWiFi; ConnectToClient; AssembleClientRequest; SendResponseToClient;
   StopTCPconnection; LastConnectionReport; Heartbeat].

Definition loop (w : pass) (s : state) : option state := calls loop_order w s.

Fixpoint run (ws : list pass) (s : state) : option state :=
  match ws with
  | [] => Some s
  | w :: ws' =>
      match loop w s with
      | Some s' => run ws' s'
      | None => None
      end
  end.

(** *** Notions used by the statements about the server *)

Definition armed (p : procedure) (c : ConnectionState_type) : bool :=
  match p with
  | ConnectToWiFi => true
  | ConnectToClient => code conn_2_wifiConnected <=? code c
  | AssembleClientRequest => code c =? code conn_4_clientConnected
  | SendResponseToClient => code c =? code conn_5_requestReceived
  | StopTCPconnection => code c =? code conn_6_stopClientNow
  | LastConnectionReport => code c =? code conn_7_report
  | Heartbeat => true
  end.

Definition wf (s : state) : Prop :=
  is_ulong (errors s) /\
  is_ulong (startReadingAt s) /\ is_ulong (lastHeartbeat s) /\
  is_ulong (wifiConnectTime s) /\ is_ulong (clientStopTime s) /\
  is_ulong (wifiConnections s) /\ is_ulong (clientConnections s) /\
  is_ulong (ConnTriesAfterStateChange s) /\ is_ulong (reportingStartTime s).

(** The texts sent as responses, most recent first. *)
Fixpoint responses (t : list event) : list string :=
  match t with
  | [] => []
  | ClientPrint r :: t' => r :: responses t'
  | _ :: t' => responses t'
  end.

(** Successive calls of [assembleClientRequest], one character of [cs]
    available at each call. *)
Fixpoint feed (k : nat) (cs : list ascii) (base : nat -> env) (s : state) : option state :=
  match cs with
  | [] => Some s
  | c :: cs' =>
      match assembleClientRequest (deliver c (base k)) s with
      | Some s' => feed (S k) cs' base s'
      | None => None
      end
  end.

(** [n] successive calls of [connectToClient] during which no client
    shows up. *)
Fixpoint failed_polls (n : nat) (base : nat -> env) (s : state) : state :=
  match n with
  | O => s
  | S n' => connectToClient (nobody (base n')) (failed_polls n' base s)
  end.

(** Passes at the given times during which the WiFi link is up and nobody
    connects. *)
Definition waiting (times : list Z) : list pass :=
  List.map (fun (t : Z) (_ : procedure) => nobody (quiet t)) times.

(** State, counter of polls, number of polls announced and number of
    entries into [conn_2_wifiConnected] so far. *)
Definition poll_summary (s : state) : ConnectionState_type * Z * nat * nat :=
  (connectionState s, ConnTriesAfterStateChange s,
   count_events is_poll_report (trace s),
   count_events (is_state_report 2) (trace s)).

Definition retry_summary (s : state) : ConnectionState_type * Z * Z * nat * nat :=
  (connectionState s, wifiConnectTime s, clientStopTime s,
   count_events is_wifi_attempt (trace s),
   count_events is_connect_attempt (trace s)).

(** The announcement that reporting stops was printed. *)
Definition is_stop_announcement (ev : event) : bool :=
  match ev with SerialPrint r => String.eqb r stop_reporting_text | _ => false end.

(** Time of the last heartbeat, start of the reporting window and number
    of heartbeats so far. *)
Definition heartbeat_summary (s : state) : Z * Z * nat :=
  (lastHeartbeat s, reportingStartTime s, count_events is_heartbeat (trace s)).

(** *** Notions used by further statements about the server *)

Definition all_states : list ConnectionState_type :=
  [conn_0_wifiConnectNow; conn_1_wifiDelayConnection; conn_2_wifiConnected;
   conn_3_clientDelayConnection; conn_4_clientConnected; conn_5_requestReceived;
   conn_6_stopClientNow; conn_7_report].

Definition state_eqb (a b : ConnectionState_type) : bool := code a =? code b.

(** The changes of [connectionState] one call of a procedure can make. *)
Definition transition (p : procedure) (a b : ConnectionState_type) : bool :=
  match p, a with
  | ConnectToWiFi, (conn_0_wifiConnectNow | conn_1_wifiDelayConnection) =>
      state_eqb b conn_1_wifiDelayConnection || state_eqb b conn_2_wifiConnected
  | ConnectToWiFi, _ =>
      state_eqb b a || state_eqb b conn_1_wifiDelayConnection
      || state_eqb b conn_2_wifiConnected
  | ConnectToClient, (conn_0_wifiConnectNow | conn_1_wifiDelayConnection) => state_eqb b a
  | ConnectToClient, conn_2_wifiConnected =>
      state_eqb b conn_2_wifiConnected || state_eqb b conn_4_clientConnected
  | ConnectToClient, conn_3_clientDelayConnection =>
      state_eqb b conn_3_clientDelayConnection || state_eqb b conn_2_wifiConnected
      || state_eqb b conn_4_clientConnected
  | ConnectToClient, _ => state_eqb b a || state_eqb b conn_6_stopClientNow
  | AssembleClientRequest, conn_4_clientConnected =>
      state_eqb b conn_4_clientConnected || state_eqb b conn_5_requestReceived
      || state_eqb b conn_6_stopClientNow
  | SendResponseToClient, conn_5_requestReceived => state_eqb b conn_4_clientConnected
  | StopTCPconnection, conn_6_stopClientNow => state_eqb b conn_7_report
  | LastConnectionReport, conn_7_report => state_eqb b conn_3_clientDelayConnection
  | _, _ => state_eqb b a
  end.

Definition realised (p : procedure) (a b : ConnectionState_type) : bool :=
  existsb (fun e => match call p e (set_connectionState a init) with
                    | Some s' => state_eqb (connectionState s') b
                    | None => false
                    end) probes.

Fixpoint path (ps : list procedure) (a b : ConnectionState_type) : bool :=
  match ps with
  | [] => state_eqb b a
  | p :: ps' => existsb (fun c => transition p a c && path ps' c b) all_states
  end.

(** The states in which a pass of [loop()] can end. *)
Definition pass_end (c : ConnectionState_type) : bool :=
  match c with
  | conn_1_wifiDelayConnection | conn_2_wifiConnected
  | conn_3_clientDelayConnection | conn_4_clientConnected => true
  | _ => false
  end.

Definition state_is_traced (s : state) : Prop :=
  match last_state_report (trace s) with
  | Some n => n = code (connectionState s)
  | None => connectionState s = conn_0_wifiConnectNow
  end.

(** A text closed by its only line feed. *)
Definition complete_line (b : string) : Prop :=
  exists body, b = (body ++ String LF EmptyString)%string /\
               string_forall (not_char LF) body = true.

(** A complete line without NUL. *)
Definition line_ok (r : string) : Prop :=
  string_forall (not_char NUL) r = true /\
  complete_line r.

(** [clientRequest] holds no NUL; while a request is awaited it holds no
    line feed; once the request is received it is a complete line; and
    the responses sent so far were such lines. *)
Definition request_ok (s : state) : Prop :=
  string_forall (not_char NUL) (clientRequest s) = true /\
  (connectionState s = conn_4_clientConnected ->
   string_forall (not_char LF) (clientRequest s) = true) /\
  (connectionState s = conn_5_requestReceived -> complete_line (clientRequest s)) /\
  Forall line_ok (responses (trace s)).

(** A session: for each line in turn, the bytes of the line are assembled,
    one per call of [assembleClientRequest], and [sendResponseToClient] is
    called; [base k] gives the other answers of the drivers at call [k]. *)
Fixpoint serve (k : nat) (lines : list (list ascii)) (base : nat -> env) (s : state)
  : option state :=
  match lines with
  | [] => Some s
  | l :: ls =>
      match feed k l base s with
      | Some s1 =>
          serve (S (k + List.length l)) ls base
            (sendResponseToClient (base (k + List.length l)%nat) s1)
      | None => None
      end
  end.

(** A line the server can hold: no NUL, one line feed, at the end, and at
    most 19 bytes. *)
Definition valid_line (l : list ascii) : Prop :=
  exists body, l = body ++ [LF] /\
               Forall (fun c => c <> LF /\ c <> NUL) body /\
               (List.length body + 1 < clientRequest_size)%nat.

(** The reports that go with [clientConnections] and with [errors]. *)
Definition is_connection_report (ev : event) : bool :=
  match ev with
  | SerialPrint r => String.eqb r (nl ++ "connected to client at ")
  | _ => false
  end.

Definition is_error_report (ev : event) : bool :=
  match ev with
  | SerialPrint r => String.eqb r (nl ++ "**** Error: timeout while reading request at ")
  | _ => false
  end.

(** The three counters are the numbers of reports printed, and so are the
    figures of the summaries. *)
Definition counters_match (s : state) : Prop :=
  wifiConnections s = tally is_link_report (trace s) /\
  clientConnections s = tally is_connection_report (trace s) /\
  errors s = tally is_error_report (trace s) /\
  summaries_match is_connection_report is_error_report (trace s).

(** The driver call a procedure is there for: [WiFi.begin],
    [server.available], [client.read], [client.print] of the response,
    [client.stop]. *)
Definition driver_call (p : procedure) (ev : event) : bool :=
  match p, ev with
  | ConnectToWiFi, WiFiBegin => true
  | ConnectToClient, ServerAvailable => true
  | AssembleClientRequest, ClientRead _ => true
  | SendResponseToClient, ClientPrint _ => true
  | StopTCPconnection, ClientStop => true
  | _, _ => false
  end.

(** Passes during which the WiFi link is up and no client is there. *)
Definition idle (w : pass) : Prop :=
  WiFi_status (w ConnectToWiFi) = WL_CONNECTED /\
  client_connected (w ConnectToClient) = false.

(** The states in which the TCP connection is open: from the connection
    to the call of [client.stop]. *)
Definition connection_open (c : ConnectionState_type) : bool :=
  (code conn_4_clientConnected <=? code c) && (code c <=? code conn_6_stopClientNow).

End Server.

(** * Properties *)

(** ** 32-bit arithmetic *)

Lemma ULONG_MODULUS_value : ULONG_MODULUS = 4294967296.
Proof. reflexivity. Qed.

Lemma wrap32_range (z : Z) : is_ulong (wrap32 z).
Proof. unfold is_ulong, wrap32. apply Z.mod_pos_bound. reflexivity. Qed.

Lemma wrap32_small (z : Z) : is_ulong z -> wrap32 z = z.
Proof. unfold is_ulong, wrap32. intros H. apply Z.mod_small. exact H. Qed.

Lemma millis_range (e : env) (k : nat) : is_ulong (millis e k).
Proof. apply wrap32_range. Qed.

Lemma add32_range (a b : Z) : is_ulong (add32 a b).
Proof. apply wrap32_range. Qed.

Lemma incr32_range (a : Z) : is_ulong (incr32 a).
Proof. apply wrap32_range. Qed.

Lemma add32_small (a b : Z) : is_ulong (a + b) -> add32 a b = a + b.
Proof. apply wrap32_small. Qed.

Lemma incr32_small (a : Z) : 0 <= a < ULONG_MODULUS - 1 -> incr32 a = a + 1.
Proof.
  intros H. apply add32_small. unfold is_ulong, ULONG_MODULUS in *. lia.
Qed.

Lemma incr32_wrap32 (z : Z) : incr32 (wrap32 z) = wrap32 (z + 1).
Proof.
  unfold incr32, add32, wrap32. apply Z.add_mod_idemp_l. discriminate.
Qed.

Arguments wrap32 : simpl never.
Arguments add32 : simpl never.
Arguments incr32 : simpl never.
Arguments millis : simpl never.

Create HintDb ulong.

#[local] Hint Resolve wrap32_range millis_range add32_range incr32_range : ulong.

(** Linear arithmetic over 32-bit ranges. *)
Ltac ulia := unfold is_ulong, ULONG_MODULUS in *; lia.

(** Split on every test met in the goal. *)
Ltac split_tests :=
  repeat match goal with
         | |- context [if ?b then _ else _] => destruct b eqn:?
         | |- context [match strcat ?n ?a ?b with _ => _ end] => destruct (strcat n a b) eqn:?
         end.

(** ** A procedure called outside its states does nothing *)

Lemma client_call_not_armed (p : Client.procedure) (e : env) (s : Client.state) :
  Client.armed p (Client.connectionState s) = false -> Client.call p e s = Some s.
Proof.
  destruct s as [mc er sr lh wt ct wc cc st buf tr]; cbn [Client.connectionState].
  destruct p, st; cbn; intros H; try discriminate H; reflexivity.
Qed.

Lemma server_call_not_armed (p : Server.procedure) (e : env) (s : Server.state) :
  Server.armed p (Server.connectionState s) = false -> Server.call p e s = Some s.
Proof.
  destruct s as [er sr lh wt ct wc cc tries rs rep st buf tr]; cbn [Server.connectionState].
  destruct p, st; cbn; intros H; try discriminate H; reflexivity.
Qed.

Lemma client_connectToWiFi_link_up (e : env) (s : Client.state) :
  Client.code Client.conn_2_wifiConnected <= Client.code (Client.connectionState s) ->
  WiFi_status e = WL_CONNECTED ->
  Client.connectToWiFi e s = s.
Proof.
  destruct s as [mc er sr lh wt ct wc cc st buf tr]; cbn [Client.connectionState].
  intros Hc Hw. unfold Client.connectToWiFi. cbn [Client.connectionState].
  rewrite Hw. destruct st; cbn in Hc; try lia; reflexivity.
Qed.

Lemma server_connectToWiFi_link_up (e : env) (s : Server.state) :
  Server.code Server.conn_2_wifiConnected <= Server.code (Server.connectionState s) ->
  WiFi_status e = WL_CONNECTED ->
  Server.connectToWiFi e s = s.
Proof.
  destruct s as [er sr lh wt ct wc cc tries rs rep st buf tr]; cbn [Server.connectionState].
  intros Hc Hw. unfold Server.connectToWiFi. cbn [Server.connectionState].
  rewrite Hw. destruct st; cbn in Hc; try lia; reflexivity.
Qed.

(** C2.  A procedure of [loop()] called while [connectionState] is not one
    of the states it acts in returns the state it was given: the connection
    state, the counters ([wifiConnections], [clientConnections], [errors],
    [messageCounter]), the timestamps ([wifiConnectTime], [clientStopTime],
    [startReadingAt], [lastHeartbeat]) and everything else are unchanged,
    and nothing is asked of the drivers.  This holds in every state, hence
    in every reachable one, for the client and for the server.  The link
    procedure has no such state; in the states after the link states it
    does nothing as long as the link is up. *)
Theorem tick_outside_armed_state_is_noop :
  (forall p e s, Client.armed p (Client.connectionState s) = false ->
                 Client.call p e s = Some s) /\
  (forall p e s, Server.armed p (Server.connectionState s) = false ->
                 Server.call p e s = Some s) /\
  (forall e s, Client.code Client.conn_2_wifiConnected <= Client.code (Client.connectionState s) ->
               WiFi_status e = WL_CONNECTED ->
               Client.call Client.ConnectToWiFi e s = Some s) /\
  (forall e s, Server.code Server.conn_2_wifiConnected <= Server.code (Server.connectionState s) ->
               WiFi_status e = WL_CONNECTED ->
               Server.call Server.ConnectToWiFi e s = Some s).
Proof.
  split; [exact client_call_not_armed|].
  split; [exact server_call_not_armed|].
  split; intros e s Hc Hw; cbn [Client.call Server.call]; f_equal.
  - now apply client_connectToWiFi_link_up.
  - now apply server_connectToWiFi_link_up.
Qed.

Lemma tick_outside_armed_state_is_noop_witness :
  Client.call Client.SendRequestToServer (quiet 0) Client.init = Some Client.init /\
  Server.call Server.StopTCPconnection (quiet 0) Server.init = Some Server.init /\
  Client.call Client.ConnectToWiFi (quiet 7)
    (Client.set_connectionState Client.conn_5_requestSent Client.init)
  = Some (Client.set_connectionState Client.conn_5_requestSent Client.init) /\
  Server.call Server.ConnectToWiFi (quiet 7)
    (Server.set_connectionState Server.conn_4_clientConnected Server.init)
  = Some (Server.set_connectionState Server.conn_4_clientConnected Server.init).
Proof.
  destruct tick_outside_armed_state_is_noop as (Hc & Hs & Hlc & Hls).
  split; [apply Hc; reflexivity|].
  split; [apply Hs; reflexivity|].
  split; [apply Hlc; [vm_compute; discriminate | reflexivity]|].
  apply Hls; [vm_compute; discriminate | reflexivity].
Defined.

(** ** Read time-out *)

Lemma deadline_passed (start d now : Z) :
  is_ulong start -> 0 <= d -> is_ulong now -> start + d < now ->
  (add32 start d <? now) = true.
Proof.
  intros Hs Hd Hn Hlt. rewrite add32_small by ulia.
  apply Z.ltb_lt. exact Hlt.
Qed.

Lemma client_read_timeout (e : env) (s : Client.state) :
  Client.connectionState s = Client.conn_5_requestSent ->
  Client.wf s ->
  client_available e = 0 ->
  Client.startReadingAt s + Client.readingTimeOut < millis e 1 ->
  exists s', Client.assembleServerResponse e s = Some s' /\
             Client.connectionState s' = Client.conn_6_stopClientNow /\
             Client.errors s' = incr32 (Client.errors s) /\
             (Client.errors s < ULONG_MODULUS - 1 -> Client.errors s' = Client.errors s + 1).
Proof.
  destruct s as [mc er sr lh wt ct wc cc st buf tr].
  unfold Client.wf; cbn [Client.connectionState Client.startReadingAt Client.errors
                         Client.messageCounter Client.lastHeartbeat Client.wifiConnectTime
                         Client.clientStopTime Client.wifiConnections Client.clientConnections].
  intros -> Hwf Hav Hlt.
  unfold Client.assembleServerResponse; cbn [Client.connectionState Client.startReadingAt].
  rewrite Hav; cbn [Z.eqb negb].
  rewrite deadline_passed; [| tauto | discriminate | apply millis_range | exact Hlt].
  eexists; split; [reflexivity|]. cbn.
  split; [reflexivity|]. split; [reflexivity|].
  intros Hsmall. apply incr32_small. ulia.
Qed.

Lemma server_read_timeout (e : env) (s : Server.state) :
  Server.connectionState s = Server.conn_4_clientConnected ->
  Server.wf s ->
  client_available e = 0 ->
  Server.startReadingAt s + Server.readingTimeOut < millis e 1 ->
  exists s', Server.assembleClientRequest e s = Some s' /\
             Server.connectionState s' = Server.conn_6_stopClientNow /\
             Server.errors s' = incr32 (Server.errors s) /\
             (Server.errors s < ULONG_MODULUS - 1 -> Server.errors s' = Server.errors s + 1).
Proof.
  destruct s as [er sr lh wt ct wc cc tries rs rep st buf tr].
  unfold Server.wf; cbn [Server.connectionState Server.startReadingAt Server.errors
                         Server.lastHeartbeat Server.wifiConnectTime
                         Server.clientStopTime Server.wifiConnections Server.clientConnections
                         Server.ConnTriesAfterStateChange Server.reportingStartTime].
  intros -> Hwf Hav Hlt.
  unfold Server.assembleClientRequest; cbn [Server.connectionState].
  rewrite Hav; cbn [Z.eqb negb]. cbn [Server.emit Server.startReadingAt].
  rewrite deadline_passed; [| tauto | discriminate | apply millis_range | exact Hlt].
  eexists; split; [reflexivity|]. cbn.
  split; [reflexivity|]. split; [reflexivity|].
  intros Hsmall. apply incr32_small. ulia.
Qed.



(** The read time-out away from the wrap-around.  In the state where the
    sketch waits for bytes (client: [conn_5_requestSent]; server:
    [conn_4_clientConnected]), a call of the assembling procedure that
    finds no byte available at a value of [millis()] greater than
    [startReadingAt + readingTimeOut] moves to [conn_6_stopClientNow]
    (tear down) and increments [errors] once.  The calls before that wait
    ([client_read_waits], [server_read_waits]).  No such value of
    [millis()] exists once the sum reaches 2^32 - 1. *)
Theorem read_timeout_tears_down :
  (forall e s,
      Client.connectionState s = Client.conn_5_requestSent ->
      Client.wf s ->
      client_available e = 0 ->
      Client.startReadingAt s + Client.readingTimeOut < millis e 1 ->
      exists s', Client.assembleServerResponse e s = Some s' /\
                 Client.connectionState s' = Client.conn_6_stopClientNow /\
                 Client.errors s' = incr32 (Client.errors s) /\
                 (Client.errors s < ULONG_MODULUS - 1 ->
                  Client.errors s' = Client.errors s + 1)) /\
  (forall e s,
      Server.connectionState s = Server.conn_4_clientConnected ->
      Server.wf s ->
      client_available e = 0 ->
      Server.startReadingAt s + Server.readingTimeOut < millis e 1 ->
      exists s', Server.assembleClientRequest e s = Some s' /\
                 Server.connectionState s' = Server.conn_6_stopClientNow /\
                 Server.errors s' = incr32 (Server.errors s) /\
                 (Server.errors s < ULONG_MODULUS - 1 ->
                  Server.errors s' = Server.errors s + 1)).
Proof.
  split; intros e s; [apply client_read_timeout | apply server_read_timeout].
Qed.

Lemma read_timeout_tears_down_witness :
  (exists s', Client.assembleServerResponse (quiet 10001)
                (Client.set_connectionState Client.conn_5_requestSent Client.init) = Some s' /\
              Client.connectionState s' = Client.conn_6_stopClientNow /\
              Client.errors s' = incr32 0 /\
              (0 < ULONG_MODULUS - 1 -> Client.errors s' = 0 + 1)) /\
  (exists s', Server.assembleClientRequest (quiet 10001)
                (Server.set_connectionState Server.conn_4_clientConnected Server.init) = Some s' /\
              Server.connectionState s' = Server.conn_6_stopClientNow /\
              Server.errors s' = incr32 0 /\
              (0 < ULONG_MODULUS - 1 -> Server.errors s' = 0 + 1)).
Proof.
  split.
  - apply (proj1 read_timeout_tears_down (quiet 10001)
             (Client.set_connectionState Client.conn_5_requestSent Client.init)).
    + reflexivity.
    + vm_compute. intuition discriminate.
    + reflexivity.
    + vm_compute. reflexivity.
  - apply (proj2 read_timeout_tears_down (quiet 10001)
             (Server.set_connectionState Server.conn_4_clientConnected Server.init)).
    + reflexivity.
    + vm_compute. intuition discriminate.
    + reflexivity.
    + vm_compute. reflexivity.
Defined.

(** ** The read time-out near the wrap-around *)

(** A recorded start at [2^32 - 1 - readingTimeOut]: the deadline is the
    largest value [millis()] can return, and no call ever finds it
    passed. *)
Lemma client_deadline_never_passed (e : env) (s : Client.state) :
  Client.connectionState s = Client.conn_5_requestSent ->
  Client.startReadingAt s = ULONG_MODULUS - 1 - Client.readingTimeOut ->
  client_available e = 0 ->
  Client.assembleServerResponse e s = Some s.
Proof.
  destruct s as [mc er sr lh wt ct wc cc st buf tr].
  cbn [Client.connectionState Client.startReadingAt]. intros -> -> Hav.
  unfold Client.assembleServerResponse; cbn [Client.connectionState Client.startReadingAt].
  rewrite Hav; cbn [Z.eqb negb].
  change (add32 (ULONG_MODULUS - 1 - Client.readingTimeOut) Client.readingTimeOut)
    with (ULONG_MODULUS - 1).
  pose proof (millis_range e 1) as Hm.
  destruct (Z.ltb_spec (ULONG_MODULUS - 1) (millis e 1)); [ulia | reflexivity].
Qed.

Lemma server_deadline_never_passed (e : env) (s : Server.state) :
  Server.connectionState s = Server.conn_4_clientConnected ->
  Server.startReadingAt s = ULONG_MODULUS - 1 - Server.readingTimeOut ->
  client_available e = 0 ->
  exists s', Server.assembleClientRequest e s = Some s' /\
             Server.connectionState s' = Server.conn_4_clientConnected /\
             Server.errors s' = Server.errors s.
Proof.
  destruct s as [er sr lh wt ct wc cc tries rs rep st buf tr].
  cbn [Server.connectionState Server.startReadingAt Server.errors]. intros -> -> Hav.
  unfold Server.assembleClientRequest; cbn [Server.connectionState].
  rewrite Hav; cbn [Z.eqb negb]. cbn [Server.emit Server.startReadingAt].
  change (add32 (ULONG_MODULUS - 1 - Server.readingTimeOut) Server.readingTimeOut)
    with (ULONG_MODULUS - 1).
  pose proof (millis_range e 1) as Hm.
  destruct (Z.ltb_spec (ULONG_MODULUS - 1) (millis e 1)); [ulia|].
  eexists. split; [reflexivity|]. split; reflexivity.
Qed.

(** C3 does not hold on the code: near the wrap-around of [millis()] the
    read time-out is not [readingTimeOut].  The deadline is computed as
    [startReadingAt + readingTimeOut] in 32 bits and compared with
    [millis()], which itself wraps to 0 after 2^32 - 1.
    - Client, one pass of [loop()] from reset at 4294960000, the link and
      the server being there and nothing to read yet: the request is sent
      and [startReadingAt] recorded; the sum wraps to 2704, so
      [assembleServerResponse], called next in the same pass, already
      finds the deadline passed: the time-out is reported, an error is
      counted and the connection is stopped, 0 ms after the request.
    - Client, the same pass at 4294957295: the deadline is 4294967295, no
      value of [millis()] is beyond it, and from then on a call with
      nothing to read never tears the connection down, whatever the time.
    - Server, the same two cases with the client connected at these
      times.
    Away from the wrap-around the time-out is kept ([client_read_timeout],
    [client_read_waits] and the server's). *)
Theorem read_timeout_is_not_always_kept :
  (exists s,
      Client.run [fun _ => quiet 4294960000] Client.init = Some s /\
      Client.requests (Client.trace s) = [1230001] /\
      Client.startReadingAt s = 4294960000 /\
      In (SerialPrint (nl ++ "**** Error: timeout while reading response at "))
         (Client.trace s) /\
      Client.errors s = 1 /\
      Client.connectionState s = Client.conn_3_clientDelayConnection) /\
  (exists s,
      Client.run [fun _ => quiet 4294957295] Client.init = Some s /\
      Client.connectionState s = Client.conn_5_requestSent /\
      Client.startReadingAt s = 4294957295 /\
      forall e, client_available e = 0 -> Client.assembleServerResponse e s = Some s) /\
  (exists s,
      Server.run [fun _ => quiet 4294960000] Server.init = Some s /\
      Server.clientConnections s = 1 /\
      Server.startReadingAt s = 4294960000 /\
      In (SerialPrint (nl ++ "**** Error: timeout while reading request at "))
         (Server.trace s) /\
      Server.errors s = 1 /\
      Server.connectionState s = Server.conn_3_clientDelayConnection) /\
  (exists s,
      Server.run [fun _ => quiet 4294957295] Server.init = Some s /\
      Server.connectionState s = Server.conn_4_clientConnected /\
      Server.startReadingAt s = 4294957295 /\
      forall e, client_available e = 0 ->
                exists s', Server.assembleClientRequest e s = Some s' /\
                           Server.connectionState s' = Server.conn_4_clientConnected /\
                           Server.errors s' = Server.errors s).
Proof.
  split; [|split; [|split]].
  - destruct (Client.run [fun _ => quiet 4294960000] Client.init) as [s|] eqn:E;
      [|vm_compute in E; discriminate E].
    exists s. split; [reflexivity|].
    vm_compute in E. injection E as <-.
    split; [reflexivity|]. split; [reflexivity|].
    split; [|split; reflexivity].
    vm_compute. repeat (first [left; reflexivity | right]).
  - destruct (Client.run [fun _ => quiet 4294957295] Client.init) as [s|] eqn:E;
      [|vm_compute in E; discriminate E].
    exists s. split; [reflexivity|].
    vm_compute in E. injection E as <-.
    split; [reflexivity|]. split; [reflexivity|].
    intros e Hav. apply client_deadline_never_passed; [reflexivity | reflexivity | exact Hav].
  - destruct (Server.run [fun _ => quiet 4294960000] Server.init) as [s|] eqn:E;
      [|vm_compute in E; discriminate E].
    exists s. split; [reflexivity|].
    vm_compute in E. injection E as <-.
    split; [reflexivity|]. split; [reflexivity|].
    split; [|split; reflexivity].
    vm_compute. repeat (first [left; reflexivity | right]).
  - destruct (Server.run [fun _ => quiet 4294957295] Server.init) as [s|] eqn:E;
      [|vm_compute in E; discriminate E].
    exists s. split; [reflexivity|].
    vm_compute in E. injection E as <-.
    split; [reflexivity|]. split; [reflexivity|].
    intros e Hav. apply server_deadline_never_passed; [reflexivity | reflexivity | exact Hav].
Qed.

(** ** The 32-bit ranges are kept *)

Arguments strcat : simpl never.
Arguments cstring_of_char : simpl never.

Lemma client_init_wf : Client.wf Client.init.
Proof. unfold Client.wf; cbn; ulia. Qed.

Lemma server_init_wf : Server.wf Server.init.
Proof. unfold Server.wf; cbn; ulia. Qed.

Lemma client_call_wf (p : Client.procedure) (e : env) (s s' : Client.state) :
  Client.wf s -> Client.call p e s = Some s' -> Client.wf s'.
Proof.
  destruct s as [mc er sr lh wt ct wc cc st buf tr].
  unfold Client.wf; cbn. intros Hwf.
  destruct p, st; cbn;
    unfold Client.connectToWiFi, Client.tryConnectingToWiFi, Client.connectToServer,
      Client.tryConnectingWithServer, Client.assembleServerResponse, Client.heartbeat;
    cbn; split_tests; intros [= <-]; cbn; intuition auto with ulong.
Qed.

Lemma server_call_wf (p : Server.procedure) (e : env) (s s' : Server.state) :
  Server.wf s -> Server.call p e s = Some s' -> Server.wf s'.
Proof.
  destruct s as [er sr lh wt ct wc cc tries rs rep st buf tr].
  unfold Server.wf; cbn. intros Hwf.
  destruct p, st; cbn;
    unfold Server.connectToWiFi, Server.tryConnectingToWiFi, Server.connectToClient,
      Server.tryConnectingClient, Server.assembleClientRequest, Server.heartbeat;
    cbn; repeat (progress (split_tests; cbn)); intros [= <-]; cbn; intuition (auto with ulong; try ulia).
Qed.

Lemma client_calls_wf (ps : list Client.procedure) (w : Client.pass) (s s' : Client.state) :
  Client.wf s -> Client.calls ps w s = Some s' -> Client.wf s'.
Proof.
  revert s. induction ps as [|p ps IH]; cbn [Client.calls]; intros s Hwf H.
  - injection H as <-. exact Hwf.
  - destruct (Client.call p (w p) s) as [s1|] eqn:E; [|discriminate].
    eapply IH; [|exact H]. eapply client_call_wf; eassumption.
Qed.

Lemma client_run_wf (ws : list Client.pass) (s s' : Client.state) :
  Client.wf s -> Client.run ws s = Some s' -> Client.wf s'.
Proof.
  revert s. induction ws as [|w ws IH]; cbn [Client.run]; intros s Hwf H.
  - injection H as <-. exact Hwf.
  - destruct (Client.loop w s) as [s1|] eqn:E; [|discriminate].
    eapply IH; [|exact H]. eapply client_calls_wf; eassumption.
Qed.

Lemma server_calls_wf (ps : list Server.procedure) (w : Server.pass) (s s' : Server.state) :
  Server.wf s -> Server.calls ps w s = Some s' -> Server.wf s'.
Proof.
  revert s. induction ps as [|p ps IH]; cbn [Server.calls]; intros s Hwf H.
  - injection H as <-. exact Hwf.
  - destruct (Server.call p (w p) s) as [s1|] eqn:E; [|discriminate].
    eapply IH; [|exact H]. eapply server_call_wf; eassumption.
Qed.

Lemma server_run_wf (ws : list Server.pass) (s s' : Server.state) :
  Server.wf s -> Server.run ws s = Some s' -> Server.wf s'.
Proof.
  revert s. induction ws as [|w ws IH]; cbn [Server.run]; intros s Hwf H.
  - injection H as <-. exact Hwf.
  - destruct (Server.loop w s) as [s1|] eqn:E; [|discriminate].
    eapply IH; [|exact H]. eapply server_calls_wf; eassumption.
Qed.


(** ** The server echoes the request *)

Lemma string_length_append (a b : string) :
  String.length (a ++ b) = (String.length a + String.length b)%nat.
Proof. induction a as [|c a IH]; cbn; [reflexivity | now rewrite IH]. Qed.

Lemma string_append_assoc (a b c : string) :
  ((a ++ b) ++ c = a ++ (b ++ c))%string.
Proof. induction a as [|x a IH]; cbn; [reflexivity | now rewrite IH]. Qed.

Lemma string_append_empty (a : string) : (a ++ EmptyString)%string = a.
Proof. induction a as [|x a IH]; cbn; [reflexivity | now rewrite IH]. Qed.

Lemma strcat_fits (cap : nat) (dest src : string) :
  (String.length dest + String.length src < cap)%nat ->
  strcat cap dest src = Some (dest ++ src)%string.
Proof.
  intros H. unfold strcat. rewrite string_length_append.
  destruct (Nat.ltb_spec (String.length dest + String.length src) cap); [reflexivity | lia].
Qed.

Lemma cstring_of_char_not_NUL (c : ascii) :
  c <> NUL -> cstring_of_char c = String c EmptyString.
Proof.
  intros H. unfold cstring_of_char.
  destruct (Ascii.eqb_spec c NUL); [contradiction | reflexivity].
Qed.

(** One call of [assembleClientRequest] that finds a character other than
    the line feed: the character is appended, the state stays. *)
Lemma server_assemble_char (e : env) (s : Server.state) :
  Server.connectionState s = Server.conn_4_clientConnected ->
  client_available e <> 0 ->
  client_read e <> LF -> client_read e <> NUL ->
  (String.length (Server.clientRequest s) + 1 < Server.clientRequest_size)%nat ->
  exists s',
    Server.assembleClientRequest e s = Some s' /\
    Server.clientRequest s' = (Server.clientRequest s ++ String (client_read e) EmptyString)%string /\
    Server.connectionState s' = Server.conn_4_clientConnected /\
    Server.responses (Server.trace s') = Server.responses (Server.trace s).
Proof.
  destruct s as [er sr lh wt ct wc cc tries rs rep st buf tr].
  cbn [Server.connectionState Server.clientRequest Server.trace].
  intros -> Hav Hlf Hnul Hlen.
  unfold Server.assembleClientRequest.
  cbn [Server.connectionState Server.clientRequest Server.emit].
  destruct (Z.eqb_spec (client_available e) 0) as [|_]; [contradiction|].
  cbn [negb].
  rewrite cstring_of_char_not_NUL by assumption.
  rewrite strcat_fits by exact Hlen.
  destruct (Ascii.eqb_spec (client_read e) LF) as [|_]; [contradiction|].
  destruct (Ascii.eqb (client_read e) CR);
    (eexists; split; [reflexivity|]; cbn; auto).
Qed.

(** One call of [assembleClientRequest] that finds the line feed: it is
    appended too and the request is complete. *)
Lemma server_assemble_line_feed (e : env) (s : Server.state) :
  Server.connectionState s = Server.conn_4_clientConnected ->
  client_available e <> 0 ->
  client_read e = LF ->
  (String.length (Server.clientRequest s) + 1 < Server.clientRequest_size)%nat ->
  exists s',
    Server.assembleClientRequest e s = Some s' /\
    Server.clientRequest s' = (Server.clientRequest s ++ String LF EmptyString)%string /\
    Server.connectionState s' = Server.conn_5_requestReceived /\
    Server.responses (Server.trace s') = Server.responses (Server.trace s).
Proof.
  destruct s as [er sr lh wt ct wc cc tries rs rep st buf tr].
  cbn [Server.connectionState Server.clientRequest Server.trace].
  intros -> Hav Hlf Hlen.
  unfold Server.assembleClientRequest.
  cbn [Server.connectionState Server.clientRequest Server.emit].
  destruct (Z.eqb_spec (client_available e) 0) as [|_]; [contradiction|].
  cbn [negb]. rewrite Hlf.
  rewrite cstring_of_char_not_NUL by discriminate.
  rewrite strcat_fits by exact Hlen.
  eexists; split; [reflexivity|]; cbn; auto.
Qed.

(** A run of characters without line feed is accumulated as it is. *)
Lemma server_feed_chars (cs : list ascii) :
  forall (k : nat) (base : nat -> env) (s : Server.state),
    Server.connectionState s = Server.conn_4_clientConnected ->
    Forall (fun c => c <> LF /\ c <> NUL) cs ->
    (String.length (Server.clientRequest s) + List.length cs < Server.clientRequest_size)%nat ->
    exists s',
      Server.feed k cs base s = Some s' /\
      Server.clientRequest s' = (Server.clientRequest s ++ string_of_list_ascii cs)%string /\
      Server.connectionState s' = Server.conn_4_clientConnected /\
      Server.responses (Server.trace s') = Server.responses (Server.trace s).
Proof.
  induction cs as [|c cs IH]; intros k base s Hst Hcs Hlen.
  - exists s. cbn. rewrite string_append_empty. auto.
  - inversion Hcs as [|? ? [Hlf Hnul] Hrest]; subst.
    cbn [List.length] in Hlen.
    destruct (server_assemble_char (deliver c (base k)) s) as (s1 & E1 & B1 & S1 & R1);
      [assumption | discriminate | exact Hlf | exact Hnul | lia |].
    cbn [client_read deliver] in B1.
    destruct (IH (S k) base s1) as (s2 & E2 & B2 & S2 & R2);
      [assumption | assumption | rewrite B1, string_length_append; cbn; lia |].
    exists s2. cbn [Server.feed]. rewrite E1.
    split; [exact E2|].
    split; [rewrite B2, B1, string_append_assoc; reflexivity|].
    split; [exact S2|]. congruence.
Qed.

Lemma server_feed_app (cs1 cs2 : list ascii) :
  forall (k : nat) (base : nat -> env) (s s1 : Server.state),
    Server.feed k cs1 base s = Some s1 ->
    Server.feed k (cs1 ++ cs2) base s = Server.feed (k + List.length cs1) cs2 base s1.
Proof.
  induction cs1 as [|c cs1 IH]; intros k base s s1 H; cbn [Server.feed app List.length] in *.
  - injection H as <-. now rewrite Nat.add_0_r.
  - destruct (Server.assembleClientRequest (deliver c (base k)) s) as [s'|]; [|discriminate].
    rewrite (IH _ _ _ _ H). f_equal. lia.
Qed.

(** A whole line, closed by a line feed, that fits in [clientRequest] is
    accumulated as it is and then sent back as it is. *)
Lemma server_echoes_line (body : list ascii) (base : nat -> env) (e : env) (s : Server.state) :
  Server.connectionState s = Server.conn_4_clientConnected ->
  Server.clientRequest s = EmptyString ->
  Forall (fun c => c <> LF /\ c <> NUL) body ->
  (List.length body + 1 < Server.clientRequest_size)%nat ->
  let line := string_of_list_ascii (body ++ [LF]) in
  exists s',
    Server.feed 0 (body ++ [LF]) base s = Some s' /\
    Server.clientRequest s' = line /\
    Server.connectionState s' = Server.conn_5_requestReceived /\
    Server.responses (Server.trace s') = Server.responses (Server.trace s) /\
    Server.responses (Server.trace (Server.sendResponseToClient e s'))
    = line :: Server.responses (Server.trace s).
Proof.
  intros Hst Hbuf Hbody Hlen line.
  destruct (server_feed_chars body 0 base s) as (s1 & E1 & B1 & S1 & R1);
    [assumption | assumption | rewrite Hbuf; cbn; lia |].
  rewrite Hbuf in B1. cbn [String.append] in B1.
  assert (Hlen1 : String.length (Server.clientRequest s1) = List.length body).
  { rewrite B1. clear. induction body; cbn; auto. }
  destruct (server_assemble_line_feed (deliver LF (base (0 + List.length body)%nat)) s1)
    as (s2 & E2 & B2 & S2 & R2);
    [assumption | discriminate | reflexivity | rewrite Hlen1; exact Hlen |].
  assert (Hline : Server.clientRequest s2 = line).
  { rewrite B2, B1. unfold line. clear. induction body; cbn; [reflexivity | now f_equal]. }
  exists s2. rewrite (server_feed_app _ _ _ _ _ _ E1). cbn [Server.feed]. rewrite E2.
  split; [reflexivity|]. split; [exact Hline|]. split; [exact S2|].
  split; [congruence|].
  rewrite <- Hline, <- R1, <- R2.
  destruct s2 as [er sr lh wt ct wc cc tries rs rep st buf tr].
  cbn [Server.connectionState] in S2. subst st.
  cbn [Server.sendResponseToClient Server.connectionState Server.clientRequest].
  destruct (negb (client_write e =? 9)); reflexivity.
Qed.

(** C4.  Round trip on the server.  From [conn_4_clientConnected] with an
    empty [clientRequest], nine calls of [assembleClientRequest], each
    finding the next byte of "1230001\r\n", succeed and leave the nine
    bytes, terminator included, in [clientRequest], in state
    [conn_5_requestReceived], without having sent anything; the call of
    [sendResponseToClient] that follows sends exactly these nine bytes. *)
Theorem server_round_trip (base : nat -> env) (e : env) (s : Server.state) :
  Server.connectionState s = Server.conn_4_clientConnected ->
  Server.clientRequest s = EmptyString ->
  exists s',
    Server.feed 0 (list_of_string request_line) base s = Some s' /\
    Server.clientRequest s' = request_line /\
    String.length (Server.clientRequest s') = 9%nat /\
    Server.connectionState s' = Server.conn_5_requestReceived /\
    Server.responses (Server.trace s') = Server.responses (Server.trace s) /\
    Server.responses (Server.trace (Server.sendResponseToClient e s'))
    = request_line :: Server.responses (Server.trace s).
Proof.
  intros Hst Hbuf.
  destruct (server_echoes_line (list_of_string ("1230001" ++ String CR EmptyString)) base e s)
    as (s' & E & B & S & R & T).
  - exact Hst.
  - exact Hbuf.
  - repeat constructor; discriminate.
  - vm_compute. lia.
  - exists s'. split; [exact E|]. split; [exact B|].
    split; [rewrite B; reflexivity|]. auto.
Qed.

Lemma server_round_trip_witness :
  exists s',
    Server.feed 0 (list_of_string request_line) (fun k => quiet (Z.of_nat k))
      (Server.set_connectionState Server.conn_4_clientConnected Server.init) = Some s' /\
    Server.clientRequest s' = request_line /\
    String.length (Server.clientRequest s') = 9%nat /\
    Server.connectionState s' = Server.conn_5_requestReceived /\
    Server.responses (Server.trace s') = [] /\
    Server.responses (Server.trace (Server.sendResponseToClient (quiet 9) s'))
    = [request_line].
Proof.
  apply (server_round_trip (fun k => quiet (Z.of_nat k)) (quiet 9)
           (Server.set_connectionState Server.conn_4_clientConnected Server.init));
    reflexivity.
Defined.

(** ** The client assembles the response *)

(** One call of [assembleServerResponse] that finds a character which is
    neither carriage return nor line feed. *)
Lemma client_assemble_char (e : env) (s : Client.state) :
  Client.connectionState s = Client.conn_5_requestSent ->
  client_available e <> 0 ->
  client_read e <> CR -> client_read e <> LF -> client_read e <> NUL ->
  (String.length (Client.serverResponse s) + 1 < Client.serverResponse_size)%nat ->
  exists s',
    Client.assembleServerResponse e s = Some s' /\
    Client.reads (Client.trace s') = client_read e :: Client.reads (Client.trace s) /\
    Client.serverResponse s' = (Client.serverResponse s ++ String (client_read e) EmptyString)%string /\
    Client.connectionState s' = Client.conn_5_requestSent /\
    Client.messageCounter s' = Client.messageCounter s.
Proof.
  destruct s as [mc er sr lh wt ct wc cc st buf tr].
  cbn [Client.connectionState Client.serverResponse Client.trace Client.messageCounter].
  intros -> Hav Hcr Hlf Hnul Hlen.
  unfold Client.assembleServerResponse.
  cbn [Client.connectionState Client.serverResponse Client.emit].
  destruct (Z.eqb_spec (client_available e) 0) as [|_]; [contradiction|].
  cbn [negb].
  destruct (Ascii.eqb_spec (client_read e) CR) as [|_]; [contradiction|].
  destruct (Ascii.eqb_spec (client_read e) LF) as [|_]; [contradiction|].
  cbn [orb negb].
  rewrite cstring_of_char_not_NUL by assumption.
  rewrite strcat_fits by exact Hlen.
  eexists; split; [reflexivity|]; cbn; auto.
Qed.

(** One call that finds a carriage return: it is dropped, whatever comes
    next. *)
Lemma client_assemble_carriage_return (e : env) (s : Client.state) :
  Client.connectionState s = Client.conn_5_requestSent ->
  client_available e <> 0 ->
  client_read e = CR ->
  exists s',
    Client.assembleServerResponse e s = Some s' /\
    Client.reads (Client.trace s') = CR :: Client.reads (Client.trace s) /\
    Client.serverResponse s' = Client.serverResponse s /\
    Client.connectionState s' = Client.conn_5_requestSent /\
    Client.messageCounter s' = Client.messageCounter s.
Proof.
  destruct s as [mc er sr lh wt ct wc cc st buf tr].
  cbn [Client.connectionState Client.serverResponse Client.trace Client.messageCounter].
  intros -> Hav Hcr.
  unfold Client.assembleServerResponse.
  cbn [Client.connectionState Client.serverResponse Client.emit].
  destruct (Z.eqb_spec (client_available e) 0) as [|_]; [contradiction|].
  rewrite Hcr. eexists; split; [reflexivity|]; cbn; auto.
Qed.

(** One call that finds the line feed: it is dropped, the exchange is
    complete. *)
Lemma client_assemble_line_feed (e : env) (s : Client.state) :
  Client.connectionState s = Client.conn_5_requestSent ->
  client_available e <> 0 ->
  client_read e = LF ->
  exists s',
    Client.assembleServerResponse e s = Some s' /\
    Client.reads (Client.trace s') = LF :: Client.reads (Client.trace s) /\
    Client.serverResponse s' = Client.serverResponse s /\
    Client.connectionState s' = Client.conn_6_stopClientNow /\
    Client.messageCounter s' = incr32 (Client.messageCounter s).
Proof.
  destruct s as [mc er sr lh wt ct wc cc st buf tr].
  cbn [Client.connectionState Client.serverResponse Client.trace Client.messageCounter].
  intros -> Hav Hlf.
  unfold Client.assembleServerResponse.
  cbn [Client.connectionState Client.serverResponse Client.emit].
  destruct (Z.eqb_spec (client_available e) 0) as [|_]; [contradiction|].
  rewrite Hlf. eexists; split; [reflexivity|]; cbn; auto.
Qed.

(** C7, as the code has it.  A call of [assembleServerResponse] in
    [conn_5_requestSent] with a byte available reads exactly one
    character.  A character other than carriage return, line feed and NUL
    is appended to [serverResponse] (which must have room for it).  A
    carriage return is dropped wherever it occurs, not only in front of the
    line feed.  The line feed is dropped too and ends the accumulation:
    [messageCounter] is incremented and the state becomes
    [conn_6_stopClientNow]. *)
Theorem client_response_assembly (e : env) (s : Client.state) :
  Client.connectionState s = Client.conn_5_requestSent ->
  client_available e <> 0 ->
  (client_read e <> CR -> client_read e <> LF -> client_read e <> NUL ->
   (String.length (Client.serverResponse s) + 1 < Client.serverResponse_size)%nat ->
   exists s',
     Client.assembleServerResponse e s = Some s' /\
     Client.reads (Client.trace s') = client_read e :: Client.reads (Client.trace s) /\
     Client.serverResponse s'
     = (Client.serverResponse s ++ String (client_read e) EmptyString)%string /\
     Client.connectionState s' = Client.conn_5_requestSent /\
     Client.messageCounter s' = Client.messageCounter s) /\
  (client_read e = CR ->
   exists s',
     Client.assembleServerResponse e s = Some s' /\
     Client.reads (Client.trace s') = CR :: Client.reads (Client.trace s) /\
     Client.serverResponse s' = Client.serverResponse s /\
     Client.connectionState s' = Client.conn_5_requestSent /\
     Client.messageCounter s' = Client.messageCounter s) /\
  (client_read e = LF ->
   exists s',
     Client.assembleServerResponse e s = Some s' /\
     Client.reads (Client.trace s') = LF :: Client.reads (Client.trace s) /\
     Client.serverResponse s' = Client.serverResponse s /\
     Client.connectionState s' = Client.conn_6_stopClientNow /\
     Client.messageCounter s' = incr32 (Client.messageCounter s)).
Proof.
  intros Hst Hav. split; [|split]; intros.
  - now apply client_assemble_char.
  - now apply client_assemble_carriage_return.
  - now apply client_assemble_line_feed.
Qed.

Lemma client_response_assembly_witness :
  let s := Client.set_connectionState Client.conn_5_requestSent Client.init in
  (exists s',
      Client.assembleServerResponse (deliver "1"%char (quiet 5)) s = Some s' /\
      Client.reads (Client.trace s') = "1"%char :: Client.reads (Client.trace s) /\
      Client.serverResponse s' = (Client.serverResponse s ++ "1")%string /\
      Client.connectionState s' = Client.conn_5_requestSent /\
      Client.messageCounter s' = Client.messageCounter s) /\
  (exists s',
      Client.assembleServerResponse (deliver CR (quiet 5)) s = Some s' /\
      Client.reads (Client.trace s') = CR :: Client.reads (Client.trace s) /\
      Client.serverResponse s' = Client.serverResponse s /\
      Client.connectionState s' = Client.conn_5_requestSent /\
      Client.messageCounter s' = Client.messageCounter s) /\
  (exists s',
      Client.assembleServerResponse (deliver LF (quiet 5)) s = Some s' /\
      Client.reads (Client.trace s') = LF :: Client.reads (Client.trace s) /\
      Client.serverResponse s' = Client.serverResponse s /\
      Client.connectionState s' = Client.conn_6_stopClientNow /\
      Client.messageCounter s' = incr32 (Client.messageCounter s)).
Proof.
  intros s. split; [|split].
  - apply (proj1 (client_response_assembly (deliver "1"%char (quiet 5)) s eq_refl
                    ltac:(vm_compute; discriminate)));
      [discriminate | discriminate | discriminate | vm_compute; lia].
  - apply (proj1 (proj2 (client_response_assembly (deliver CR (quiet 5)) s eq_refl
                           ltac:(vm_compute; discriminate)))).
    reflexivity.
  - apply (proj2 (proj2 (client_response_assembly (deliver LF (quiet 5)) s eq_refl
                           ltac:(vm_compute; discriminate)))).
    reflexivity.
Defined.

(** C7, as stated, fails: a carriage return that is not followed by the
    line feed is not appended.  After "1", carriage return, "2" the buffer
    holds "12". *)
Lemma carriage_return_is_always_dropped :
  let s := Client.set_connectionState Client.conn_5_requestSent Client.init in
  let received := ["1"%char; CR; "2"%char] in
  option_map Client.serverResponse
    (Client.feed 0 received (fun k => quiet (Z.of_nat k)) s) = Some "12"%string /\
  "12"%string <> string_of_list_ascii received.
Proof.
  split; [vm_compute; reflexivity | discriminate].
Qed.

(** ** The message counter of the client *)

Lemma completed_nonneg (t : list event) : 0 <= Client.completed t.
Proof.
  induction t as [|ev t IH]; cbn; [lia|].
  destruct ev; try exact IH. destruct (Ascii.eqb c LF); lia.
Qed.

Lemma completed_app (a b : list event) :
  Client.completed (a ++ b) = Client.completed a + Client.completed b.
Proof.
  induction a as [|ev a IH]; cbn; [reflexivity|].
  destruct ev; try exact IH. rewrite IH. lia.
Qed.

Lemma requests_app (a b : list event) :
  Client.requests (a ++ b) = Client.requests a ++ Client.requests b.
Proof.
  induction a as [|ev a IH]; cbn; [reflexivity|].
  destruct ev; try exact IH. cbn. now rewrite IH.
Qed.

(** Requests sent while no exchange completes all carry the same number. *)
Lemma numbered_prepend_quiet (new t : list event) :
  Client.completed new = 0 ->
  Forall (eq (wrap32 (Client.messageCounter Client.init + Client.completed t)))
         (Client.requests new) ->
  Client.numbered t -> Client.numbered (new ++ t).
Proof.
  induction new as [|ev new IH];
    cbn [app Client.completed Client.requests Client.numbered];
    intros Hc Hr Ht; [exact Ht|].
  destruct ev; try (apply IH; assumption).
  - inversion Hr; subst. split; [|apply IH; assumption].
    rewrite completed_app, Hc. reflexivity.
  - pose proof (completed_nonneg new).
    apply IH; [destruct (Ascii.eqb c LF); lia | assumption | assumption].
Qed.

Lemma numbered_prepend_silent (new t : list event) :
  Client.requests new = [] -> Client.numbered t -> Client.numbered (new ++ t).
Proof.
  induction new as [|ev new IH];
    cbn [app Client.requests Client.numbered]; intros Hr Ht; [exact Ht|].
  destruct ev; try (apply IH; assumption). discriminate Hr.
Qed.

(** Split on the comparisons of characters and numbers met in the goal. *)
Ltac split_atoms :=
  repeat match goal with
         | |- context [Ascii.eqb ?a ?b] => destruct (Ascii.eqb a b) eqn:?
         | |- context [Z.eqb ?a ?b] => destruct (Z.eqb a b) eqn:?
         end.

(** Use the outcome of the tests already split on. *)
Ltac use_tests :=
  repeat match goal with
         | H : ?b = true |- context [?b] => rewrite H
         | H : ?b = false |- context [?b] => rewrite H
         end.

(** The events a call adds, given the trace before and after. *)
Ltac added_events tr :=
  match goal with
  | |- exists new, ?t = new ++ tr /\ _ =>
      let rec build t :=
        lazymatch t with
        | tr => constr:(@nil event)
        | ?a :: ?t' => let r := build t' in constr:(a :: r)
        end in
      let n := build t in exists n
  end.

(** What one call of a procedure does to the trace and to
    [messageCounter]: either no line feed is read, the counter stays and
    the requests sent carry it; or one line feed is read, no request is
    sent and the counter is incremented. *)
Lemma client_call_effect (p : Client.procedure) (e : env) (s s' : Client.state) :
  Client.call p e s = Some s' ->
  exists new,
    Client.trace s' = new ++ Client.trace s /\
    ((Client.completed new = 0 /\
      Client.messageCounter s' = Client.messageCounter s /\
      Forall (eq (Client.messageCounter s)) (Client.requests new)) \/
     (Client.completed new = 1 /\
      Client.requests new = [] /\
      Client.messageCounter s' = incr32 (Client.messageCounter s) /\
      p = Client.AssembleServerResponse /\
      Client.connectionState s = Client.conn_5_requestSent /\
      client_available e <> 0 /\
      client_read e = LF)).
Proof.
  destruct s as [mc er sr lh wt ct wc cc st buf tr].
  destruct p, st; cbn;
    unfold Client.connectToWiFi, Client.tryConnectingToWiFi, Client.connectToServer,
      Client.tryConnectingWithServer, Client.assembleServerResponse, Client.heartbeat;
    cbn; repeat (progress (split_atoms; split_tests; cbn)); intros [= <-]; cbn;
    added_events tr; (split; [reflexivity|]); cbn; use_tests.
  all: try (left; repeat split; auto; fail).
  all: right; repeat split; auto.
  all: try (intros H; rewrite H in *; discriminate).
  all: try (apply Ascii.eqb_eq; assumption).
Qed.

Lemma numbered_middle (a t : list event) (v : Z) :
  Client.numbered (a ++ ClientPrintln v :: t) ->
  v = wrap32 (Client.messageCounter Client.init + Client.completed t) /\ Client.numbered t.
Proof.
  induction a as [|ev a IH]; cbn [app Client.numbered]; intros H.
  - exact H.
  - destruct ev; try (apply IH; exact H). apply IH. apply H.
Qed.

Lemma wrap32_shift_neq (x d : Z) :
  0 < d < ULONG_MODULUS -> wrap32 (x + d) <> wrap32 x.
Proof.
  unfold wrap32. intros Hd H.
  assert (Hz : (x + d - x) mod ULONG_MODULUS = 0).
  { rewrite Zminus_mod, H, Z.sub_diag. reflexivity. }
  replace (x + d - x) with d in Hz by lia.
  rewrite Z.mod_small in Hz by lia. lia.
Qed.

(** The numbering is kept by every call of a procedure. *)
Lemma client_call_numbering (p : Client.procedure) (e : env) (s s' : Client.state) :
  Client.call p e s = Some s' ->
  Client.messageCounter s
  = wrap32 (Client.messageCounter Client.init + Client.completed (Client.trace s)) ->
  Client.numbered (Client.trace s) ->
  Client.messageCounter s'
  = wrap32 (Client.messageCounter Client.init + Client.completed (Client.trace s')) /\
  Client.numbered (Client.trace s').
Proof.
  intros Hcall Hmc Hnum.
  destruct (client_call_effect p e s s' Hcall) as (new & Htr & [(Hc & Hm & Hr) | (Hc & Hr & Hm & _)]);
    rewrite Htr, completed_app, Hc.
  - split; [rewrite Hm; exact Hmc|].
    apply numbered_prepend_quiet; [exact Hc | | exact Hnum].
    rewrite <- Hmc. exact Hr.
  - split; [|apply numbered_prepend_silent; assumption].
    rewrite Hm, Hmc, incr32_wrap32. f_equal. lia.
Qed.

Lemma client_calls_numbering (ps : list Client.procedure) (w : Client.pass) :
  forall s s' : Client.state,
    Client.calls ps w s = Some s' ->
    Client.messageCounter s
    = wrap32 (Client.messageCounter Client.init + Client.completed (Client.trace s)) ->
    Client.numbered (Client.trace s) ->
    Client.messageCounter s'
    = wrap32 (Client.messageCounter Client.init + Client.completed (Client.trace s')) /\
    Client.numbered (Client.trace s').
Proof.
  induction ps as [|p ps IH]; cbn [Client.calls]; intros s s' H Hmc Hnum.
  - injection H as <-. split; assumption.
  - destruct (Client.call p (w p) s) as [s1|] eqn:E; [|discriminate].
    destruct (client_call_numbering _ _ _ _ E Hmc Hnum) as [Hmc1 Hnum1].
    exact (IH _ _ H Hmc1 Hnum1).
Qed.

Lemma client_run_numbering (ws : list Client.pass) :
  forall s s' : Client.state,
    Client.run ws s = Some s' ->
    Client.messageCounter s
    = wrap32 (Client.messageCounter Client.init + Client.completed (Client.trace s)) ->
    Client.numbered (Client.trace s) ->
    Client.messageCounter s'
    = wrap32 (Client.messageCounter Client.init + Client.completed (Client.trace s')) /\
    Client.numbered (Client.trace s').
Proof.
  induction ws as [|w ws IH]; cbn [Client.run]; intros s s' H Hmc Hnum.
  - injection H as <-. split; assumption.
  - destruct (Client.loop w s) as [s1|] eqn:E; [|discriminate].
    destruct (client_calls_numbering _ _ _ _ E Hmc Hnum) as [Hmc1 Hnum1].
    exact (IH _ _ H Hmc1 Hnum1).
Qed.

(** C5, as the code has it.  In every state reached from the initial one
    by passes of [loop()], with [N] the number of exchanges completed (a
    line feed was read): [messageCounter] is [1230001 + N] modulo 2^32,
    hence [1230001 + N] as long as this fits in 32 bits; every request
    sent carries [1230001] plus the number of exchanges completed before it
    (modulo 2^32); so two requests carry the same number when no exchange
    was completed between them, and different numbers when at least one
    and fewer than 2^32 were. *)
Theorem client_sequence_numbers (ws : list Client.pass) (s : Client.state) :
  Client.run ws Client.init = Some s ->
  let N := Client.completed (Client.trace s) in
  Client.messageCounter s = wrap32 (1230001 + N) /\
  (N <= ULONG_MODULUS - 1230002 -> Client.messageCounter s = 1230001 + N) /\
  Client.numbered (Client.trace s) /\
  (forall t2 v2 t1 v1 t0,
      Client.trace s = t2 ++ ClientPrintln v2 :: t1 ++ ClientPrintln v1 :: t0 ->
      (Client.completed t1 = 0 -> v2 = v1) /\
      (0 < Client.completed t1 < ULONG_MODULUS -> v2 <> v1)).
Proof.
  intros Hrun N.
  destruct (client_run_numbering ws Client.init s Hrun) as [Hmc Hnum];
    [reflexivity | exact I |].
  change (Client.messageCounter Client.init) with 1230001 in Hmc. fold N in Hmc.
  split; [exact Hmc|].
  split.
  { intros HN. rewrite Hmc. apply wrap32_small.
    pose proof (completed_nonneg (Client.trace s)). fold N in H. ulia. }
  split; [exact Hnum|].
  intros t2 v2 t1 v1 t0 Htr. rewrite Htr in Hnum.
  apply numbered_middle in Hnum. destruct Hnum as [Hv2 Hnum].
  apply numbered_middle in Hnum. destruct Hnum as [Hv1 _].
  rewrite completed_app in Hv2.
  cbn [Client.completed] in Hv2.
  split.
  - intros H0. rewrite H0 in Hv2. rewrite Hv2, Hv1. reflexivity.
  - intros Hd. rewrite Hv2, Hv1.
    replace (Client.messageCounter Client.init + (Client.completed t1 + Client.completed t0))
      with (Client.messageCounter Client.init + Client.completed t0 + Client.completed t1) by lia.
    apply wrap32_shift_neq. exact Hd.
Qed.

Lemma client_sequence_numbers_witness :
  let ws := [fun _ : Client.procedure => quiet 0;
             fun _ : Client.procedure => deliver LF (quiet 50)] in
  exists s, Client.run ws Client.init = Some s /\
            Client.completed (Client.trace s) = 1 /\
            Client.messageCounter s = 1230002.
Proof.
  intros ws.
  destruct (Client.run ws Client.init) as [s|] eqn:E; [|vm_compute in E; discriminate E].
  exists s. split; [reflexivity|].
  assert (HN : Client.completed (Client.trace s) = 1).
  { vm_compute in E. injection E as <-. reflexivity. }
  split; [exact HN|].
  destruct (client_sequence_numbers ws s E) as (_ & Hsmall & _).
  rewrite Hsmall; rewrite HN; [reflexivity | vm_compute; discriminate].
Defined.

(** C5, as stated, fails: the request whose exchange timed out and the
    next request carry the same number. *)
Lemma timed_out_request_number_is_sent_again :
  let ws := [fun _ : Client.procedure => quiet 0;
             fun _ : Client.procedure => quiet 10001;
             fun _ : Client.procedure => quiet 10101] in
  option_map (fun s => (Client.requests (Client.trace s), Client.completed (Client.trace s)))
    (Client.run ws Client.init)
  = Some ([1230001; 1230001], 0) /\
  ~ NoDup [1230001; 1230001].
Proof.
  split; [vm_compute; reflexivity|].
  intros H. inversion H as [|x l Hin _]; subst. apply Hin. left. reflexivity.
Qed.

(** ** A failed exchange leaves the message counter *)

Lemma client_call_quiet (p : Client.procedure) (e : env) (s s' : Client.state) :
  Client.call p e s = Some s' ->
  exists new,
    Client.trace s' = new ++ Client.trace s /\
    (Client.completed new = 0 ->
     Client.messageCounter s' = Client.messageCounter s /\
     Forall (eq (Client.messageCounter s)) (Client.requests new)).
Proof.
  intros Hcall.
  destruct (client_call_effect p e s s' Hcall) as (new & Htr & [(Hc & Hm & Hr) | (Hc & _)]);
    exists new; (split; [exact Htr|]); intros H0.
  - split; assumption.
  - lia.
Qed.

(** Two stretches of the trace in a row. *)
Lemma quiet_stretches (mc0 mc1 mc2 : Z) (new1 new2 : list event) :
  (Client.completed new1 = 0 -> mc1 = mc0 /\ Forall (eq mc0) (Client.requests new1)) ->
  (Client.completed new2 = 0 -> mc2 = mc1 /\ Forall (eq mc1) (Client.requests new2)) ->
  Client.completed (new2 ++ new1) = 0 ->
  mc2 = mc0 /\ Forall (eq mc0) (Client.requests (new2 ++ new1)).
Proof.
  intros H1 H2 H0. rewrite completed_app in H0.
  pose proof (completed_nonneg new1). pose proof (completed_nonneg new2).
  destruct H1 as [E1 F1]; [lia|]. destruct H2 as [E2 F2]; [lia|]. subst mc1.
  split; [exact E2|]. rewrite requests_app. apply Forall_app. split; assumption.
Qed.

Lemma client_calls_quiet (ps : list Client.procedure) (w : Client.pass) :
  forall s s' : Client.state,
    Client.calls ps w s = Some s' ->
    exists new,
      Client.trace s' = new ++ Client.trace s /\
      (Client.completed new = 0 ->
       Client.messageCounter s' = Client.messageCounter s /\
       Forall (eq (Client.messageCounter s)) (Client.requests new)).
Proof.
  induction ps as [|p ps IH]; cbn [Client.calls]; intros s s' H.
  - injection H as <-. exists []. split; [reflexivity|]. intros _. split; [reflexivity | constructor].
  - destruct (Client.call p (w p) s) as [s1|] eqn:E; [|discriminate].
    destruct (client_call_quiet _ _ _ _ E) as (new1 & T1 & Q1).
    destruct (IH _ _ H) as (new2 & T2 & Q2).
    exists (new2 ++ new1). split; [rewrite T2, T1; apply app_assoc|].
    eapply quiet_stretches; eassumption.
Qed.

Lemma client_run_quiet (ws : list Client.pass) :
  forall s s' : Client.state,
    Client.run ws s = Some s' ->
    exists new,
      Client.trace s' = new ++ Client.trace s /\
      (Client.completed new = 0 ->
       Client.messageCounter s' = Client.messageCounter s /\
       Forall (eq (Client.messageCounter s)) (Client.requests new)).
Proof.
  induction ws as [|w ws IH]; cbn [Client.run]; intros s s' H.
  - injection H as <-. exists []. split; [reflexivity|]. intros _. split; [reflexivity | constructor].
  - destruct (Client.loop w s) as [s1|] eqn:E; [|discriminate].
    destruct (client_calls_quiet _ _ _ _ E) as (new1 & T1 & Q1).
    destruct (IH _ _ H) as (new2 & T2 & Q2).
    exists (new2 ++ new1). split; [rewrite T2, T1; apply app_assoc|].
    eapply quiet_stretches; eassumption.
Qed.

Lemma client_counter_changes_on_line_feed
      (p : Client.procedure) (e : env) (s s' : Client.state) :
  Client.call p e s = Some s' ->
  Client.messageCounter s' <> Client.messageCounter s ->
  p = Client.AssembleServerResponse /\
  Client.connectionState s = Client.conn_5_requestSent /\
  client_available e <> 0 /\ client_read e = LF /\
  Client.messageCounter s' = incr32 (Client.messageCounter s).
Proof.
  intros Hcall Hne.
  destruct (client_call_effect p e s s' Hcall)
    as (new & Htr & [(_ & Hm & _) | (_ & _ & Hm & Hp & Hst & Hav & Hlf)]).
  - contradiction.
  - auto.
Qed.

Lemma client_connection_lost (e : env) (s : Client.state) :
  Client.connectionState s = Client.conn_5_requestSent ->
  client_connected e = false ->
  Client.connectionState (Client.connectToServer e s) = Client.conn_6_stopClientNow /\
  Client.errors (Client.connectToServer e s) = incr32 (Client.errors s) /\
  Client.messageCounter (Client.connectToServer e s) = Client.messageCounter s.
Proof.
  destruct s as [mc er sr lh wt ct wc cc st buf tr]. cbn [Client.connectionState].
  intros -> Hc. unfold Client.connectToServer. cbn [Client.connectionState Client.code Z.ltb Z.compare Pos.compare Pos.compare_cont].
  rewrite Hc. cbn. auto.
Qed.

(** C10.  The message counter changes only in the branch of
    [assembleServerResponse] that has read a line feed.  An exchange that
    ends by the read time-out or by the loss of the connection goes to
    [conn_6_stopClientNow] with the counter unchanged; tear-down and
    report leave it; and over any number of passes of [loop()] during
    which no line feed is read the counter keeps its value and every
    request sent carries that value, the same as the failed one. *)
Theorem failed_exchange_keeps_message_counter :
  (forall p e s s',
      Client.call p e s = Some s' ->
      Client.messageCounter s' <> Client.messageCounter s ->
      p = Client.AssembleServerResponse /\
      Client.connectionState s = Client.conn_5_requestSent /\
      client_available e <> 0 /\ client_read e = LF /\
      Client.messageCounter s' = incr32 (Client.messageCounter s)) /\
  (forall e s,
      Client.connectionState s = Client.conn_5_requestSent ->
      Client.wf s ->
      client_available e = 0 ->
      Client.startReadingAt s + Client.readingTimeOut < millis e 1 ->
      exists s', Client.assembleServerResponse e s = Some s' /\
                 Client.connectionState s' = Client.conn_6_stopClientNow /\
                 Client.messageCounter s' = Client.messageCounter s) /\
  (forall e s,
      Client.connectionState s = Client.conn_5_requestSent ->
      client_connected e = false ->
      Client.connectionState (Client.connectToServer e s) = Client.conn_6_stopClientNow /\
      Client.messageCounter (Client.connectToServer e s) = Client.messageCounter s) /\
  (forall e s,
      Client.messageCounter (Client.stopTCPconnection e s) = Client.messageCounter s /\
      Client.messageCounter (Client.lastConnectionReport e s) = Client.messageCounter s) /\
  (forall ws s s',
      Client.run ws s = Some s' ->
      exists new,
        Client.trace s' = new ++ Client.trace s /\
        (Client.completed new = 0 ->
         Client.messageCounter s' = Client.messageCounter s /\
         Forall (eq (Client.messageCounter s)) (Client.requests new))).
Proof.
  split; [exact client_counter_changes_on_line_feed|].
  split.
  { intros e s Hst Hwf Hav Hlt.
    destruct (client_read_timeout e s Hst Hwf Hav Hlt) as (s' & E & Hst' & _).
    exists s'. split; [exact E|]. split; [exact Hst'|].
    destruct (Z.eq_dec (Client.messageCounter s') (Client.messageCounter s)) as [|Hne];
      [assumption|].
    destruct (client_counter_changes_on_line_feed Client.AssembleServerResponse e s s' E Hne)
      as (_ & _ & Hav' & _).
    contradiction. }
  split.
  { intros e s Hst Hc. destruct (client_connection_lost e s Hst Hc) as (H1 & _ & H2).
    split; assumption. }
  split.
  { intros e s. destruct s as [mc er sr lh wt ct wc cc st buf tr].
    destruct st; split; reflexivity. }
  exact client_run_quiet.
Qed.

Lemma failed_exchange_keeps_message_counter_witness :
  let s0 := Client.set_connectionState Client.conn_5_requestSent Client.init in
  (exists s',
      Client.call Client.AssembleServerResponse (deliver LF (quiet 5)) s0 = Some s' /\
      Client.messageCounter s' = incr32 (Client.messageCounter s0)) /\
  (exists s',
      Client.assembleServerResponse (quiet 10001) s0 = Some s' /\
      Client.connectionState s' = Client.conn_6_stopClientNow /\
      Client.messageCounter s' = Client.messageCounter s0) /\
  (Client.connectionState (Client.connectToServer (nobody (quiet 7)) s0)
   = Client.conn_6_stopClientNow /\
   Client.messageCounter (Client.connectToServer (nobody (quiet 7)) s0)
   = Client.messageCounter s0) /\
  (exists s' new,
      Client.run [fun _ : Client.procedure => quiet 10001;
                  fun _ : Client.procedure => quiet 10101] s0 = Some s' /\
      Client.trace s' = new ++ Client.trace s0 /\
      (Client.completed new = 0 ->
       Client.messageCounter s' = Client.messageCounter s0 /\
       Forall (eq (Client.messageCounter s0)) (Client.requests new)) /\
      Client.requests (Client.trace s') = [1230001]).
Proof.
  intros s0.
  destruct failed_exchange_keeps_message_counter as (Hlf & Hto & Hlost & _ & Hrun).
  split; [|split; [|split]].
  - destruct (Client.call Client.AssembleServerResponse (deliver LF (quiet 5)) s0)
      as [s'|] eqn:E; [|vm_compute in E; discriminate E].
    exists s'. split; [reflexivity|].
    apply (Hlf _ _ _ _ E).
    vm_compute in E. injection E as <-. vm_compute. discriminate.
  - apply (Hto (quiet 10001) s0);
      [reflexivity | vm_compute; intuition discriminate | reflexivity | vm_compute; reflexivity].
  - apply (Hlost (nobody (quiet 7)) s0); reflexivity.
  - destruct (Client.run [fun _ : Client.procedure => quiet 10001;
                          fun _ : Client.procedure => quiet 10101] s0)
      as [s'|] eqn:E; [|vm_compute in E; discriminate E].
    destruct (Hrun _ s0 s' E) as (new & Htr & Hq).
    exists s', new. split; [reflexivity|]. split; [exact Htr|]. split; [exact Hq|].
    vm_compute in E. injection E as <-. reflexivity.
Defined.

(** ** The peer disappears while connected *)

Lemma client_peer_disappeared (e : env) (s : Client.state) :
  Client.code Client.conn_4_clientConnected <= Client.code (Client.connectionState s) ->
  client_connected e = false ->
  let s' := Client.connectToServer e s in
  Client.connectionState s' = Client.conn_6_stopClientNow /\
  Client.errors s' = incr32 (Client.errors s) /\
  Client.trace s'
  = SerialPrintf "(S%d)" [6]
      :: SerialPrintlnSeconds (millis e 1)
      :: SerialPrint "**** Error: client connection was lost at "
      :: Client.trace s.
Proof.
  destruct s as [mc er sr lh wt ct wc cc st buf tr]. cbn [Client.connectionState].
  intros Hst Hc. unfold Client.connectToServer. cbn [Client.connectionState].
  rewrite Hc. destruct st; cbn in Hst; try lia; cbn; auto.
Qed.

Lemma server_peer_disappeared (e : env) (s : Server.state) :
  Server.code Server.conn_4_clientConnected <= Server.code (Server.connectionState s) ->
  client_connected e = false ->
  let s' := Server.connectToClient e s in
  Server.connectionState s' = Server.conn_6_stopClientNow /\
  Server.errors s' = Server.errors s /\
  Server.trace s'
  = DigitalWrite 10 LOW
      :: SerialPrintf "(S%d)" [6]
      :: SerialPrintlnSeconds (millis e 1)
      :: SerialPrint "Client disconnected (or connection lost) at "
      :: ExecFlowPulses 1
      :: DigitalWrite 10 HIGH
      :: Server.trace s.
Proof.
  destruct s as [er sr lh wt ct wc cc tries rs rep st buf tr]. cbn [Server.connectionState].
  intros Hst Hc. unfold Server.connectToClient. cbn [Server.connectionState].
  rewrite Hc. destruct st; cbn in Hst; try lia; cbn; auto.
Qed.

(** C6, as the code has it.  In a state where the TCP connection is up
    (from [conn_4_clientConnected] on), the connection procedure that finds
    the peer no longer connected goes to [conn_6_stopClientNow] in both
    sketches.  The client counts it as an error and reports it; the server
    reports it and leaves its error counter as it is. *)
Theorem peer_disappeared_forces_teardown :
  (forall e s,
      Client.code Client.conn_4_clientConnected <= Client.code (Client.connectionState s) ->
      client_connected e = false ->
      let s' := Client.connectToServer e s in
      Client.connectionState s' = Client.conn_6_stopClientNow /\
      Client.errors s' = incr32 (Client.errors s) /\
      Client.trace s'
      = SerialPrintf "(S%d)" [6]
          :: SerialPrintlnSeconds (millis e 1)
          :: SerialPrint "**** Error: client connection was lost at "
          :: Client.trace s) /\
  (forall e s,
      Server.code Server.conn_4_clientConnected <= Server.code (Server.connectionState s) ->
      client_connected e = false ->
      let s' := Server.connectToClient e s in
      Server.connectionState s' = Server.conn_6_stopClientNow /\
      Server.errors s' = Server.errors s /\
      Server.trace s'
      = DigitalWrite 10 LOW
          :: SerialPrintf "(S%d)" [6]
          :: SerialPrintlnSeconds (millis e 1)
          :: SerialPrint "Client disconnected (or connection lost) at "
          :: ExecFlowPulses 1
          :: DigitalWrite 10 HIGH
          :: Server.trace s).
Proof.
  split; [exact client_peer_disappeared | exact server_peer_disappeared].
Qed.

Lemma peer_disappeared_forces_teardown_witness :
  (let s := Client.set_connectionState Client.conn_5_requestSent Client.init in
   let s' := Client.connectToServer (nobody (quiet 7)) s in
   Client.connectionState s' = Client.conn_6_stopClientNow /\
   Client.errors s' = incr32 (Client.errors s) /\
   Client.trace s'
   = SerialPrintf "(S%d)" [6]
       :: SerialPrintlnSeconds (millis (nobody (quiet 7)) 1)
       :: SerialPrint "**** Error: client connection was lost at "
       :: Client.trace s) /\
  (let s := Server.set_connectionState Server.conn_4_clientConnected Server.init in
   let s' := Server.connectToClient (nobody (quiet 7)) s in
   Server.connectionState s' = Server.conn_6_stopClientNow /\
   Server.errors s' = Server.errors s /\
   Server.trace s'
   = DigitalWrite 10 LOW
       :: SerialPrintf "(S%d)" [6]
       :: SerialPrintlnSeconds (millis (nobody (quiet 7)) 1)
       :: SerialPrint "Client disconnected (or connection lost) at "
       :: ExecFlowPulses 1
       :: DigitalWrite 10 HIGH
       :: Server.trace s).
Proof.
  split.
  - apply (proj1 peer_disappeared_forces_teardown (nobody (quiet 7))
             (Client.set_connectionState Client.conn_5_requestSent Client.init));
      [vm_compute; discriminate | reflexivity].
  - apply (proj2 peer_disappeared_forces_teardown (nobody (quiet 7))
             (Server.set_connectionState Server.conn_4_clientConnected Server.init));
      [vm_compute; discriminate | reflexivity].
Defined.

(** C6, as stated, fails on the server: a client that disappears while
    connected is torn down but not counted as an error. *)
Lemma server_does_not_count_disappeared_peer :
  exists s,
    Server.run [fun _ : Server.procedure => quiet 0] Server.init = Some s /\
    Server.connectionState s = Server.conn_4_clientConnected /\
    let s' := Server.connectToClient (nobody (quiet 7)) s in
    Server.connectionState s' = Server.conn_6_stopClientNow /\
    Server.errors s' = Server.errors s /\
    Server.errors s' <> incr32 (Server.errors s).
Proof.
  eexists. split; [vm_compute; reflexivity|].
  vm_compute. repeat split; discriminate.
Qed.

(** ** The reports of the polls of the listening socket *)

(** One poll from [conn_2_wifiConnected]: it is announced when the counter
    is at most 20 and reporting is on; the counter is incremented. *)
Lemma server_poll_report (e : env) (s : Server.state) :
  Server.connectionState s = Server.conn_2_wifiConnected ->
  let s' := Server.connectToClient e s in
  Server.ConnTriesAfterStateChange s' = incr32 (Server.ConnTriesAfterStateChange s) /\
  count_events is_connect_attempt (Server.trace s')
  = S (count_events is_connect_attempt (Server.trace s)) /\
  count_events is_poll_report (Server.trace s')
  = ((if (Server.ConnTriesAfterStateChange s <=? 20)%Z && Server.reportToSerialMonitor s
      then 1 else 0)
     + count_events is_poll_report (Server.trace s))%nat /\
  (client_connected e = false ->
   Server.connectionState s' = Server.conn_2_wifiConnected /\
   Server.reportToSerialMonitor s' = Server.reportToSerialMonitor s).
Proof.
  destruct s as [er sr lh wt ct wc cc tries rs rep st buf tr].
  cbn [Server.connectionState Server.ConnTriesAfterStateChange Server.trace
       Server.reportToSerialMonitor].
  intros ->. unfold Server.connectToClient, Server.tryConnectingClient, count_events.
  cbn. destruct (tries <=? 20) eqn:Ht, rep, (client_connected e); cbn; rewrite ?Ht; cbn;
    destruct (negb (incr32 tries =? 21)); cbn; repeat split; auto; discriminate.
Qed.

(** [n] polls in a row during which nobody shows up: the first polls are
    announced, until the counter has passed 20. *)
Lemma server_failed_polls (n : nat) (base : nat -> env) (s : Server.state) :
  Server.connectionState s = Server.conn_2_wifiConnected ->
  0 <= Server.ConnTriesAfterStateChange s ->
  Server.ConnTriesAfterStateChange s + Z.of_nat n < ULONG_MODULUS ->
  let k := Server.ConnTriesAfterStateChange s in
  let s' := Server.failed_polls n base s in
  Server.connectionState s' = Server.conn_2_wifiConnected /\
  Server.reportToSerialMonitor s' = Server.reportToSerialMonitor s /\
  Server.ConnTriesAfterStateChange s' = k + Z.of_nat n /\
  Z.of_nat (count_events is_poll_report (Server.trace s'))
  = Z.of_nat (count_events is_poll_report (Server.trace s))
    + (if Server.reportToSerialMonitor s
       then Z.max 0 (Z.min (k + Z.of_nat n) 21 - k) else 0).
Proof.
  intros Hst Hk. induction n as [|n IH]; intros Hn k s'.
  - subst s'. cbn [Server.failed_polls]. repeat split; try assumption; try lia.
    destruct (Server.reportToSerialMonitor s); lia.
  - destruct IH as (Hst' & Hrep' & Hk' & Hcount'); [lia|].
    subst s'. cbn [Server.failed_polls].
    set (s1 := Server.failed_polls n base s) in *.
    destruct (server_poll_report (nobody (base n)) s1 Hst') as (Htries & _ & Hrep & Hkeep).
    destruct (Hkeep eq_refl) as [Hst2 Hrep2].
    split; [exact Hst2|]. split; [congruence|].
    split.
    + rewrite Htries, Hk'. fold k. rewrite incr32_small by (unfold k; ulia). lia.
    + rewrite Hrep, Nat2Z.inj_add, Hcount', Hrep', Hk'. fold k.
      destruct (Server.reportToSerialMonitor s);
        [destruct (Z.leb_spec (k + Z.of_nat n) 20) | rewrite Bool.andb_false_r];
        cbn [andb]; lia.
Qed.

(** Where the counter of polls changes: it is incremented by a poll from
    [conn_2_wifiConnected]; it restarts when [conn_3_clientDelayConnection]
    is left for [conn_2_wifiConnected] (and the poll that follows makes it
    1), when an attempt to join the WiFi network succeeds, and every time
    the heartbeat test passes.  Nothing else touches it. *)
Lemma server_tries_effect (p : Server.procedure) (e : env) (s s' : Server.state) :
  Server.call p e s = Some s' ->
  Server.ConnTriesAfterStateChange s' = Server.ConnTriesAfterStateChange s \/
  (p = Server.ConnectToClient /\
   Server.connectionState s = Server.conn_2_wifiConnected /\
   Server.ConnTriesAfterStateChange s' = incr32 (Server.ConnTriesAfterStateChange s)) \/
  (p = Server.ConnectToClient /\
   Server.connectionState s = Server.conn_3_clientDelayConnection /\
   (add32 (Server.clientStopTime s) Server.clientConnectDelay >? millis e 0) = false /\
   Server.ConnTriesAfterStateChange s' = incr32 0) \/
  (p = Server.ConnectToWiFi /\
   WiFi_begin e = WL_CONNECTED /\
   Server.connectionState s' = Server.conn_2_wifiConnected /\
   count_events is_wifi_attempt (Server.trace s')
   = S (count_events is_wifi_attempt (Server.trace s)) /\
   Server.ConnTriesAfterStateChange s' = 0) \/
  (p = Server.Heartbeat /\
   (add32 (Server.lastHeartbeat s) Server.heartbeatPeriod <? millis e 0) = true /\
   Server.ConnTriesAfterStateChange s' = 0).
Proof.
  destruct s as [er sr lh wt ct wc cc tries rs rep st buf tr].
  destruct p, st; cbn;
    unfold Server.connectToWiFi, Server.tryConnectingToWiFi, Server.connectToClient,
      Server.tryConnectingClient, Server.assembleClientRequest, Server.heartbeat, count_events;
    cbn; repeat (progress (split_atoms; split_tests; cbn)); intros [= <-]; cbn.
  all: try (left; reflexivity).
  all: try (right; left; repeat split; reflexivity).
  all: try (right; right; left; repeat split; solve [reflexivity | assumption]).
  all: try (right; right; right; left; repeat split;
            solve [reflexivity | apply Z.eqb_eq; assumption]).
  all: try (right; right; right; right; repeat split; solve [reflexivity | assumption]).
Qed.

(** Where the counter of polls restarts.  An attempt to join the WiFi
    network that succeeds leaves it at 0. *)
Lemma server_link_up_restarts_tries (e : env) (s : Server.state) :
  WiFi_begin e = WL_CONNECTED ->
  count_events is_wifi_attempt (Server.trace (Server.connectToWiFi e s))
  = S (count_events is_wifi_attempt (Server.trace s)) ->
  Server.connectionState (Server.connectToWiFi e s) = Server.conn_2_wifiConnected /\
  Server.ConnTriesAfterStateChange (Server.connectToWiFi e s) = 0.
Proof.
  destruct s as [er sr lh wt ct wc cc tries rs rep st buf tr].
  intros Hbegin. unfold Server.connectToWiFi, Server.tryConnectingToWiFi, count_events.
  destruct st; cbn; rewrite ?Hbegin; cbn;
    repeat (progress (split_atoms; cbn; split_tests; cbn)); intros H;
    first [split; reflexivity | exfalso; lia].
Qed.

(** Leaving [conn_3_clientDelayConnection] once the delay is over sets it
    to 0 before the poll, which is therefore announced whenever reporting
    is on, and which makes it 1. *)
Lemma server_retry_restarts_tries (e : env) (s : Server.state) :
  Server.connectionState s = Server.conn_3_clientDelayConnection ->
  (add32 (Server.clientStopTime s) Server.clientConnectDelay >? millis e 0) = false ->
  let s' := Server.connectToClient e s in
  Server.ConnTriesAfterStateChange s' = incr32 0 /\
  count_events (is_state_report 2) (Server.trace s')
  = S (count_events (is_state_report 2) (Server.trace s)) /\
  count_events is_poll_report (Server.trace s')
  = ((if Server.reportToSerialMonitor s then 1 else 0)
     + count_events is_poll_report (Server.trace s))%nat.
Proof.
  destruct s as [er sr lh wt ct wc cc tries rs rep st buf tr].
  cbn [Server.connectionState Server.clientStopTime Server.reportToSerialMonitor Server.trace].
  intros -> Hd. unfold Server.connectToClient, Server.tryConnectingClient, count_events.
  cbn. rewrite Hd. cbn.
  destruct rep, (client_connected e); cbn;
    destruct (negb (incr32 0 =? 21)); cbn; repeat split; reflexivity.
Qed.

(** Every time the heartbeat test passes, it is set to 0. *)
Lemma server_heartbeat_restarts_tries (e : env) (s : Server.state) :
  (add32 (Server.lastHeartbeat s) Server.heartbeatPeriod <? millis e 0) = true ->
  Server.ConnTriesAfterStateChange (Server.heartbeat e s) = 0.
Proof.
  destruct s as [er sr lh wt ct wc cc tries rs rep st buf tr].
  cbn [Server.lastHeartbeat]. intros H. unfold Server.heartbeat.
  cbn. rewrite H. cbn.
  repeat (progress (split_atoms; cbn; split_tests; cbn)); reflexivity.
Qed.

(** C9, as the code has it.  A poll of the listening socket from
    [conn_2_wifiConnected] is announced on the serial monitor exactly when
    the counter [ConnTriesAfterStateChange] is at most 20 and reporting is
    on, and it increments the counter; so of a row of polls that find
    nobody, started with the counter at 0, the first 21 are announced and
    the others are not.  The counter restarts: every attempt to join the
    WiFi network that succeeds sets it to 0; leaving
    [conn_3_clientDelayConnection] for [conn_2_wifiConnected] sets it to 0
    before the poll of the same call, which is announced if reporting is
    on and makes it 1; and every call of [heartbeat] whose test passes
    sets it to 0.  No other step of the sketch changes it. *)
Theorem poll_reports_are_rate_limited :
  (forall e s,
      Server.connectionState s = Server.conn_2_wifiConnected ->
      let s' := Server.connectToClient e s in
      Server.ConnTriesAfterStateChange s' = incr32 (Server.ConnTriesAfterStateChange s) /\
      count_events is_poll_report (Server.trace s')
      = ((if (Server.ConnTriesAfterStateChange s <=? 20)%Z && Server.reportToSerialMonitor s
          then 1 else 0)
         + count_events is_poll_report (Server.trace s))%nat) /\
  (forall n base s,
      Server.connectionState s = Server.conn_2_wifiConnected ->
      Server.ConnTriesAfterStateChange s = 0 ->
      Server.reportToSerialMonitor s = true ->
      Z.of_nat n < ULONG_MODULUS ->
      let s' := Server.failed_polls n base s in
      Server.ConnTriesAfterStateChange s' = Z.of_nat n /\
      Z.of_nat (count_events is_poll_report (Server.trace s'))
      = Z.of_nat (count_events is_poll_report (Server.trace s)) + Z.min (Z.of_nat n) 21) /\
  (forall e s,
      WiFi_begin e = WL_CONNECTED ->
      count_events is_wifi_attempt (Server.trace (Server.connectToWiFi e s))
      = S (count_events is_wifi_attempt (Server.trace s)) ->
      Server.connectionState (Server.connectToWiFi e s) = Server.conn_2_wifiConnected /\
      Server.ConnTriesAfterStateChange (Server.connectToWiFi e s) = 0) /\
  (forall e s,
      Server.connectionState s = Server.conn_3_clientDelayConnection ->
      (add32 (Server.clientStopTime s) Server.clientConnectDelay >? millis e 0) = false ->
      let s' := Server.connectToClient e s in
      Server.ConnTriesAfterStateChange s' = incr32 0 /\
      count_events (is_state_report 2) (Server.trace s')
      = S (count_events (is_state_report 2) (Server.trace s)) /\
      count_events is_poll_report (Server.trace s')
      = ((if Server.reportToSerialMonitor s then 1 else 0)
         + count_events is_poll_report (Server.trace s))%nat) /\
  (forall e s,
      (add32 (Server.lastHeartbeat s) Server.heartbeatPeriod <? millis e 0) = true ->
      Server.ConnTriesAfterStateChange (Server.heartbeat e s) = 0) /\
  (forall p e s s',
      Server.call p e s = Some s' ->
      Server.ConnTriesAfterStateChange s' = Server.ConnTriesAfterStateChange s \/
      (p = Server.ConnectToClient /\
       Server.connectionState s = Server.conn_2_wifiConnected /\
       Server.ConnTriesAfterStateChange s' = incr32 (Server.ConnTriesAfterStateChange s)) \/
      (p = Server.ConnectToClient /\
       Server.connectionState s = Server.conn_3_clientDelayConnection /\
       (add32 (Server.clientStopTime s) Server.clientConnectDelay >? millis e 0) = false /\
       Server.ConnTriesAfterStateChange s' = incr32 0) \/
      (p = Server.ConnectToWiFi /\
       WiFi_begin e = WL_CONNECTED /\
       Server.connectionState s' = Server.conn_2_wifiConnected /\
       count_events is_wifi_attempt (Server.trace s')
       = S (count_events is_wifi_attempt (Server.trace s)) /\
       Server.ConnTriesAfterStateChange s' = 0) \/
      (p = Server.Heartbeat /\
       (add32 (Server.lastHeartbeat s) Server.heartbeatPeriod <? millis e 0) = true /\
       Server.ConnTriesAfterStateChange s' = 0)).
Proof.
  split.
  { intros e s Hst s'. destruct (server_poll_report e s Hst) as (H1 & _ & H2 & _).
    split; assumption. }
  split.
  { intros n base s Hst Hk Hrep Hn s'.
    destruct (server_failed_polls n base s Hst) as (_ & _ & H1 & H2); [lia | lia |].
    fold s' in H1, H2. rewrite Hk in H1, H2. rewrite Hrep in H2.
    split; [exact H1|]. rewrite H2. lia. }
  split; [exact server_link_up_restarts_tries|].
  split; [exact server_retry_restarts_tries|].
  split; [exact server_heartbeat_restarts_tries | exact server_tries_effect].
Qed.

Lemma poll_reports_are_rate_limited_witness :
  let s := Server.set_connectionState Server.conn_2_wifiConnected Server.init in
  (let s' := Server.connectToClient (nobody (quiet 3)) s in
   Server.ConnTriesAfterStateChange s' = incr32 (Server.ConnTriesAfterStateChange s) /\
   count_events is_poll_report (Server.trace s')
   = ((if (Server.ConnTriesAfterStateChange s <=? 20)%Z && Server.reportToSerialMonitor s
       then 1 else 0)
      + count_events is_poll_report (Server.trace s))%nat) /\
  (let s' := Server.failed_polls 30 (fun k => quiet (Z.of_nat k)) s in
   Server.ConnTriesAfterStateChange s' = 30 /\
   Z.of_nat (count_events is_poll_report (Server.trace s')) = 0 + Z.min 30 21) /\
  (let s0 := Server.set_ConnTriesAfterStateChange 30 Server.init in
   Server.connectionState (Server.connectToWiFi (quiet 0) s0) = Server.conn_2_wifiConnected /\
   Server.ConnTriesAfterStateChange (Server.connectToWiFi (quiet 0) s0) = 0) /\
  (let s3 := Server.set_ConnTriesAfterStateChange 30
               (Server.set_connectionState Server.conn_3_clientDelayConnection Server.init) in
   let s' := Server.connectToClient (nobody (quiet 200)) s3 in
   Server.ConnTriesAfterStateChange s' = incr32 0 /\
   count_events (is_state_report 2) (Server.trace s')
   = S (count_events (is_state_report 2) (Server.trace s3)) /\
   count_events is_poll_report (Server.trace s')
   = ((if Server.reportToSerialMonitor s3 then 1 else 0)
      + count_events is_poll_report (Server.trace s3))%nat) /\
  Server.ConnTriesAfterStateChange
    (Server.heartbeat (quiet 1001) (Server.set_ConnTriesAfterStateChange 30 s)) = 0.
Proof.
  intros s.
  destruct poll_reports_are_rate_limited as (Hpoll & Hrow & Hlink & Hretry & Hbeat & _).
  split; [|split; [|split; [|split]]].
  - apply (Hpoll (nobody (quiet 3)) s). reflexivity.
  - apply (Hrow 30%nat (fun k => quiet (Z.of_nat k)) s);
      [reflexivity | reflexivity | reflexivity | vm_compute; reflexivity].
  - intros s0. apply (Hlink (quiet 0) s0); [reflexivity | vm_compute; reflexivity].
  - intros s3. apply (Hretry (nobody (quiet 200)) s3); [reflexivity | vm_compute; reflexivity].
  - apply (Hbeat (quiet 1001) (Server.set_ConnTriesAfterStateChange 30 s)).
    vm_compute. reflexivity.
Defined.

(** C9, as stated, fails: the reports of the polls resume after a
    heartbeat, with no new link-up and without leaving
    [conn_2_wifiConnected].  Thirty passes during which nobody shows up:
    21 polls announced, the counter at 30.  One more pass, at the time of
    the heartbeat: the counter is back to 0.  The poll of the next pass is
    announced again. *)
Lemma heartbeat_restarts_poll_reports :
  let before := List.map Z.of_nat (seq 0 30) in
  option_map Server.poll_summary (Server.run (Server.waiting before) Server.init)
  = Some (Server.conn_2_wifiConnected, 30, 21%nat, 1%nat) /\
  option_map Server.poll_summary (Server.run (Server.waiting (before ++ [1001])) Server.init)
  = Some (Server.conn_2_wifiConnected, 0, 21%nat, 1%nat) /\
  option_map Server.poll_summary (Server.run (Server.waiting (before ++ [1001; 1002])) Server.init)
  = Some (Server.conn_2_wifiConnected, 1, 22%nat, 1%nat).
Proof.
  repeat split; vm_compute; reflexivity.
Qed.

(** ** The delay between two attempts *)

Lemma guard_holds (t d now : Z) :
  is_ulong (t + d) -> now < t + d -> (add32 t d >? now) = true.
Proof.
  intros Hr Hlt. rewrite add32_small by exact Hr. apply Z.gtb_lt. exact Hlt.
Qed.

(** As long as [wifiConnectTime + wifiConnectDelay] fits in 32 bits, no
    attempt to join the WiFi network is made before that time, once a
    first attempt was made. *)
Lemma client_link_retry_delay (e : env) (s : Client.state) :
  Client.connectionState s <> Client.conn_0_wifiConnectNow ->
  is_ulong (Client.wifiConnectTime s + Client.wifiConnectDelay) ->
  millis e 0 < Client.wifiConnectTime s + Client.wifiConnectDelay ->
  millis e 1 < Client.wifiConnectTime s + Client.wifiConnectDelay ->
  Client.connectToWiFi e s = s.
Proof.
  destruct s as [mc er sr lh wt ct wc cc st buf tr].
  cbn [Client.connectionState Client.wifiConnectTime].
  intros Hst Hr H0 H1. unfold Client.connectToWiFi. cbn [Client.connectionState Client.wifiConnectTime].
  rewrite !guard_holds by assumption.
  destruct st; try reflexivity; try contradiction; destruct (WiFi_status e =? WL_CONNECTED); reflexivity.
Qed.

Lemma server_link_retry_delay (e : env) (s : Server.state) :
  Server.connectionState s <> Server.conn_0_wifiConnectNow ->
  is_ulong (Server.wifiConnectTime s + Server.wifiConnectDelay) ->
  millis e 0 < Server.wifiConnectTime s + Server.wifiConnectDelay ->
  millis e 1 < Server.wifiConnectTime s + Server.wifiConnectDelay ->
  Server.connectToWiFi e s = s.
Proof.
  destruct s as [er sr lh wt ct wc cc tries rs rep st buf tr].
  cbn [Server.connectionState Server.wifiConnectTime].
  intros Hst Hr H0 H1. unfold Server.connectToWiFi. cbn [Server.connectionState Server.wifiConnectTime].
  rewrite !guard_holds by assumption.
  destruct st; try reflexivity; try contradiction; destruct (WiFi_status e =? WL_CONNECTED); reflexivity.
Qed.

(** In [conn_3_clientDelayConnection], as long as
    [clientStopTime + clientConnectDelay] fits in 32 bits, no connection is
    attempted before that time. *)
Lemma client_transport_retry_delay (e : env) (s : Client.state) :
  Client.connectionState s = Client.conn_3_clientDelayConnection ->
  is_ulong (Client.clientStopTime s + Client.clientConnectDelay) ->
  millis e 0 < Client.clientStopTime s + Client.clientConnectDelay ->
  Client.connectToServer e s = s.
Proof.
  destruct s as [mc er sr lh wt ct wc cc st buf tr].
  cbn [Client.connectionState Client.clientStopTime].
  intros -> Hr H0. unfold Client.connectToServer.
  cbn [Client.connectionState Client.clientStopTime Client.code Z.ltb Z.compare Pos.compare Pos.compare_cont].
  rewrite guard_holds by assumption. reflexivity.
Qed.

Lemma server_transport_retry_delay (e : env) (s : Server.state) :
  Server.connectionState s = Server.conn_3_clientDelayConnection ->
  is_ulong (Server.clientStopTime s + Server.clientConnectDelay) ->
  millis e 0 < Server.clientStopTime s + Server.clientConnectDelay ->
  Server.connectToClient e s = s.
Proof.
  destruct s as [er sr lh wt ct wc cc tries rs rep st buf tr].
  cbn [Server.connectionState Server.clientStopTime].
  intros -> Hr H0. unfold Server.connectToClient.
  cbn [Server.connectionState Server.clientStopTime Server.code Z.ltb Z.compare Pos.compare Pos.compare_cont].
  rewrite guard_holds by assumption. reflexivity.
Qed.

(** What the 32-bit addition does to the tests of the delays: when
    [time + delay] passes 2^32 the sum wraps around to a small number and
    the test lets the next attempt through at once.
    - Link, client and server: a failed attempt to join the WiFi network
      is recorded at 4294966296; the pass of [loop()] one millisecond later
      makes a second attempt, although 5000 ms have not elapsed.
    - TCP connection, client: a refused connection is recorded at
      4294967246; the pass one millisecond later attempts a second
      connection, although 100 ms have not elapsed. *)
Lemma retry_delay_wraps_around :
  (option_map Client.retry_summary
     (Client.run [fun _ => no_wifi 4294966296] Client.init)
   = Some (Client.conn_1_wifiDelayConnection, 4294966296, 0, 1%nat, 0%nat) /\
   option_map Client.retry_summary
     (Client.run [fun _ => no_wifi 4294966296; fun _ => no_wifi 4294966297] Client.init)
   = Some (Client.conn_1_wifiDelayConnection, 4294966297, 0, 2%nat, 0%nat) /\
   4294966297 < 4294966296 + Client.wifiConnectDelay) /\
  (option_map Server.retry_summary
     (Server.run [fun _ => no_wifi 4294966296] Server.init)
   = Some (Server.conn_1_wifiDelayConnection, 4294966296, 0, 1%nat, 0%nat) /\
   option_map Server.retry_summary
     (Server.run [fun _ => no_wifi 4294966296; fun _ => no_wifi 4294966297] Server.init)
   = Some (Server.conn_1_wifiDelayConnection, 4294966297, 0, 2%nat, 0%nat) /\
   4294966297 < 4294966296 + Server.wifiConnectDelay) /\
  (option_map Client.retry_summary
     (Client.run [fun _ => refused 4294967246] Client.init)
   = Some (Client.conn_3_clientDelayConnection, 4294967246, 4294967246, 1%nat, 1%nat) /\
   option_map Client.retry_summary
     (Client.run [fun _ => refused 4294967246; fun _ => refused 4294967247] Client.init)
   = Some (Client.conn_3_clientDelayConnection, 4294967246, 4294967247, 1%nat, 2%nat) /\
   4294967247 < 4294967246 + Client.clientConnectDelay).
Proof.
  repeat split; vm_compute; reflexivity.
Qed.

(** Where [wifiConnectTime] changes: an attempt to join the WiFi network
    was made, it left [conn_0_wifiConnectNow] for good and recorded the
    time read after it.  No other step touches [wifiConnectTime], makes an
    attempt or goes back to [conn_0_wifiConnectNow]. *)
Lemma client_link_attempt_effect (p : Client.procedure) (e : env) (s s' : Client.state) :
  Client.call p e s = Some s' ->
  (count_events is_wifi_attempt (Client.trace s')
   = count_events is_wifi_attempt (Client.trace s) /\
   Client.wifiConnectTime s' = Client.wifiConnectTime s /\
   (Client.connectionState s' = Client.conn_0_wifiConnectNow ->
    Client.connectionState s = Client.conn_0_wifiConnectNow)) \/
  (p = Client.ConnectToWiFi /\
   count_events is_wifi_attempt (Client.trace s')
   = S (count_events is_wifi_attempt (Client.trace s)) /\
   Client.wifiConnectTime s' = millis e 3 /\
   Client.connectionState s' <> Client.conn_0_wifiConnectNow).
Proof.
  destruct s as [mc er sr lh wt ct wc cc st buf tr].
  destruct p, st; cbn;
    unfold Client.connectToWiFi, Client.tryConnectingToWiFi, Client.connectToServer,
      Client.tryConnectingWithServer, Client.assembleServerResponse, Client.heartbeat,
      count_events;
    cbn; repeat (progress (split_atoms; cbn; split_tests; cbn)); intros [= <-]; cbn.
  all: try (left; repeat split; solve [reflexivity | discriminate | auto]).
  all: right; repeat split; solve [reflexivity | discriminate].
Qed.

Lemma server_link_attempt_effect (p : Server.procedure) (e : env) (s s' : Server.state) :
  Server.call p e s = Some s' ->
  (count_events is_wifi_attempt (Server.trace s')
   = count_events is_wifi_attempt (Server.trace s) /\
   Server.wifiConnectTime s' = Server.wifiConnectTime s /\
   (Server.connectionState s' = Server.conn_0_wifiConnectNow ->
    Server.connectionState s = Server.conn_0_wifiConnectNow)) \/
  (p = Server.ConnectToWiFi /\
   count_events is_wifi_attempt (Server.trace s')
   = S (count_events is_wifi_attempt (Server.trace s)) /\
   Server.wifiConnectTime s' = millis e 4 /\
   Server.connectionState s' <> Server.conn_0_wifiConnectNow).
Proof.
  destruct s as [er sr lh wt ct wc cc tries rs rep st buf tr].
  destruct p, st; cbn;
    unfold Server.connectToWiFi, Server.tryConnectingToWiFi, Server.connectToClient,
      Server.tryConnectingClient, Server.assembleClientRequest, Server.heartbeat,
      count_events;
    cbn; repeat (progress (split_atoms; cbn; split_tests; cbn)); intros [= <-]; cbn.
  all: try (left; repeat split; solve [reflexivity | discriminate | auto]).
  all: right; repeat split; solve [reflexivity | discriminate].
Qed.

(** Once an attempt was made, the state is no longer
    [conn_0_wifiConnectNow]. *)
Lemma client_calls_past_first_attempt (ps : list Client.procedure) (w : Client.pass) :
  forall s s' : Client.state,
    Client.calls ps w s = Some s' ->
    (Client.connectionState s = Client.conn_0_wifiConnectNow ->
     count_events is_wifi_attempt (Client.trace s) = 0%nat) ->
    (Client.connectionState s' = Client.conn_0_wifiConnectNow ->
     count_events is_wifi_attempt (Client.trace s') = 0%nat).
Proof.
  induction ps as [|p ps IH]; cbn [Client.calls]; intros s s' H Hinv.
  - injection H as <-. exact Hinv.
  - destruct (Client.call p (w p) s) as [s1|] eqn:E; [|discriminate].
    apply (IH s1 s' H).
    destruct (client_link_attempt_effect _ _ _ _ E) as [(Hc & _ & Hst) | (_ & _ & _ & Hst)].
    + intros H1. rewrite Hc. auto.
    + intros H1. contradiction.
Qed.

Lemma client_run_past_first_attempt (ws : list Client.pass) :
  forall s s' : Client.state,
    Client.run ws s = Some s' ->
    (Client.connectionState s = Client.conn_0_wifiConnectNow ->
     count_events is_wifi_attempt (Client.trace s) = 0%nat) ->
    (Client.connectionState s' = Client.conn_0_wifiConnectNow ->
     count_events is_wifi_attempt (Client.trace s') = 0%nat).
Proof.
  induction ws as [|w ws IH]; cbn [Client.run]; intros s s' H Hinv.
  - injection H as <-. exact Hinv.
  - destruct (Client.loop w s) as [s1|] eqn:E; [|discriminate].
    apply (IH s1 s' H). exact (client_calls_past_first_attempt _ _ _ _ E Hinv).
Qed.

Lemma server_calls_past_first_attempt (ps : list Server.procedure) (w : Server.pass) :
  forall s s' : Server.state,
    Server.calls ps w s = Some s' ->
    (Server.connectionState s = Server.conn_0_wifiConnectNow ->
     count_events is_wifi_attempt (Server.trace s) = 0%nat) ->
    (Server.connectionState s' = Server.conn_0_wifiConnectNow ->
     count_events is_wifi_attempt (Server.trace s') = 0%nat).
Proof.
  induction ps as [|p ps IH]; cbn [Server.calls]; intros s s' H Hinv.
  - injection H as <-. exact Hinv.
  - destruct (Server.call p (w p) s) as [s1|] eqn:E; [|discriminate].
    apply (IH s1 s' H).
    destruct (server_link_attempt_effect _ _ _ _ E) as [(Hc & _ & Hst) | (_ & _ & _ & Hst)].
    + intros H1. rewrite Hc. auto.
    + intros H1. contradiction.
Qed.

Lemma server_run_past_first_attempt (ws : list Server.pass) :
  forall s s' : Server.state,
    Server.run ws s = Some s' ->
    (Server.connectionState s = Server.conn_0_wifiConnectNow ->
     count_events is_wifi_attempt (Server.trace s) = 0%nat) ->
    (Server.connectionState s' = Server.conn_0_wifiConnectNow ->
     count_events is_wifi_attempt (Server.trace s') = 0%nat).
Proof.
  induction ws as [|w ws IH]; cbn [Server.run]; intros s s' H Hinv.
  - injection H as <-. exact Hinv.
  - destruct (Server.loop w s) as [s1|] eqn:E; [|discriminate].
    apply (IH s1 s' H). exact (server_calls_past_first_attempt _ _ _ _ E Hinv).
Qed.

(** Where [clientStopTime] changes: the connection was stopped, or an
    attempt to connect failed; the time read then is recorded. *)
Lemma client_stop_time_effect (p : Client.procedure) (e : env) (s s' : Client.state) :
  Client.call p e s = Some s' ->
  Client.clientStopTime s' = Client.clientStopTime s \/
  (p = Client.StopTCPconnection /\
   Client.connectionState s = Client.conn_6_stopClientNow /\
   Client.clientStopTime s' = millis e 0) \/
  (p = Client.ConnectToServer /\ client_connect e = 0 /\
   Client.connectionState s' = Client.conn_3_clientDelayConnection /\
   Client.clientStopTime s' = millis e 4).
Proof.
  destruct s as [mc er sr lh wt ct wc cc st buf tr].
  destruct p, st; cbn;
    unfold Client.connectToWiFi, Client.tryConnectingToWiFi, Client.connectToServer,
      Client.tryConnectingWithServer, Client.assembleServerResponse, Client.heartbeat;
    cbn; repeat (progress (split_atoms; cbn; split_tests; cbn)); intros [= <-]; cbn.
  all: try (left; reflexivity).
  all: try (right; left; repeat split; reflexivity).
  all: right; right; repeat split; solve [reflexivity | apply Z.eqb_eq; assumption].
Qed.

Lemma server_stop_time_effect (p : Server.procedure) (e : env) (s s' : Server.state) :
  Server.call p e s = Some s' ->
  Server.clientStopTime s' = Server.clientStopTime s \/
  (p = Server.StopTCPconnection /\
   Server.connectionState s = Server.conn_6_stopClientNow /\
   Server.clientStopTime s' = millis e 0).
Proof.
  destruct s as [er sr lh wt ct wc cc tries rs rep st buf tr].
  destruct p, st; cbn;
    unfold Server.connectToWiFi, Server.tryConnectingToWiFi, Server.connectToClient,
      Server.tryConnectingClient, Server.assembleClientRequest, Server.heartbeat;
    cbn; repeat (progress (split_atoms; cbn; split_tests; cbn)); intros [= <-]; cbn.
  all: try (left; reflexivity).
  all: right; repeat split; reflexivity.
Qed.

(** The retry delays away from the wrap-around.  The time of the last
    attempt to join the WiFi network is kept in [wifiConnectTime] and the
    time of the last stop of the connection (client: or of the last
    refused connection) in [clientStopTime]; nothing else changes them.
    As long as the recorded time plus the delay fits in 32 bits:
    - in every state reached from the initial one in which an attempt to
      join the network was made, a call of [connectToWiFi] at a time before
      [wifiConnectTime + wifiConnectDelay] makes no attempt (it returns the
      state as it is);
    - in [conn_3_clientDelayConnection], a call of [connectToServer]
      (client) or [connectToClient] (server) at a time before
      [clientStopTime + clientConnectDelay] attempts no connection.
    From [conn_2_wifiConnected] the connection is attempted at once,
    whatever [clientStopTime] is. *)
Theorem retry_delay_kept_within_range :
  (forall ws s e,
      Client.run ws Client.init = Some s ->
      (0 < count_events is_wifi_attempt (Client.trace s))%nat ->
      is_ulong (Client.wifiConnectTime s + Client.wifiConnectDelay) ->
      millis e 0 < Client.wifiConnectTime s + Client.wifiConnectDelay ->
      millis e 1 < Client.wifiConnectTime s + Client.wifiConnectDelay ->
      Client.connectToWiFi e s = s) /\
  (forall ws s e,
      Server.run ws Server.init = Some s ->
      (0 < count_events is_wifi_attempt (Server.trace s))%nat ->
      is_ulong (Server.wifiConnectTime s + Server.wifiConnectDelay) ->
      millis e 0 < Server.wifiConnectTime s + Server.wifiConnectDelay ->
      millis e 1 < Server.wifiConnectTime s + Server.wifiConnectDelay ->
      Server.connectToWiFi e s = s) /\
  (forall e s,
      Client.connectionState s = Client.conn_3_clientDelayConnection ->
      is_ulong (Client.clientStopTime s + Client.clientConnectDelay) ->
      millis e 0 < Client.clientStopTime s + Client.clientConnectDelay ->
      Client.connectToServer e s = s) /\
  (forall e s,
      Server.connectionState s = Server.conn_3_clientDelayConnection ->
      is_ulong (Server.clientStopTime s + Server.clientConnectDelay) ->
      millis e 0 < Server.clientStopTime s + Server.clientConnectDelay ->
      Server.connectToClient e s = s) /\
  (forall e s,
      Client.connectionState s = Client.conn_2_wifiConnected ->
      count_events is_connect_attempt (Client.trace (Client.connectToServer e s))
      = S (count_events is_connect_attempt (Client.trace s))) /\
  (forall e s,
      Server.connectionState s = Server.conn_2_wifiConnected ->
      count_events is_connect_attempt (Server.trace (Server.connectToClient e s))
      = S (count_events is_connect_attempt (Server.trace s))) /\
  (forall p e s s',
      Client.call p e s = Some s' ->
      (count_events is_wifi_attempt (Client.trace s')
       = count_events is_wifi_attempt (Client.trace s) /\
       Client.wifiConnectTime s' = Client.wifiConnectTime s /\
       (Client.connectionState s' = Client.conn_0_wifiConnectNow ->
        Client.connectionState s = Client.conn_0_wifiConnectNow)) \/
      (p = Client.ConnectToWiFi /\
       count_events is_wifi_attempt (Client.trace s')
       = S (count_events is_wifi_attempt (Client.trace s)) /\
       Client.wifiConnectTime s' = millis e 3 /\
       Client.connectionState s' <> Client.conn_0_wifiConnectNow)) /\
  (forall p e s s',
      Server.call p e s = Some s' ->
      (count_events is_wifi_attempt (Server.trace s')
       = count_events is_wifi_attempt (Server.trace s) /\
       Server.wifiConnectTime s' = Server.wifiConnectTime s /\
       (Server.connectionState s' = Server.conn_0_wifiConnectNow ->
        Server.connectionState s = Server.conn_0_wifiConnectNow)) \/
      (p = Server.ConnectToWiFi /\
       count_events is_wifi_attempt (Server.trace s')
       = S (count_events is_wifi_attempt (Server.trace s)) /\
       Server.wifiConnectTime s' = millis e 4 /\
       Server.connectionState s' <> Server.conn_0_wifiConnectNow)) /\
  (forall p e s s',
      Client.call p e s = Some s' ->
      Client.clientStopTime s' = Client.clientStopTime s \/
      (p = Client.StopTCPconnection /\
       Client.connectionState s = Client.conn_6_stopClientNow /\
       Client.clientStopTime s' = millis e 0) \/
      (p = Client.ConnectToServer /\ client_connect e = 0 /\
       Client.connectionState s' = Client.conn_3_clientDelayConnection /\
       Client.clientStopTime s' = millis e 4)) /\
  (forall p e s s',
      Server.call p e s = Some s' ->
      Server.clientStopTime s' = Server.clientStopTime s \/
      (p = Server.StopTCPconnection /\
       Server.connectionState s = Server.conn_6_stopClientNow /\
       Server.clientStopTime s' = millis e 0)).
Proof.
  split.
  { intros ws s e Hrun Hatt Hr H0 H1.
    apply client_link_retry_delay; try assumption.
    intros Hst. apply (client_run_past_first_attempt ws Client.init s Hrun) in Hst;
      [lia | reflexivity]. }
  split.
  { intros ws s e Hrun Hatt Hr H0 H1.
    apply server_link_retry_delay; try assumption.
    intros Hst. apply (server_run_past_first_attempt ws Server.init s Hrun) in Hst;
      [lia | reflexivity]. }
  split; [exact client_transport_retry_delay|].
  split; [exact server_transport_retry_delay|].
  split.
  { intros e s Hst. destruct s as [mc er sr lh wt ct wc cc st buf tr].
    cbn [Client.connectionState] in Hst. subst st.
    unfold Client.connectToServer, Client.tryConnectingWithServer, count_events.
    cbn. destruct (negb (client_connect e =? 0)); reflexivity. }
  split.
  { intros e s Hst. destruct (server_poll_report e s Hst) as (_ & H & _). exact H. }
  split; [exact client_link_attempt_effect|].
  split; [exact server_link_attempt_effect|].
  split; [exact client_stop_time_effect | exact server_stop_time_effect].
Qed.

Lemma retry_delay_kept_within_range_witness :
  (exists s,
      Client.run [fun _ : Client.procedure => no_wifi 1000] Client.init = Some s /\
      Client.retry_summary s = (Client.conn_1_wifiDelayConnection, 1000, 0, 1%nat, 0%nat) /\
      Client.connectToWiFi (no_wifi 5999) s = s) /\
  (exists s,
      Server.run [fun _ : Server.procedure => no_wifi 1000] Server.init = Some s /\
      Server.retry_summary s = (Server.conn_1_wifiDelayConnection, 1000, 0, 1%nat, 0%nat) /\
      Server.connectToWiFi (no_wifi 5999) s = s) /\
  (exists s,
      Client.run [fun _ : Client.procedure => refused 1000] Client.init = Some s /\
      Client.retry_summary s = (Client.conn_3_clientDelayConnection, 1000, 1000, 1%nat, 1%nat) /\
      Client.connectToServer (quiet 1099) s = s) /\
  (exists s,
      Server.run [fun _ : Server.procedure => quiet 0;
                  fun _ : Server.procedure => nobody (quiet 6000)] Server.init = Some s /\
      Server.retry_summary s = (Server.conn_3_clientDelayConnection, 0, 6000, 1%nat, 1%nat) /\
      Server.connectToClient (quiet 6099) s = s).
Proof.
  destruct retry_delay_kept_within_range as (Hcl & Hsl & Hct & Hst & _).
  split; [|split; [|split]].
  - destruct (Client.run [fun _ : Client.procedure => no_wifi 1000] Client.init)
      as [s|] eqn:E; [|vm_compute in E; discriminate E].
    exists s. split; [reflexivity|].
    split; [vm_compute in E; injection E as <-; reflexivity|].
    apply (Hcl _ s (no_wifi 5999) E);
      vm_compute in E; injection E as <-; vm_compute;
      try reflexivity; try (split; congruence); try lia.
  - destruct (Server.run [fun _ : Server.procedure => no_wifi 1000] Server.init)
      as [s|] eqn:E; [|vm_compute in E; discriminate E].
    exists s. split; [reflexivity|].
    split; [vm_compute in E; injection E as <-; reflexivity|].
    apply (Hsl _ s (no_wifi 5999) E);
      vm_compute in E; injection E as <-; vm_compute;
      try reflexivity; try (split; congruence); try lia.
  - destruct (Client.run [fun _ : Client.procedure => refused 1000] Client.init)
      as [s|] eqn:E; [|vm_compute in E; discriminate E].
    exists s. split; [reflexivity|].
    split; [vm_compute in E; injection E as <-; reflexivity|].
    apply (Hct (quiet 1099) s);
      vm_compute in E; injection E as <-; vm_compute;
      try reflexivity; try (split; congruence).
  - destruct (Server.run [fun _ : Server.procedure => quiet 0;
                          fun _ : Server.procedure => nobody (quiet 6000)] Server.init)
      as [s|] eqn:E; [|vm_compute in E; discriminate E].
    exists s. split; [reflexivity|].
    split; [vm_compute in E; injection E as <-; reflexivity|].
    apply (Hst (quiet 6099) s);
      vm_compute in E; injection E as <-; vm_compute;
      try reflexivity; try (split; congruence).
Defined.

(** C1 does not hold on the code: an attempt can follow the previous one,
    or the stop of the connection, by one millisecond.
    - The tests add the delay to the recorded time in 32 bits.  A failed
      attempt to join the WiFi network recorded at 4294966296 is followed,
      in the pass one millisecond later, by a second attempt (client and
      server): 4294966296 + 5000 wraps to 4000.  A refused connection
      (client) or a stop of the connection (server) recorded at 4294967246
      is followed one millisecond later by a new [client.connect] or a new
      poll: 4294967246 + 100 wraps to 50.
    - A link that is joined again leads to [conn_2_wifiConnected], from
      which the connection is attempted at once.  The connection is
      stopped at 6000; the pass at 6001 finds the link lost, joins the
      network again and, in the same pass, calls [client.connect]
      (client) or polls the listening socket (server), although
      [clientConnectDelay] has not elapsed since the stop.  With the link
      up, the same pass at 6001 attempts nothing.
    Away from these two cases the delays are kept
    ([retry_delay_kept_within_range]). *)
Theorem retry_delay_is_not_always_kept :
  (option_map Client.retry_summary
     (Client.run [fun _ => no_wifi 4294966296] Client.init)
   = Some (Client.conn_1_wifiDelayConnection, 4294966296, 0, 1%nat, 0%nat) /\
   option_map Client.retry_summary
     (Client.run [fun _ => no_wifi 4294966296; fun _ => no_wifi 4294966297] Client.init)
   = Some (Client.conn_1_wifiDelayConnection, 4294966297, 0, 2%nat, 0%nat) /\
   4294966297 < 4294966296 + Client.wifiConnectDelay) /\
  (option_map Server.retry_summary
     (Server.run [fun _ => no_wifi 4294966296] Server.init)
   = Some (Server.conn_1_wifiDelayConnection, 4294966296, 0, 1%nat, 0%nat) /\
   option_map Server.retry_summary
     (Server.run [fun _ => no_wifi 4294966296; fun _ => no_wifi 4294966297] Server.init)
   = Some (Server.conn_1_wifiDelayConnection, 4294966297, 0, 2%nat, 0%nat) /\
   4294966297 < 4294966296 + Server.wifiConnectDelay) /\
  (option_map Client.retry_summary
     (Client.run [fun _ => refused 4294967246] Client.init)
   = Some (Client.conn_3_clientDelayConnection, 4294967246, 4294967246, 1%nat, 1%nat) /\
   option_map Client.retry_summary
     (Client.run [fun _ => refused 4294967246; fun _ => refused 4294967247] Client.init)
   = Some (Client.conn_3_clientDelayConnection, 4294967246, 4294967247, 1%nat, 2%nat) /\
   4294967247 < 4294967246 + Client.clientConnectDelay) /\
  (option_map Server.retry_summary
     (Server.run [fun _ => quiet 0; fun _ => nobody (quiet 4294967246)] Server.init)
   = Some (Server.conn_3_clientDelayConnection, 0, 4294967246, 1%nat, 1%nat) /\
   option_map Server.retry_summary
     (Server.run [fun _ => quiet 0; fun _ => nobody (quiet 4294967246);
                  fun _ => nobody (quiet 4294967247)] Server.init)
   = Some (Server.conn_2_wifiConnected, 0, 4294967246, 1%nat, 2%nat) /\
   4294967247 < 4294967246 + Server.clientConnectDelay) /\
  (option_map Client.retry_summary
     (Client.run [fun _ => quiet 0; fun _ => deliver LF (quiet 6000)] Client.init)
   = Some (Client.conn_3_clientDelayConnection, 0, 6000, 1%nat, 1%nat) /\
   option_map Client.retry_summary
     (Client.run [fun _ => quiet 0; fun _ => deliver LF (quiet 6000);
                  fun _ => quiet 6001] Client.init)
   = Some (Client.conn_3_clientDelayConnection, 0, 6000, 1%nat, 1%nat) /\
   option_map Client.retry_summary
     (Client.run [fun _ => quiet 0; fun _ => deliver LF (quiet 6000);
                  fun _ => wifi_lost 6001] Client.init)
   = Some (Client.conn_5_requestSent, 6001, 6000, 2%nat, 2%nat) /\
   6001 < 6000 + Client.clientConnectDelay) /\
  (option_map Server.retry_summary
     (Server.run [fun _ => quiet 0; fun _ => nobody (quiet 6000)] Server.init)
   = Some (Server.conn_3_clientDelayConnection, 0, 6000, 1%nat, 1%nat) /\
   option_map Server.retry_summary
     (Server.run [fun _ => quiet 0; fun _ => nobody (quiet 6000);
                  fun _ => nobody (quiet 6001)] Server.init)
   = Some (Server.conn_3_clientDelayConnection, 0, 6000, 1%nat, 1%nat) /\
   option_map Server.retry_summary
     (Server.run [fun _ => quiet 0; fun _ => nobody (quiet 6000);
                  fun _ => nobody (wifi_lost 6001)] Server.init)
   = Some (Server.conn_2_wifiConnected, 6001, 6000, 2%nat, 2%nat) /\
   6001 < 6000 + Server.clientConnectDelay).
Proof.
  repeat split; vm_compute; reflexivity.
Qed.

(** ** The heartbeat *)

(** The client prints a heartbeat whenever the clock has passed
    [lastHeartbeat + heartbeatPeriod]. *)
Lemma client_heartbeat_fires (e : env) (s : Client.state) :
  Client.wf s ->
  Client.lastHeartbeat s + Client.heartbeatPeriod < millis e 0 ->
  let s' := Client.heartbeat e s in
  count_events is_heartbeat (Client.trace s')
  = S (count_events is_heartbeat (Client.trace s)) /\
  Client.lastHeartbeat s' = millis e 2.
Proof.
  destruct s as [mc er sr lh wt ct wc cc st buf tr].
  unfold Client.wf; cbn [Client.connectionState Client.startReadingAt Client.errors
                         Client.messageCounter Client.lastHeartbeat Client.wifiConnectTime
                         Client.clientStopTime Client.wifiConnections Client.clientConnections].
  intros Hwf Hlt. unfold Client.heartbeat. cbn [Client.lastHeartbeat].
  rewrite deadline_passed; [| tauto | discriminate | apply millis_range | exact Hlt].
  unfold count_events. destruct st; cbn; auto.
Qed.

(** As long as [lastHeartbeat + heartbeatPeriod] fits in 32 bits, the
    client prints nothing before that time has passed. *)
Lemma client_heartbeat_waits (e : env) (s : Client.state) :
  is_ulong (Client.lastHeartbeat s + Client.heartbeatPeriod) ->
  millis e 0 <= Client.lastHeartbeat s + Client.heartbeatPeriod ->
  Client.heartbeat e s = s.
Proof.
  destruct s as [mc er sr lh wt ct wc cc st buf tr]. cbn [Client.lastHeartbeat].
  intros Hr Hle. unfold Client.heartbeat. cbn [Client.lastHeartbeat].
  rewrite add32_small by exact Hr.
  destruct (Z.ltb_spec (lh + Client.heartbeatPeriod) (millis e 0)); [lia | reflexivity].
Qed.

(** The server, once the heartbeat test passes and the reporting window
    is over: no heartbeat is printed and [lastHeartbeat] stays; if
    reporting was on, it is switched off and this is announced once; if it
    was off already, nothing is printed. *)
Lemma server_heartbeat_silenced (e : env) (s : Server.state) :
  (add32 (Server.lastHeartbeat s) Server.heartbeatPeriod <? millis e 0) = true ->
  (add32 (Server.reportingStartTime s) Server.reportingTimeout >? millis e 1) = false ->
  let s' := Server.heartbeat e s in
  count_events is_heartbeat (Server.trace s') = count_events is_heartbeat (Server.trace s) /\
  Server.lastHeartbeat s' = Server.lastHeartbeat s /\
  Server.reportToSerialMonitor s' = false /\
  count_events Server.is_stop_announcement (Server.trace s')
  = ((if Server.reportToSerialMonitor s then 1 else 0)
     + count_events Server.is_stop_announcement (Server.trace s))%nat.
Proof.
  destruct s as [er sr lh wt ct wc cc tries rs rep st buf tr].
  cbn [Server.lastHeartbeat Server.reportingStartTime Server.trace Server.reportToSerialMonitor].
  intros Hgate Hwin. unfold Server.heartbeat, count_events.
  cbn [Server.emit Server.lastHeartbeat Server.reportingStartTime Server.set_ConnTriesAfterStateChange
       Server.errors Server.startReadingAt Server.wifiConnectTime Server.clientStopTime
       Server.wifiConnections Server.clientConnections Server.ConnTriesAfterStateChange
       Server.reportToSerialMonitor Server.connectionState Server.clientRequest Server.trace].
  rewrite Hgate, Hwin. destruct rep; cbn; auto.
Qed.

(** The server inside the reporting window prints the heartbeat. *)
Lemma server_heartbeat_fires (e : env) (s : Server.state) :
  (add32 (Server.lastHeartbeat s) Server.heartbeatPeriod <? millis e 0) = true ->
  (add32 (Server.reportingStartTime s) Server.reportingTimeout >? millis e 1) = true ->
  let s' := Server.heartbeat e s in
  count_events is_heartbeat (Server.trace s')
  = S (count_events is_heartbeat (Server.trace s)) /\
  Server.lastHeartbeat s' = millis e 3 /\
  Server.reportToSerialMonitor s' = Server.reportToSerialMonitor s.
Proof.
  destruct s as [er sr lh wt ct wc cc tries rs rep st buf tr].
  cbn [Server.lastHeartbeat Server.reportingStartTime Server.trace Server.reportToSerialMonitor].
  intros Hgate Hwin. unfold Server.heartbeat, count_events.
  cbn [Server.emit Server.lastHeartbeat Server.reportingStartTime Server.set_ConnTriesAfterStateChange
       Server.errors Server.startReadingAt Server.wifiConnectTime Server.clientStopTime
       Server.wifiConnections Server.clientConnections Server.ConnTriesAfterStateChange
       Server.reportToSerialMonitor Server.connectionState Server.clientRequest Server.trace].
  rewrite Hgate, Hwin. destruct st; cbn; auto.
Qed.

(** C8 does not hold on the code: the heartbeat can fire before
    [lastHeartbeat + heartbeatPeriod].  The test adds the period to the
    recorded time in 32 bits, and the sum wraps around once the recorded
    time is within one period of 2^32.
    - Client: a heartbeat is recorded at 4294966796; the call one
      millisecond later prints a second heartbeat.
    - Server, inside its reporting window (started at 4294846796): a
      heartbeat is recorded at 4294966396; the pass one millisecond later
      prints another one.
    Below that range the period is kept, and the server stops and resumes
    its reports as described (the four lemmas above). *)
Theorem heartbeat_period_is_not_always_kept :
  (exists s,
      Client.run [fun _ => no_wifi 4294966796] Client.init = Some s /\
      Client.heartbeat_summary s = (4294966796, 1%nat) /\
      Client.heartbeat_summary (Client.heartbeat (no_wifi 4294966797) s)
      = (4294966797, 2%nat) /\
      4294966797 < 4294966796 + Client.heartbeatPeriod) /\
  (option_map Server.heartbeat_summary
     (Server.run [fun _ => nobody (quiet 4294846796);
                  fun _ => nobody (quiet 4294966396)] Server.init)
   = Some (4294966396, 4294846796, 2%nat) /\
   option_map Server.heartbeat_summary
     (Server.run [fun _ => nobody (quiet 4294846796);
                  fun _ => nobody (quiet 4294966396);
                  fun _ => nobody (quiet 4294966397)] Server.init)
   = Some (4294966397, 4294846796, 3%nat) /\
   4294966397 < 4294966396 + Server.heartbeatPeriod).
Proof.
  split.
  - eexists. split; [vm_compute; reflexivity|].
    repeat split; vm_compute; reflexivity.
  - repeat split; vm_compute; reflexivity.
Qed.

(** * Further properties *)

(** ** Invariants of the passes *)

(** What every call of a procedure keeps is kept by every pass and by
    every run. *)
Lemma client_calls_invariant (P : Client.state -> Prop) :
  (forall p e s s', P s -> Client.call p e s = Some s' -> P s') ->
  forall ps w s s', P s -> Client.calls ps w s = Some s' -> P s'.
Proof.
  intros Hcall ps w. induction ps as [|p ps IH]; cbn [Client.calls]; intros s s' HP H.
  - injection H as <-. exact HP.
  - destruct (Client.call p (w p) s) as [s1|] eqn:E; [|discriminate].
    exact (IH s1 s' (Hcall _ _ _ _ HP E) H).
Qed.

Lemma client_run_invariant (P : Client.state -> Prop) :
  (forall p e s s', P s -> Client.call p e s = Some s' -> P s') ->
  forall ws s s', P s -> Client.run ws s = Some s' -> P s'.
Proof.
  intros Hcall ws. induction ws as [|w ws IH]; cbn [Client.run]; intros s s' HP H.
  - injection H as <-. exact HP.
  - destruct (Client.loop w s) as [s1|] eqn:E; [|discriminate].
    exact (IH s1 s' (client_calls_invariant P Hcall _ _ _ _ HP E) H).
Qed.

Lemma server_calls_invariant (P : Server.state -> Prop) :
  (forall p e s s', P s -> Server.call p e s = Some s' -> P s') ->
  forall ps w s s', P s -> Server.calls ps w s = Some s' -> P s'.
Proof.
  intros Hcall ps w. induction ps as [|p ps IH]; cbn [Server.calls]; intros s s' HP H.
  - injection H as <-. exact HP.
  - destruct (Server.call p (w p) s) as [s1|] eqn:E; [|discriminate].
    exact (IH s1 s' (Hcall _ _ _ _ HP E) H).
Qed.

Lemma server_run_invariant (P : Server.state -> Prop) :
  (forall p e s s', P s -> Server.call p e s = Some s' -> P s') ->
  forall ws s s', P s -> Server.run ws s = Some s' -> P s'.
Proof.
  intros Hcall ws. induction ws as [|w ws IH]; cbn [Server.run]; intros s s' HP H.
  - injection H as <-. exact HP.
  - destruct (Server.loop w s) as [s1|] eqn:E; [|discriminate].
    exact (IH s1 s' (server_calls_invariant P Hcall _ _ _ _ HP E) H).
Qed.

(** ** The state graph *)

Lemma client_call_transition (p : Client.procedure) (e : env) (s s' : Client.state) :
  Client.call p e s = Some s' ->
  Client.transition p (Client.connectionState s) (Client.connectionState s') = true.
Proof.
  destruct s as [mc er sr lh wt ct wc cc st buf tr].
  destruct p, st; cbn;
    unfold Client.connectToWiFi, Client.tryConnectingToWiFi, Client.connectToServer,
      Client.tryConnectingWithServer, Client.assembleServerResponse, Client.heartbeat;
    cbn; repeat (progress (split_atoms; cbn; split_tests; cbn)); intros [= <-]; reflexivity.
Qed.

Lemma server_call_transition (p : Server.procedure) (e : env) (s s' : Server.state) :
  Server.call p e s = Some s' ->
  Server.transition p (Server.connectionState s) (Server.connectionState s') = true.
Proof.
  destruct s as [er sr lh wt ct wc cc tries rs rep st buf tr].
  destruct p, st; cbn;
    unfold Server.connectToWiFi, Server.tryConnectingToWiFi, Server.connectToClient,
      Server.tryConnectingClient, Server.assembleClientRequest, Server.heartbeat;
    cbn; repeat (progress (split_atoms; cbn; split_tests; cbn)); intros [= <-]; reflexivity.
Qed.

Lemma client_transition_realised (p : Client.procedure) (a b : Client.ConnectionState_type) :
  Client.transition p a b = Client.realised p a b.
Proof. destruct p, a, b; vm_compute; reflexivity. Qed.

Lemma server_transition_realised (p : Server.procedure) (a b : Server.ConnectionState_type) :
  Server.transition p a b = Server.realised p a b.
Proof. destruct p, a, b; vm_compute; reflexivity. Qed.

Lemma client_state_eqb_eq (a b : Client.ConnectionState_type) :
  Client.state_eqb a b = true -> a = b.
Proof. destruct a, b; cbn; intros H; try discriminate H; reflexivity. Qed.

Lemma server_state_eqb_eq (a b : Server.ConnectionState_type) :
  Server.state_eqb a b = true -> a = b.
Proof. destruct a, b; cbn; intros H; try discriminate H; reflexivity. Qed.

Lemma client_all_states (c : Client.ConnectionState_type) : In c Client.all_states.
Proof. destruct c; cbn; tauto. Qed.

Lemma server_all_states (c : Server.ConnectionState_type) : In c Server.all_states.
Proof. destruct c; cbn; tauto. Qed.

(** X1.  The state graph of the client.  Every call of a procedure changes
    [connectionState] along an edge of [Client.transition], and every edge
    is taken by some call.  In particular no call goes back to
    [conn_0_wifiConnectNow]; [conn_7_report] is entered only from
    [conn_6_stopClientNow] by [stopTCPconnection]; and [connectToWiFi] can
    leave any later state for [conn_1_wifiDelayConnection] or
    [conn_2_wifiConnected] without passing through tear-down. *)
Theorem client_state_graph :
  (forall p e s s',
      Client.call p e s = Some s' ->
      Client.transition p (Client.connectionState s) (Client.connectionState s') = true) /\
  (forall p a b,
      Client.transition p a b = true ->
      exists e s s',
        Client.connectionState s = a /\ Client.call p e s = Some s' /\
        Client.connectionState s' = b) /\
  (forall p a, Client.transition p a Client.conn_0_wifiConnectNow = true ->
               a = Client.conn_0_wifiConnectNow /\ p <> Client.ConnectToWiFi) /\
  (forall p a, Client.transition p a Client.conn_7_report = true ->
               a = Client.conn_7_report \/
               (a = Client.conn_6_stopClientNow /\ p = Client.StopTCPconnection)) /\
  (forall a,
      Client.transition Client.ConnectToWiFi a Client.conn_1_wifiDelayConnection = true /\
      Client.transition Client.ConnectToWiFi a Client.conn_2_wifiConnected = true).
Proof.
  split; [exact client_call_transition|].
  split.
  { intros p a b H. rewrite client_transition_realised in H.
    unfold Client.realised in H. apply existsb_exists in H. destruct H as (e & _ & H).
    exists e, (Client.set_connectionState a Client.init).
    destruct (Client.call p e (Client.set_connectionState a Client.init)) as [s'|];
      [|discriminate].
    exists s'. split; [reflexivity|]. split; [reflexivity|].
    apply client_state_eqb_eq. exact H. }
  split.
  { intros p a H. destruct p, a; cbn in H; try discriminate H;
      (split; [reflexivity | discriminate]). }
  split.
  { intros p a H. destruct p, a; cbn in H; try discriminate H; auto. }
  intros a. destruct a; split; reflexivity.
Qed.

Lemma client_state_graph_witness :
  Client.transition Client.ConnectToWiFi Client.conn_0_wifiConnectNow
    Client.conn_2_wifiConnected = true /\
  (exists e s s',
      Client.connectionState s = Client.conn_5_requestSent /\
      Client.call Client.AssembleServerResponse e s = Some s' /\
      Client.connectionState s' = Client.conn_6_stopClientNow).
Proof.
  destruct client_state_graph as (Hsound & Htight & _).
  split.
  - exact (Hsound Client.ConnectToWiFi (quiet 0) Client.init _ eq_refl).
  - apply Htight. reflexivity.
Defined.

(** X2.  The state graph of the server.  Every call of a procedure changes
    [connectionState] along an edge of [Server.transition], and every edge
    is taken by some call.  In particular no call goes back to
    [conn_0_wifiConnectNow]; [conn_7_report] is entered only from
    [conn_6_stopClientNow] by [stopTCPconnection]; and
    [conn_5_requestReceived] is entered only from [conn_4_clientConnected]
    by [assembleClientRequest]. *)
Theorem server_state_graph :
  (forall p e s s',
      Server.call p e s = Some s' ->
      Server.transition p (Server.connectionState s) (Server.connectionState s') = true) /\
  (forall p a b,
      Server.transition p a b = true ->
      exists e s s',
        Server.connectionState s = a /\ Server.call p e s = Some s' /\
        Server.connectionState s' = b) /\
  (forall p a, Server.transition p a Server.conn_0_wifiConnectNow = true ->
               a = Server.conn_0_wifiConnectNow /\ p <> Server.ConnectToWiFi) /\
  (forall p a, Server.transition p a Server.conn_7_report = true ->
               a = Server.conn_7_report \/
               (a = Server.conn_6_stopClientNow /\ p = Server.StopTCPconnection)) /\
  (forall p a, Server.transition p a Server.conn_5_requestReceived = true ->
               a = Server.conn_5_requestReceived \/
               (a = Server.conn_4_clientConnected /\ p = Server.AssembleClientRequest)).
Proof.
  split; [exact server_call_transition|].
  split.
  { intros p a b H. rewrite server_transition_realised in H.
    unfold Server.realised in H. apply existsb_exists in H. destruct H as (e & _ & H).
    exists e, (Server.set_connectionState a Server.init).
    destruct (Server.call p e (Server.set_connectionState a Server.init)) as [s'|];
      [|discriminate].
    exists s'. split; [reflexivity|]. split; [reflexivity|].
    apply server_state_eqb_eq. exact H. }
  split.
  { intros p a H. destruct p, a; cbn in H; try discriminate H;
      (split; [reflexivity | discriminate]). }
  split.
  { intros p a H. destruct p, a; cbn in H; try discriminate H; auto. }
  intros p a H. destruct p, a; cbn in H; try discriminate H; auto.
Qed.

Lemma server_state_graph_witness :
  Server.transition Server.ConnectToWiFi Server.conn_0_wifiConnectNow
    Server.conn_2_wifiConnected = true /\
  (exists e s s',
      Server.connectionState s = Server.conn_5_requestReceived /\
      Server.call Server.SendResponseToClient e s = Some s' /\
      Server.connectionState s' = Server.conn_4_clientConnected).
Proof.
  destruct server_state_graph as (Hsound & Htight & _).
  split.
  - exact (Hsound Server.ConnectToWiFi (quiet 0) Server.init _ eq_refl).
  - apply Htight. reflexivity.
Defined.

(** ** Where a pass ends *)

Lemma client_calls_path (ps : list Client.procedure) (w : Client.pass) :
  forall s s' : Client.state,
    Client.calls ps w s = Some s' ->
    Client.path ps (Client.connectionState s) (Client.connectionState s') = true.
Proof.
  induction ps as [|p ps IH]; cbn [Client.calls Client.path]; intros s s' H.
  - injection H as <-. unfold Client.state_eqb. apply Z.eqb_refl.
  - destruct (Client.call p (w p) s) as [s1|] eqn:E; [|discriminate].
    apply existsb_exists. exists (Client.connectionState s1).
    split; [apply client_all_states|].
    rewrite (client_call_transition _ _ _ _ E), (IH _ _ H). reflexivity.
Qed.

Lemma server_calls_path (ps : list Server.procedure) (w : Server.pass) :
  forall s s' : Server.state,
    Server.calls ps w s = Some s' ->
    Server.path ps (Server.connectionState s) (Server.connectionState s') = true.
Proof.
  induction ps as [|p ps IH]; cbn [Server.calls Server.path]; intros s s' H.
  - injection H as <-. unfold Server.state_eqb. apply Z.eqb_refl.
  - destruct (Server.call p (w p) s) as [s1|] eqn:E; [|discriminate].
    apply existsb_exists. exists (Server.connectionState s1).
    split; [apply server_all_states|].
    rewrite (server_call_transition _ _ _ _ E), (IH _ _ H). reflexivity.
Qed.

(** X3.  Whatever the state at its start, a pass of the client's [loop()]
    ends in [conn_1_wifiDelayConnection], [conn_3_clientDelayConnection] or
    [conn_5_requestSent]: a connection that was made has its request sent
    in the same pass, and a tear-down that was decided is carried out and
    reported in the same pass. *)
Theorem client_pass_end (w : Client.pass) (s s' : Client.state) :
  Client.loop w s = Some s' ->
  Client.pass_end (Client.connectionState s') = true.
Proof.
  intros H. apply client_calls_path in H.
  destruct (Client.connectionState s), (Client.connectionState s');
    vm_compute in H; try discriminate H; reflexivity.
Qed.

Lemma client_pass_end_witness :
  exists s', Client.loop (fun _ => quiet 0) Client.init = Some s' /\
             Client.pass_end (Client.connectionState s') = true.
Proof.
  destruct (Client.loop (fun _ => quiet 0) Client.init) as [s'|] eqn:E;
    [|vm_compute in E; discriminate E].
  exists s'. split; [reflexivity|].
  exact (client_pass_end (fun _ => quiet 0) Client.init s' E).
Defined.

(** X4.  Whatever the state at its start, a pass of the server's [loop()]
    ends in [conn_1_wifiDelayConnection], [conn_2_wifiConnected],
    [conn_3_clientDelayConnection] or [conn_4_clientConnected]: a complete
    request is answered in the pass that read its line feed, and a
    tear-down that was decided is carried out and reported in the same
    pass. *)
Theorem server_pass_end (w : Server.pass) (s s' : Server.state) :
  Server.loop w s = Some s' ->
  Server.pass_end (Server.connectionState s') = true.
Proof.
  intros H. apply server_calls_path in H.
  destruct (Server.connectionState s), (Server.connectionState s');
    vm_compute in H; try discriminate H; reflexivity.
Qed.

Lemma server_pass_end_witness :
  exists s', Server.loop (fun _ => quiet 0) Server.init = Some s' /\
             Server.pass_end (Server.connectionState s') = true.
Proof.
  destruct (Server.loop (fun _ => quiet 0) Server.init) as [s'|] eqn:E;
    [|vm_compute in E; discriminate E].
  exists s'. split; [reflexivity|].
  exact (server_pass_end (fun _ => quiet 0) Server.init s' E).
Defined.

(** ** Every change of state is reported *)

Lemma client_call_traced (p : Client.procedure) (e : env) (s s' : Client.state) :
  Client.state_is_traced s -> Client.call p e s = Some s' -> Client.state_is_traced s'.
Proof.
  destruct s as [mc er sr lh wt ct wc cc st buf tr].
  unfold Client.state_is_traced. cbn [Client.trace Client.connectionState]. intros Htr.
  destruct p, st; cbn;
    unfold Client.connectToWiFi, Client.tryConnectingToWiFi, Client.connectToServer,
      Client.tryConnectingWithServer, Client.assembleServerResponse, Client.heartbeat;
    cbn; repeat (progress (split_atoms; cbn; split_tests; cbn)); intros [= <-]; cbn;
    solve [reflexivity | exact Htr].
Qed.

Lemma server_call_traced (p : Server.procedure) (e : env) (s s' : Server.state) :
  Server.state_is_traced s -> Server.call p e s = Some s' -> Server.state_is_traced s'.
Proof.
  destruct s as [er sr lh wt ct wc cc tries rs rep st buf tr].
  unfold Server.state_is_traced. cbn [Server.trace Server.connectionState]. intros Htr.
  destruct p, st; cbn;
    unfold Server.connectToWiFi, Server.tryConnectingToWiFi, Server.connectToClient,
      Server.tryConnectingClient, Server.assembleClientRequest, Server.heartbeat;
    cbn; repeat (progress (split_atoms; cbn; split_tests; cbn)); intros [= <-]; cbn;
    solve [reflexivity | exact Htr].
Qed.

(** X5.  [connectionState] is written through [changeConnectionState]
    only: in every state reached from the initial one, in both sketches,
    the state token printed last on the serial monitor is the current
    state (and while none was printed the state is the initial one). *)
Theorem state_changes_are_traced :
  (forall ws s, Client.run ws Client.init = Some s -> Client.state_is_traced s) /\
  (forall ws s, Server.run ws Server.init = Some s -> Server.state_is_traced s).
Proof.
  split; intros ws s H.
  - apply (client_run_invariant _ client_call_traced ws Client.init s); [reflexivity | exact H].
  - apply (server_run_invariant _ server_call_traced ws Server.init s); [reflexivity | exact H].
Qed.

Lemma state_changes_are_traced_witness :
  (exists s, Client.run [fun _ => quiet 0; fun _ => deliver LF (quiet 50)] Client.init = Some s /\
             Client.state_is_traced s /\
             last_state_report (Client.trace s) = Some 3) /\
  (exists s, Server.run [fun _ => quiet 0; fun _ => deliver LF (quiet 50)] Server.init = Some s /\
             Server.state_is_traced s /\
             last_state_report (Server.trace s) = Some 4).
Proof.
  split.
  - destruct (Client.run [fun _ => quiet 0; fun _ => deliver LF (quiet 50)] Client.init)
      as [s|] eqn:E; [|vm_compute in E; discriminate E].
    exists s. split; [reflexivity|].
    split; [exact (proj1 state_changes_are_traced _ s E)|].
    vm_compute in E. injection E as <-. reflexivity.
  - destruct (Server.run [fun _ => quiet 0; fun _ => deliver LF (quiet 50)] Server.init)
      as [s|] eqn:E; [|vm_compute in E; discriminate E].
    exists s. split; [reflexivity|].
    split; [exact (proj2 state_changes_are_traced _ s E)|].
    vm_compute in E. injection E as <-. reflexivity.
Defined.

(** ** The buffers *)

Lemma strcat_Some (cap : nat) (dest src r : string) :
  strcat cap dest src = Some r ->
  r = (dest ++ src)%string /\ (String.length r < cap)%nat.
Proof.
  unfold strcat. destruct (Nat.ltb_spec (String.length (dest ++ src)) cap); intros [= <-].
  split; [reflexivity | assumption].
Qed.

Lemma strcat_None (cap : nat) (dest src : string) :
  strcat cap dest src = None <-> (cap <= String.length dest + String.length src)%nat.
Proof.
  unfold strcat. rewrite string_length_append.
  destruct (Nat.ltb_spec (String.length dest + String.length src) cap);
    split; intros H0; try discriminate; try lia; reflexivity.
Qed.

Lemma string_forall_app (f : ascii -> bool) (a b : string) :
  string_forall f (a ++ b) = string_forall f a && string_forall f b.
Proof.
  induction a as [|c a IH]; cbn; [reflexivity|]. rewrite IH. apply andb_assoc.
Qed.

Lemma cstring_of_char_cases (c : ascii) :
  (c = NUL /\ cstring_of_char c = EmptyString) \/
  (c <> NUL /\ cstring_of_char c = String c EmptyString).
Proof.
  unfold cstring_of_char. destruct (Ascii.eqb_spec c NUL); [left | right]; auto.
Qed.

Lemma client_call_response_ok (p : Client.procedure) (e : env) (s s' : Client.state) :
  Client.response_ok s -> Client.call p e s = Some s' -> Client.response_ok s'.
Proof.
  destruct s as [mc er sr lh wt ct wc cc st buf tr].
  unfold Client.response_ok. cbn [Client.serverResponse]. intros Hok.
  destruct p, st; cbn;
    unfold Client.connectToWiFi, Client.tryConnectingToWiFi, Client.connectToServer,
      Client.tryConnectingWithServer, Client.assembleServerResponse, Client.heartbeat;
    cbn; repeat (progress (split_atoms; cbn; split_tests; cbn)); intros [= <-]; cbn;
    try assumption; try reflexivity.
  all: match goal with
       | H : strcat _ _ _ = Some _ |- _ => apply strcat_Some in H; destruct H as [-> _]
       end.
  all: rewrite string_forall_app, Hok; cbn [andb].
  all: destruct (cstring_of_char_cases (client_read e)) as [[_ ->] | [Hn ->]];
    [reflexivity|].
  all: cbn [string_forall]; unfold kept.
  all: apply Ascii.eqb_neq in Hn; rewrite Hn.
  all: repeat match goal with H : Ascii.eqb _ _ = false |- _ => rewrite H end.
  all: reflexivity.
Qed.

Lemma server_call_request_ok (p : Server.procedure) (e : env) (s s' : Server.state) :
  Server.request_ok s -> Server.call p e s = Some s' -> Server.request_ok s'.
Proof.
  destruct s as [er sr lh wt ct wc cc tries rs rep st buf tr].
  unfold Server.request_ok.
  cbn [Server.clientRequest Server.connectionState Server.trace].
  intros (Hnul & H4 & H5 & Hresp).
  destruct p, st; cbn;
    unfold Server.connectToWiFi, Server.tryConnectingToWiFi, Server.connectToClient,
      Server.tryConnectingClient, Server.assembleClientRequest, Server.heartbeat;
    cbn; repeat (progress (split_atoms; cbn; split_tests; cbn)); intros [= <-]; cbn.
  all: try (repeat split; solve [assumption | discriminate | reflexivity]).
  all: try (split; [reflexivity|]; split; [reflexivity|]; split; [discriminate|];
            constructor; [|exact Hresp];
            split; [exact Hnul|]; apply H5; reflexivity).
  all: match goal with
       | H : strcat _ _ _ = Some _ |- _ => apply strcat_Some in H; destruct H as [-> _]
       end.
  all: specialize (H4 eq_refl).
  all: destruct (cstring_of_char_cases (client_read e)) as [[Hc ->] | [Hc ->]].
  all: try (apply Ascii.eqb_eq in Heqb; rewrite Heqb in Hc; discriminate Hc).
  all: rewrite ?string_append_empty, ?string_forall_app, ?Hnul, ?H4; cbn [andb string_forall].
  all: unfold not_char; rewrite ?Heqb.
  all: try (apply Ascii.eqb_neq in Hc; rewrite Hc).
  all: cbn [negb andb].
  all: repeat split; try assumption; try discriminate; try reflexivity.
  all: intros _; exists buf; apply Ascii.eqb_eq in Heqb; rewrite Heqb; split;
    [reflexivity | exact H4].
Qed.

(** X6.  What [serverResponse] holds.  In every state of a run of the
    client from reset (the run as far as it is defined, that is as long as
    no call wrote beyond the array, see X8), [serverResponse] holds
    neither carriage return nor line feed nor NUL: only characters the
    client keeps of the response it is reading. *)
Theorem client_response_buffer_ok (ws : list Client.pass) (s : Client.state) :
  Client.run ws Client.init = Some s ->
  string_forall kept (Client.serverResponse s) = true.
Proof.
  apply (client_run_invariant Client.response_ok client_call_response_ok ws Client.init s).
  reflexivity.
Qed.

Lemma client_response_buffer_ok_witness :
  exists s,
    Client.run [fun _ => quiet 0; fun _ => deliver "7"%char (quiet 5);
                fun _ => deliver CR (quiet 6)] Client.init = Some s /\
    Client.serverResponse s = "7"%string /\
    string_forall kept (Client.serverResponse s) = true.
Proof.
  destruct (Client.run [fun _ => quiet 0; fun _ => deliver "7"%char (quiet 5);
                        fun _ => deliver CR (quiet 6)] Client.init)
    as [s|] eqn:E; [|vm_compute in E; discriminate E].
  exists s. split; [reflexivity|].
  split; [vm_compute in E; injection E as <-; reflexivity|].
  exact (client_response_buffer_ok _ s E).
Defined.

(** X7.  What [clientRequest] holds and what the server sends.  In every
    state of a run of the server from reset (the run as far as it is
    defined, that is as long as no call wrote beyond the array, see X9),
    [clientRequest] holds no NUL; while a request is awaited it holds no
    line feed; when the request is received it is one complete line; and
    every response sent so far was one complete line without NUL, closed
    by its only line feed. *)
Theorem server_request_buffer_ok (ws : list Server.pass) (s : Server.state) :
  Server.run ws Server.init = Some s ->
  string_forall (not_char NUL) (Server.clientRequest s) = true /\
  (Server.connectionState s = Server.conn_4_clientConnected ->
   string_forall (not_char LF) (Server.clientRequest s) = true) /\
  (Server.connectionState s = Server.conn_5_requestReceived ->
   Server.complete_line (Server.clientRequest s)) /\
  Forall Server.line_ok (Server.responses (Server.trace s)).
Proof.
  apply (server_run_invariant Server.request_ok server_call_request_ok ws Server.init s).
  unfold Server.request_ok. cbn.
  repeat split; try discriminate; try constructor.
Qed.

Lemma server_request_buffer_ok_witness :
  exists s,
    Server.run [fun _ => quiet 0; fun _ => deliver "7"%char (quiet 5);
                fun _ => deliver LF (quiet 6)] Server.init = Some s /\
    Server.responses (Server.trace s) = [String "7" (String LF EmptyString)] /\
    Forall Server.line_ok (Server.responses (Server.trace s)).
Proof.
  destruct (Server.run [fun _ => quiet 0; fun _ => deliver "7"%char (quiet 5);
                        fun _ => deliver LF (quiet 6)] Server.init)
    as [s|] eqn:E; [|vm_compute in E; discriminate E].
  exists s. split; [reflexivity|].
  split; [vm_compute in E; injection E as <-; reflexivity|].
  exact (proj2 (proj2 (proj2 (server_request_buffer_ok _ s E)))).
Defined.

(** X8.  The only way a call of a client procedure goes wrong: with
    [serverResponse] within its array, a call has no defined result exactly
    when [assembleServerResponse], in [conn_5_requestSent], reads a
    character to keep while 19 characters are held already (the 20th
    character and its terminator do not fit). *)
Theorem client_call_overrun (p : Client.procedure) (e : env) (s : Client.state) :
  (String.length (Client.serverResponse s) < Client.serverResponse_size)%nat ->
  (Client.call p e s = None <->
   p = Client.AssembleServerResponse /\
   Client.connectionState s = Client.conn_5_requestSent /\
   client_available e <> 0 /\
   kept (client_read e) = true /\
   String.length (Client.serverResponse s) = 19%nat).
Proof.
  destruct s as [mc er sr lh wt ct wc cc st buf tr].
  cbn [Client.serverResponse Client.connectionState]. unfold Client.serverResponse_size.
  intros Hlen.
  destruct p, st; cbn [Client.call];
    try (split; [discriminate | intros (H & H' & _); discriminate]).
  unfold Client.assembleServerResponse, kept.
  cbn [Client.connectionState Client.serverResponse Client.emit].
  destruct (Z.eqb_spec (client_available e) 0) as [Hav|Hav]; cbn [negb].
  { split; [destruct (_ <? _); discriminate | intros (_ & _ & H & _); contradiction]. }
  destruct (Ascii.eqb_spec (client_read e) CR) as [Hcr|Hcr]; cbn [orb negb].
  { split; [destruct (Ascii.eqb (client_read e) LF); discriminate
           | intros (_ & _ & _ & H & _); discriminate]. }
  destruct (Ascii.eqb_spec (client_read e) LF) as [Hlf|Hlf]; cbn [orb negb].
  { split; [discriminate | intros (_ & _ & _ & H & _); discriminate]. }
  destruct (cstring_of_char_cases (client_read e)) as [[Hc Hs] | [Hc Hs]]; rewrite Hs.
  - destruct (Ascii.eqb_spec (client_read e) NUL); [|contradiction].
    destruct (strcat Client.serverResponse_size buf EmptyString) eqn:E.
    + split; [discriminate | intros (_ & _ & _ & H & _); discriminate].
    + apply strcat_None in E. cbn in E. unfold Client.serverResponse_size in E. lia.
  - destruct (Ascii.eqb_spec (client_read e) NUL); [contradiction|].
    destruct (strcat Client.serverResponse_size buf (String (client_read e) EmptyString)) eqn:E.
    + apply strcat_Some in E. destruct E as [-> Hl].
      rewrite string_length_append in Hl. cbn in Hl. unfold Client.serverResponse_size in Hl.
      split; [discriminate | intros (_ & _ & _ & _ & H); lia].
    + apply strcat_None in E. cbn in E. unfold Client.serverResponse_size in E.
      split; [intros _; repeat split; auto; lia | reflexivity].
Qed.

Lemma client_call_overrun_witness :
  Client.call Client.AssembleServerResponse (deliver "0"%char (quiet 5))
    (Client.set_serverResponse "1234567890123456789"
       (Client.set_connectionState Client.conn_5_requestSent Client.init)) = None.
Proof.
  apply (client_call_overrun Client.AssembleServerResponse (deliver "0"%char (quiet 5))
           (Client.set_serverResponse "1234567890123456789"
              (Client.set_connectionState Client.conn_5_requestSent Client.init)));
    [vm_compute; lia|].
  repeat split; try reflexivity. vm_compute. discriminate.
Defined.

(** X9.  The only way a call of a server procedure goes wrong: with
    [clientRequest] within its array, a call has no defined result exactly
    when [assembleClientRequest], in [conn_4_clientConnected], reads a
    character other than NUL, the line feed included, while 19 characters
    are held already.  A request line of 20 bytes or more overruns the
    array. *)
Theorem server_call_overrun (p : Server.procedure) (e : env) (s : Server.state) :
  (String.length (Server.clientRequest s) < Server.clientRequest_size)%nat ->
  (Server.call p e s = None <->
   p = Server.AssembleClientRequest /\
   Server.connectionState s = Server.conn_4_clientConnected /\
   client_available e <> 0 /\
   client_read e <> NUL /\
   String.length (Server.clientRequest s) = 19%nat).
Proof.
  destruct s as [er sr lh wt ct wc cc tries rs rep st buf tr].
  cbn [Server.clientRequest Server.connectionState]. unfold Server.clientRequest_size.
  intros Hlen.
  destruct p, st; cbn [Server.call];
    try (split; [discriminate | intros (H & H' & _); discriminate]).
  unfold Server.assembleClientRequest.
  cbn [Server.connectionState Server.clientRequest Server.emit].
  destruct (Z.eqb_spec (client_available e) 0) as [Hav|Hav]; cbn [negb].
  { split; [destruct (_ <? _); discriminate | intros (_ & _ & H & _); contradiction]. }
  destruct (cstring_of_char_cases (client_read e)) as [[Hc Hs] | [Hc Hs]]; rewrite Hs.
  - destruct (strcat Server.clientRequest_size buf EmptyString) eqn:E.
    + split; [destruct (Ascii.eqb (client_read e) LF); discriminate
             | intros (_ & _ & _ & H & _); contradiction].
    + apply strcat_None in E. cbn in E. unfold Server.clientRequest_size in E. lia.
  - destruct (strcat Server.clientRequest_size buf (String (client_read e) EmptyString)) eqn:E.
    + apply strcat_Some in E. destruct E as [-> Hl].
      rewrite string_length_append in Hl. cbn in Hl. unfold Server.clientRequest_size in Hl.
      split; [destruct (Ascii.eqb (client_read e) LF); discriminate
             | intros (_ & _ & _ & _ & H); lia].
    + apply strcat_None in E. cbn in E. unfold Server.clientRequest_size in E.
      split; [intros _; repeat split; auto; lia | reflexivity].
Qed.

Lemma server_call_overrun_witness :
  Server.call Server.AssembleClientRequest (deliver LF (quiet 5))
    (Server.set_clientRequest "1234567890123456789"
       (Server.set_connectionState Server.conn_4_clientConnected Server.init)) = None.
Proof.
  apply (server_call_overrun Server.AssembleClientRequest (deliver LF (quiet 5))
           (Server.set_clientRequest "1234567890123456789"
              (Server.set_connectionState Server.conn_4_clientConnected Server.init)));
    [vm_compute; lia|].
  repeat split; try reflexivity; vm_compute; discriminate.
Defined.

(** ** Whole lines *)

Lemma client_assemble_nul (e : env) (s : Client.state) :
  Client.connectionState s = Client.conn_5_requestSent ->
  client_available e <> 0 ->
  client_read e = NUL ->
  (String.length (Client.serverResponse s) < Client.serverResponse_size)%nat ->
  exists s',
    Client.assembleServerResponse e s = Some s' /\
    Client.serverResponse s' = Client.serverResponse s /\
    Client.connectionState s' = Client.conn_5_requestSent /\
    Client.messageCounter s' = Client.messageCounter s.
Proof.
  destruct s as [mc er sr lh wt ct wc cc st buf tr].
  cbn [Client.connectionState Client.serverResponse Client.messageCounter].
  intros -> Hav Hc Hlen.
  unfold Client.assembleServerResponse.
  cbn [Client.connectionState Client.serverResponse Client.emit].
  destruct (Z.eqb_spec (client_available e) 0) as [|_]; [contradiction|].
  rewrite Hc. cbn [negb Ascii.eqb orb].
  change (cstring_of_char NUL) with EmptyString.
  assert (Hcat : strcat Client.serverResponse_size buf EmptyString = Some buf).
  { rewrite strcat_fits by (cbn; lia). now rewrite string_append_empty. }
  change (Ascii.eqb NUL CR) with false. change (Ascii.eqb NUL LF) with false.
  cbn [negb orb]. rewrite Hcat.
  eexists; split; [reflexivity|]; cbn; auto.
Qed.

(** A run of characters without line feed: the kept ones are accumulated
    in order, the carriage returns and the NULs are dropped. *)
Lemma client_feed_chars (cs : list ascii) :
  forall (k : nat) (base : nat -> env) (s : Client.state),
    Client.connectionState s = Client.conn_5_requestSent ->
    Forall (fun c => c <> LF) cs ->
    (String.length (Client.serverResponse s) + List.length (List.filter kept cs)
     < Client.serverResponse_size)%nat ->
    exists s',
      Client.feed k cs base s = Some s' /\
      Client.serverResponse s'
      = (Client.serverResponse s ++ string_of_list_ascii (List.filter kept cs))%string /\
      Client.connectionState s' = Client.conn_5_requestSent /\
      Client.messageCounter s' = Client.messageCounter s.
Proof.
  induction cs as [|c cs IH]; intros k base s Hst Hcs Hlen.
  - exists s. cbn. rewrite string_append_empty. auto.
  - inversion Hcs as [|? ? Hlf Hrest]; subst.
    cbn [Client.feed List.filter] in *.
    destruct (Ascii.eqb_spec c CR) as [Hcr|Hcr].
    { assert (Hk : kept c = false) by (subst c; reflexivity). rewrite Hk in *.
      destruct (client_assemble_carriage_return (deliver c (base k)) s)
        as (s1 & E1 & _ & B1 & S1 & M1); [assumption | discriminate | exact Hcr |].
      rewrite E1. destruct (IH (S k) base s1) as (s2 & E2 & B2 & S2 & M2);
        [assumption | assumption | rewrite B1; exact Hlen |].
      exists s2. repeat split; try assumption; congruence. }
    destruct (Ascii.eqb_spec c NUL) as [Hn|Hn].
    { assert (Hk : kept c = false) by (subst c; reflexivity). rewrite Hk in *.
      destruct (client_assemble_nul (deliver c (base k)) s)
        as (s1 & E1 & B1 & S1 & M1); [assumption | discriminate | exact Hn | lia |].
      rewrite E1. destruct (IH (S k) base s1) as (s2 & E2 & B2 & S2 & M2);
        [assumption | assumption | rewrite B1; exact Hlen |].
      exists s2. repeat split; try assumption; congruence. }
    assert (Hk : kept c = true).
    { unfold kept. apply Ascii.eqb_neq in Hcr, Hlf, Hn. now rewrite Hcr, Hlf, Hn. }
    rewrite Hk in *. cbn [List.length] in Hlen.
    destruct (client_assemble_char (deliver c (base k)) s)
      as (s1 & E1 & _ & B1 & S1 & M1);
      [assumption | discriminate | exact Hcr | exact Hlf | exact Hn | lia |].
    cbn [client_read deliver] in B1.
    rewrite E1. destruct (IH (S k) base s1) as (s2 & E2 & B2 & S2 & M2);
      [assumption | assumption | rewrite B1, string_length_append; cbn; lia |].
    exists s2. split; [exact E2|].
    split; [rewrite B2, B1, string_append_assoc; reflexivity|].
    split; [exact S2 | congruence].
Qed.

Lemma client_feed_app (cs1 cs2 : list ascii) :
  forall (k : nat) (base : nat -> env) (s s1 : Client.state),
    Client.feed k cs1 base s = Some s1 ->
    Client.feed k (cs1 ++ cs2) base s = Client.feed (k + List.length cs1) cs2 base s1.
Proof.
  induction cs1 as [|c cs1 IH]; intros k base s s1 H; cbn [Client.feed app List.length] in *.
  - injection H as <-. now rewrite Nat.add_0_r.
  - destruct (Client.assembleServerResponse (deliver c (base k)) s) as [s'|]; [|discriminate].
    rewrite (IH _ _ _ _ H). f_equal. lia.
Qed.

(** A whole line, up to and with its line feed. *)
Lemma client_feed_line (cs : list ascii) (base : nat -> env) (s : Client.state) :
  Client.connectionState s = Client.conn_5_requestSent ->
  Forall (fun c => c <> LF) cs ->
  (String.length (Client.serverResponse s) + List.length (List.filter kept cs)
   < Client.serverResponse_size)%nat ->
  exists s',
    Client.feed 0 (cs ++ [LF]) base s = Some s' /\
    Client.serverResponse s'
    = (Client.serverResponse s ++ string_of_list_ascii (List.filter kept cs))%string /\
    Client.connectionState s' = Client.conn_6_stopClientNow /\
    Client.messageCounter s' = incr32 (Client.messageCounter s).
Proof.
  intros Hst Hcs Hlen.
  destruct (client_feed_chars cs 0 base s Hst Hcs Hlen) as (s1 & E1 & B1 & S1 & M1).
  destruct (client_assemble_line_feed (deliver LF (base (0 + List.length cs)%nat)) s1)
    as (s2 & E2 & _ & B2 & S2 & M2); [assumption | discriminate | reflexivity |].
  exists s2. rewrite (client_feed_app _ _ _ _ _ _ E1). cbn [Client.feed]. rewrite E2.
  split; [reflexivity|]. split; [congruence|]. split; [exact S2 | congruence].
Qed.

(** X10.  The client assembles a whole line.  From [conn_5_requestSent],
    calls of [assembleServerResponse] that find the characters of a line,
    one per call, then its line feed, leave in [serverResponse] the
    characters of the line that are neither carriage return nor NUL, in
    their order, after what it held (provided they fit); the exchange is
    then complete: [messageCounter] is incremented and the state is
    [conn_6_stopClientNow]. *)
Theorem client_assembles_line (cs : list ascii) (base : nat -> env) (s : Client.state) :
  Client.connectionState s = Client.conn_5_requestSent ->
  Forall (fun c => c <> LF) cs ->
  (String.length (Client.serverResponse s) + List.length (List.filter kept cs)
   < Client.serverResponse_size)%nat ->
  exists s',
    Client.feed 0 (cs ++ [LF]) base s = Some s' /\
    Client.serverResponse s'
    = (Client.serverResponse s ++ string_of_list_ascii (List.filter kept cs))%string /\
    Client.connectionState s' = Client.conn_6_stopClientNow /\
    Client.messageCounter s' = incr32 (Client.messageCounter s).
Proof.
  exact (client_feed_line cs base s).
Qed.

Lemma client_assembles_line_witness :
  exists s',
    Client.feed 0 (list_of_string request_line) (fun k => quiet (Z.of_nat k))
      (Client.set_connectionState Client.conn_5_requestSent Client.init) = Some s' /\
    Client.serverResponse s' = "1230001"%string /\
    Client.connectionState s' = Client.conn_6_stopClientNow /\
    Client.messageCounter s' = incr32 1230001.
Proof.
  apply (client_assembles_line (list_of_string ("1230001" ++ String CR EmptyString))
           (fun k => quiet (Z.of_nat k))
           (Client.set_connectionState Client.conn_5_requestSent Client.init)).
  - reflexivity.
  - repeat constructor; discriminate.
  - vm_compute. lia.
Defined.

(** A call of [assembleClientRequest] that finds a byte counts no error,
    no connection and leaves the start of the read time-out. *)
Lemma server_assemble_frame (e : env) (s s' : Server.state) :
  client_available e <> 0 ->
  Server.assembleClientRequest e s = Some s' ->
  Server.errors s' = Server.errors s /\
  Server.clientConnections s' = Server.clientConnections s /\
  Server.startReadingAt s' = Server.startReadingAt s.
Proof.
  destruct s as [er sr lh wt ct wc cc tries rs rep st buf tr]. intros Hav.
  unfold Server.assembleClientRequest. cbn [Server.connectionState].
  destruct (Z.eqb_spec (client_available e) 0) as [|_]; [contradiction|].
  destruct st; cbn; repeat (progress (split_atoms; cbn; split_tests; cbn));
    intros [= <-]; cbn; auto.
Qed.


Lemma server_feed_frame (cs : list ascii) :
  forall (k : nat) (base : nat -> env) (s s' : Server.state),
    Server.feed k cs base s = Some s' ->
    Server.errors s' = Server.errors s /\
    Server.clientConnections s' = Server.clientConnections s /\
    Server.startReadingAt s' = Server.startReadingAt s /\
    (Server.wf s -> Server.wf s').
Proof.
  induction cs as [|c cs IH]; cbn [Server.feed]; intros k base s s' H.
  - injection H as <-. auto.
  - destruct (Server.assembleClientRequest (deliver c (base k)) s) as [s1|] eqn:E;
      [|discriminate].
    destruct (server_assemble_frame (deliver c (base k)) s s1 ltac:(cbn; discriminate) E)
      as (H1 & H2 & H3).
    destruct (IH _ _ _ _ H) as (I1 & I2 & I3 & I4).
    split; [congruence|]. split; [congruence|]. split; [congruence|].
    intros Hwf. apply I4.
    exact (server_call_wf Server.AssembleClientRequest _ _ _ Hwf E).
Qed.


Lemma server_feed_shift_from (cs : list ascii) :
  forall (k j : nat) (base : nat -> env) (s : Server.state),
    Server.feed (k + j) cs base s = Server.feed j cs (fun i => base (k + i)%nat) s.
Proof.
  induction cs as [|c cs IH]; cbn [Server.feed]; intros k j base s; [reflexivity|].
  destruct (Server.assembleClientRequest (deliver c (base (k + j)%nat)) s) as [s1|];
    [|reflexivity].
  rewrite <- (IH k (S j)). f_equal. lia.
Qed.

Lemma server_feed_shift (cs : list ascii) (k : nat) (base : nat -> env) (s : Server.state) :
  Server.feed k cs base s = Server.feed 0 cs (fun i => base (k + i)%nat) s.
Proof. rewrite <- (server_feed_shift_from cs k 0). f_equal. lia. Qed.

Lemma server_sendResponse_frame (e : env) (s : Server.state) :
  Server.connectionState s = Server.conn_5_requestReceived ->
  let s' := Server.sendResponseToClient e s in
  Server.connectionState s' = Server.conn_4_clientConnected /\
  Server.clientRequest s' = EmptyString /\
  Server.errors s' = Server.errors s /\
  Server.clientConnections s' = Server.clientConnections s /\
  count_events is_client_stop (Server.trace s') = count_events is_client_stop (Server.trace s).
Proof.
  destruct s as [er sr lh wt ct wc cc tries rs rep st buf tr].
  cbn [Server.connectionState]. intros ->.
  unfold Server.sendResponseToClient, count_events. cbn.
  destruct (negb (client_write e =? 9)); cbn; auto.
Qed.

(** X11.  The server answers any number of requests on one connection.
    From [conn_4_clientConnected] with an empty [clientRequest], for lines
    of at most 19 bytes without NUL, each closed by its only line feed:
    assembling each line byte by byte and calling [sendResponseToClient]
    after each sends the lines back as they are, in order, and ends in
    [conn_4_clientConnected] with an empty [clientRequest]; no connection
    and no error is counted on the way. *)
Theorem server_serves_lines (lines : list (list ascii)) :
  forall (k : nat) (base : nat -> env) (s : Server.state),
    Server.connectionState s = Server.conn_4_clientConnected ->
    Server.clientRequest s = EmptyString ->
    Forall Server.valid_line lines ->
    exists s',
      Server.serve k lines base s = Some s' /\
      Server.connectionState s' = Server.conn_4_clientConnected /\
      Server.clientRequest s' = EmptyString /\
      Server.responses (Server.trace s')
      = List.rev (List.map string_of_list_ascii lines) ++ Server.responses (Server.trace s) /\
      Server.clientConnections s' = Server.clientConnections s /\
      Server.errors s' = Server.errors s.
Proof.
  induction lines as [|l ls IH]; intros k base s Hst Hbuf Hlines.
  - exists s. cbn. repeat split; auto.
  - inversion Hlines as [|? ? (body & -> & Hbody & Hlen) Hrest]; subst.
    cbn [Server.serve]. rewrite server_feed_shift.
    set (e := base (k + List.length (body ++ [LF]))%nat).
    destruct (server_echoes_line body (fun i => base (k + i)%nat) e s Hst Hbuf Hbody Hlen)
      as (s1 & E1 & B1 & S1 & R1 & T1).
    rewrite E1.
    destruct (server_feed_frame _ _ _ _ _ E1) as (F1 & F2 & _).
    destruct (server_sendResponse_frame e s1 S1) as (S2 & B2 & F3 & F4 & _).
    destruct (IH (S (k + List.length (body ++ [LF]))) base
                (Server.sendResponseToClient e s1) S2 B2 Hrest)
      as (s' & E' & S' & B' & R' & C' & Er').
    exists s'. split; [exact E'|]. split; [exact S'|]. split; [exact B'|].
    split; [|split; congruence].
    rewrite R', T1. cbn [List.map List.rev]. rewrite <- app_assoc. reflexivity.
Qed.

Lemma server_serves_lines_witness :
  exists s',
    Server.serve 0 [list_of_string request_line; ["4"%char; "2"%char; LF]]
      (fun k => quiet (Z.of_nat k))
      (Server.set_connectionState Server.conn_4_clientConnected Server.init) = Some s' /\
    Server.connectionState s' = Server.conn_4_clientConnected /\
    Server.clientRequest s' = EmptyString /\
    Server.responses (Server.trace s')
    = List.rev (List.map string_of_list_ascii
                  [list_of_string request_line; ["4"%char; "2"%char; LF]]) ++ [] /\
    Server.clientConnections s' = 0 /\
    Server.errors s' = 0.
Proof.
  apply (server_serves_lines [list_of_string request_line; ["4"%char; "2"%char; LF]] 0%nat
           (fun k => quiet (Z.of_nat k))
           (Server.set_connectionState Server.conn_4_clientConnected Server.init));
    [reflexivity | reflexivity |].
  constructor; [|constructor; [|constructor]].
  - exists (list_of_string ("1230001" ++ String CR EmptyString)).
    split; [reflexivity|]. split; [repeat constructor; discriminate | vm_compute; lia].
  - exists ["4"%char; "2"%char].
    split; [reflexivity|]. split; [repeat constructor; discriminate | vm_compute; lia].
Defined.

(** X12.  Request and echo, end to end.  For a text of at most 17
    characters without carriage return, line feed or NUL: the server that
    receives the text, a carriage return and a line feed sends back these
    very bytes, and the client that receives what the server sent holds
    the text in [serverResponse] when its exchange completes. *)
Theorem echo_round_trip (body : list ascii) (sbase cbase : nat -> env) (e : env)
        (ss : Server.state) (cs : Client.state) :
  Server.connectionState ss = Server.conn_4_clientConnected ->
  Server.clientRequest ss = EmptyString ->
  Client.connectionState cs = Client.conn_5_requestSent ->
  Client.serverResponse cs = EmptyString ->
  Forall (fun c => kept c = true) body ->
  (List.length body + 2 < Server.clientRequest_size)%nat ->
  exists ss' reply cs',
    Server.feed 0 (body ++ [CR; LF]) sbase ss = Some ss' /\
    Server.responses (Server.trace (Server.sendResponseToClient e ss'))
    = reply :: Server.responses (Server.trace ss) /\
    reply = string_of_list_ascii (body ++ [CR; LF]) /\
    Client.feed 0 (list_ascii_of_string reply) cbase cs = Some cs' /\
    Client.serverResponse cs' = string_of_list_ascii body /\
    Client.connectionState cs' = Client.conn_6_stopClientNow /\
    Client.messageCounter cs' = incr32 (Client.messageCounter cs).
Proof.
  intros Hss Hsb Hcs Hcb Hbody Hlen.
  assert (Hk : forall c, kept c = true -> c <> CR /\ c <> LF /\ c <> NUL).
  { intros c H. unfold kept in H.
    destruct (Ascii.eqb_spec c CR), (Ascii.eqb_spec c LF), (Ascii.eqb_spec c NUL);
      try discriminate H; auto. }
  assert (Hfilter : List.filter kept (body ++ [CR]) = body).
  { clear - Hbody. induction Hbody as [|c body Hc _ IH]; cbn; [reflexivity|].
    rewrite Hc. cbn in IH. now rewrite IH. }
  destruct (server_echoes_line (body ++ [CR]) sbase e ss Hss Hsb)
    as (ss' & E & B & S & R & T).
  { apply Forall_app. split.
    - eapply Forall_impl; [|exact Hbody]. intros c H. apply Hk in H. tauto.
    - repeat constructor; discriminate. }
  { rewrite length_app. cbn. lia. }
  rewrite <- app_assoc in E, T. cbn [app] in E, T.
  destruct (client_feed_line (body ++ [CR]) cbase cs Hcs) as (cs' & E' & B' & S' & M').
  { apply Forall_app. split.
    - eapply Forall_impl; [|exact Hbody]. intros c H. apply Hk in H. tauto.
    - repeat constructor; discriminate. }
  { rewrite Hfilter, Hcb. cbn. unfold Client.serverResponse_size.
    unfold Server.clientRequest_size in Hlen. lia. }
  rewrite <- app_assoc in E'. cbn [app] in E'.
  exists ss', (string_of_list_ascii (body ++ [CR; LF])), cs'.
  split; [exact E|]. split; [exact T|]. split; [reflexivity|].
  rewrite list_ascii_of_string_of_list_ascii.
  split; [exact E'|]. split; [|split; assumption].
  rewrite B', Hcb, Hfilter. reflexivity.
Qed.

Lemma echo_round_trip_witness :
  exists ss' reply cs',
    Server.feed 0 (list_of_string "1230001" ++ [CR; LF]) (fun k => quiet (Z.of_nat k))
      (Server.set_connectionState Server.conn_4_clientConnected Server.init) = Some ss' /\
    Server.responses (Server.trace (Server.sendResponseToClient (quiet 9) ss'))
    = reply :: [] /\
    reply = string_of_list_ascii (list_of_string "1230001" ++ [CR; LF]) /\
    Client.feed 0 (list_ascii_of_string reply) (fun k => quiet (Z.of_nat k))
      (Client.set_connectionState Client.conn_5_requestSent Client.init) = Some cs' /\
    Client.serverResponse cs' = string_of_list_ascii (list_of_string "1230001") /\
    Client.connectionState cs' = Client.conn_6_stopClientNow /\
    Client.messageCounter cs' = incr32 1230001.
Proof.
  apply (echo_round_trip (list_of_string "1230001") (fun k => quiet (Z.of_nat k))
           (fun k => quiet (Z.of_nat k)) (quiet 9)
           (Server.set_connectionState Server.conn_4_clientConnected Server.init)
           (Client.set_connectionState Client.conn_5_requestSent Client.init));
    try reflexivity.
  - repeat constructor.
  - vm_compute. lia.
Defined.

(** ** More on the read time-out *)

Lemma client_timeout_branch (e : env) (s : Client.state) :
  Client.connectionState s = Client.conn_5_requestSent ->
  client_available e = 0 ->
  (add32 (Client.startReadingAt s) Client.readingTimeOut <? millis e 1) = true ->
  exists s', Client.assembleServerResponse e s = Some s' /\
             Client.connectionState s' = Client.conn_6_stopClientNow /\
             Client.errors s' = incr32 (Client.errors s) /\
             Client.serverResponse s' = Client.serverResponse s /\
             Client.messageCounter s' = Client.messageCounter s.
Proof.
  destruct s as [mc er sr lh wt ct wc cc st buf tr].
  cbn [Client.connectionState Client.startReadingAt Client.errors Client.serverResponse
       Client.messageCounter].
  intros -> Hav Ht.
  unfold Client.assembleServerResponse; cbn [Client.connectionState Client.startReadingAt].
  rewrite Hav; cbn [Z.eqb negb]. rewrite Ht.
  eexists; split; [reflexivity|]. cbn. auto.
Qed.

Lemma server_timeout_branch (e : env) (s : Server.state) :
  Server.connectionState s = Server.conn_4_clientConnected ->
  client_available e = 0 ->
  (add32 (Server.startReadingAt s) Server.readingTimeOut <? millis e 1) = true ->
  exists s', Server.assembleClientRequest e s = Some s' /\
             Server.connectionState s' = Server.conn_6_stopClientNow /\
             Server.errors s' = incr32 (Server.errors s) /\
             Server.clientRequest s' = Server.clientRequest s.
Proof.
  destruct s as [er sr lh wt ct wc cc tries rs rep st buf tr].
  cbn [Server.connectionState Server.startReadingAt Server.errors Server.clientRequest].
  intros -> Hav Ht.
  unfold Server.assembleClientRequest; cbn [Server.connectionState].
  rewrite Hav; cbn [Z.eqb negb]. cbn [Server.emit Server.startReadingAt].
  rewrite Ht.
  eexists; split; [reflexivity|]. cbn. auto.
Qed.








Lemma add32_wraps (a b : Z) :
  ULONG_MODULUS <= a + b < 2 * ULONG_MODULUS ->
  add32 a b = a + b - ULONG_MODULUS.
Proof.
  intros H. unfold add32, wrap32. symmetry.
  apply (Z.mod_unique (a + b) ULONG_MODULUS 1); [left; lia | lia].
Qed.

(** X14.  An exchange that starts within [readingTimeOut] of 2^32 times
    out at once: [startReadingAt + readingTimeOut] wraps around in 32
    bits, and the first call that finds nothing to read, at any time from
    the start of the exchange on, tears the connection down and counts an
    error, although [readingTimeOut] has not elapsed. *)
Theorem read_timeout_fires_at_once_near_wrap_around :
  (forall e s,
      Client.connectionState s = Client.conn_5_requestSent ->
      Client.wf s ->
      client_available e = 0 ->
      ULONG_MODULUS - Client.readingTimeOut <= Client.startReadingAt s ->
      Client.startReadingAt s <= millis e 1 ->
      exists s', Client.assembleServerResponse e s = Some s' /\
                 Client.connectionState s' = Client.conn_6_stopClientNow /\
                 Client.errors s' = incr32 (Client.errors s)) /\
  (forall e s,
      Server.connectionState s = Server.conn_4_clientConnected ->
      Server.wf s ->
      client_available e = 0 ->
      ULONG_MODULUS - Server.readingTimeOut <= Server.startReadingAt s ->
      Server.startReadingAt s <= millis e 1 ->
      exists s', Server.assembleClientRequest e s = Some s' /\
                 Server.connectionState s' = Server.conn_6_stopClientNow /\
                 Server.errors s' = incr32 (Server.errors s)).
Proof.
  split; intros e s Hst Hwf Hav Hnear Hnow.
  - destruct (client_timeout_branch e s Hst Hav) as (s' & E & S & Er & _).
    { assert (Hr : is_ulong (Client.startReadingAt s)) by apply Hwf.
      unfold Client.readingTimeOut in *.
      rewrite add32_wraps by ulia. apply Z.ltb_lt. ulia. }
    exists s'. auto.
  - destruct (server_timeout_branch e s Hst Hav) as (s' & E & S & Er & _).
    { assert (Hr : is_ulong (Server.startReadingAt s)) by apply Hwf.
      unfold Server.readingTimeOut in *.
      rewrite add32_wraps by ulia. apply Z.ltb_lt. ulia. }
    exists s'. auto.
Qed.

Lemma read_timeout_fires_at_once_near_wrap_around_witness :
  (exists s', Client.assembleServerResponse (quiet 4294960001)
                (Client.set_startReadingAt 4294960000
                   (Client.set_connectionState Client.conn_5_requestSent Client.init))
              = Some s' /\
              Client.connectionState s' = Client.conn_6_stopClientNow /\
              Client.errors s' = incr32 0) /\
  (exists s', Server.assembleClientRequest (quiet 4294960001)
                (Server.set_startReadingAt 4294960000
                   (Server.set_connectionState Server.conn_4_clientConnected Server.init))
              = Some s' /\
              Server.connectionState s' = Server.conn_6_stopClientNow /\
              Server.errors s' = incr32 0).
Proof.
  split.
  - apply (proj1 read_timeout_fires_at_once_near_wrap_around (quiet 4294960001)
             (Client.set_startReadingAt 4294960000
                (Client.set_connectionState Client.conn_5_requestSent Client.init)));
      try reflexivity; vm_compute; intuition discriminate.
  - apply (proj2 read_timeout_fires_at_once_near_wrap_around (quiet 4294960001)
             (Server.set_startReadingAt 4294960000
                (Server.set_connectionState Server.conn_4_clientConnected Server.init)));
      try reflexivity; vm_compute; intuition discriminate.
Defined.

(** ** The counters and the reports *)

Arguments tally : simpl never.

Lemma incr32_count (n : nat) :
  incr32 (wrap32 (Z.of_nat n)) = wrap32 (Z.of_nat (S n)).
Proof.
  rewrite Nat2Z.inj_succ, incr32_wrap32, Z.add_1_r. reflexivity.
Qed.

(** The echo of a character on the serial monitor is none of the
    reports. *)
Lemma char_is_no_report (c : ascii) :
  let ev := SerialPrint (String c EmptyString) in
  is_link_report ev = false /\
  Client.is_connection_report ev = false /\ Client.is_error_report ev = false /\
  Server.is_connection_report ev = false /\ Server.is_error_report ev = false.
Proof.
  destruct c as [[] [] [] [] [] [] [] []]; vm_compute; repeat split; reflexivity.
Qed.

(** Evaluate the recognisers on the events a call added. *)
Ltac filter_added :=
  unfold tally, count_events;
  repeat match goal with
         | |- context [List.filter ?f (?ev :: ?t)] =>
             change (List.filter f (ev :: t))
               with (if f ev then ev :: List.filter f t else List.filter f t);
             lazymatch ev with
             | SerialPrint (String ?c EmptyString) =>
                 first [ rewrite (proj1 (char_is_no_report c))
                       | rewrite (proj1 (proj2 (char_is_no_report c)))
                       | rewrite (proj1 (proj2 (proj2 (char_is_no_report c))))
                       | rewrite (proj1 (proj2 (proj2 (proj2 (char_is_no_report c)))))
                       | rewrite (proj2 (proj2 (proj2 (proj2 (char_is_no_report c))))) ]
             | _ => let b := eval vm_compute in (f ev) in change (f ev) with b
             end;
             cbv iota
         end;
  cbn [List.length].

Ltac counted :=
  lazymatch goal with
  | |- incr32 _ = _ => apply incr32_count
  | |- _ => reflexivity
  end.


(** Go through the events a call added, looking for summaries. *)
Ltac summaries Hs :=
  repeat match goal with
         | |- (forall w c e, _ = _ -> _) /\ _ =>
             split;
             [ let H := fresh in
               intros ? ? ? H; try discriminate H;
               injection H as <- <- <-; repeat split; reflexivity
             | ]
         end;
  exact Hs.

Lemma client_call_counters (p : Client.procedure) (e : env) (s s' : Client.state) :
  Client.counters_match s -> Client.call p e s = Some s' -> Client.counters_match s'.
Proof.
  destruct s as [mc er sr lh wt ct wc cc st buf tr].
  unfold Client.counters_match. cbn [Client.wifiConnections Client.clientConnections
                                      Client.errors Client.trace].
  intros (Hw & Hc & He & Hs). subst wc cc er.
  destruct p, st; cbn;
    unfold Client.connectToWiFi, Client.tryConnectingToWiFi, Client.connectToServer,
      Client.tryConnectingWithServer, Client.assembleServerResponse, Client.heartbeat,
      cstring_of_char;
    cbn; repeat (progress (split_atoms; cbn; split_tests; cbn)); intros [= <-];
    cbn;
    (split; [filter_added; counted
            | split; [filter_added; counted
                     | split; [filter_added; counted | summaries Hs]]]).
Qed.

Lemma server_call_counters (p : Server.procedure) (e : env) (s s' : Server.state) :
  Server.counters_match s -> Server.call p e s = Some s' -> Server.counters_match s'.
Proof.
  destruct s as [er sr lh wt ct wc cc tries rs rep st buf tr].
  unfold Server.counters_match. cbn [Server.wifiConnections Server.clientConnections
                                      Server.errors Server.trace].
  intros (Hw & Hc & He & Hs). subst wc cc er.
  destruct p, st; cbn;
    unfold Server.connectToWiFi, Server.tryConnectingToWiFi, Server.connectToClient,
      Server.tryConnectingClient, Server.assembleClientRequest, Server.heartbeat,
      cstring_of_char;
    cbn; repeat (progress (split_atoms; cbn; split_tests; cbn)); intros [= <-];
    cbn;
    (split; [filter_added; counted
            | split; [filter_added; counted
                     | split; [filter_added; counted | summaries Hs]]]).
Qed.

Lemma client_init_counters : Client.counters_match Client.init.
Proof. repeat split. Qed.

Lemma server_init_counters : Server.counters_match Server.init.
Proof. repeat split. Qed.

(** X15.  The counters count what is reported.  At any time of a run from
    reset, in both sketches, [wifiConnections], [clientConnections] and
    [errors] are the numbers (in 32 bits) of announcements of a cycle of
    WiFi association, of reports of a connection and of error reports
    printed so far; and every summary printed by [lastConnectionReport]
    shows the numbers of these reports printed before it. *)
Theorem counters_count_the_reports :
  (forall ws s, Client.run ws Client.init = Some s -> Client.counters_match s) /\
  (forall ws s, Server.run ws Server.init = Some s -> Server.counters_match s).
Proof.
  split; intros ws s H.
  - exact (client_run_invariant _ client_call_counters ws _ _ client_init_counters H).
  - exact (server_run_invariant _ server_call_counters ws _ _ server_init_counters H).
Qed.

Lemma counters_count_the_reports_witness :
  (exists s, Client.run [fun _ => refused 0; fun _ => quiet 200; fun _ => quiet 20000]
               Client.init = Some s /\
             Client.counters_match s /\
             (Client.wifiConnections s, Client.clientConnections s, Client.errors s)
             = (1, 1, 2)) /\
  (exists s, Server.run [fun _ => quiet 0; fun _ => quiet 20000] Server.init = Some s /\
             Server.counters_match s /\
             (Server.wifiConnections s, Server.clientConnections s, Server.errors s)
             = (1, 1, 1)).
Proof.
  split.
  - destruct (Client.run [fun _ => refused 0; fun _ => quiet 200; fun _ => quiet 20000]
                Client.init) as [s|] eqn:E; [|vm_compute in E; discriminate E].
    exists s. split; [reflexivity|].
    split; [exact (proj1 counters_count_the_reports _ s E)|].
    vm_compute in E. injection E as <-. reflexivity.
  - destruct (Server.run [fun _ => quiet 0; fun _ => quiet 20000] Server.init)
      as [s|] eqn:E; [|vm_compute in E; discriminate E].
    exists s. split; [reflexivity|].
    split; [exact (proj2 counters_count_the_reports _ s E)|].
    vm_compute in E. injection E as <-. reflexivity.
Defined.

(** ** One request per connection *)

Lemma client_call_fresh (p : Client.procedure) (e : env) (s s' : Client.state) :
  (Client.connectionState s = Client.conn_4_clientConnected ->
   Client.fresh_connection (Client.trace s) = true) /\
  Client.requests_on_fresh_connections (Client.trace s) = true ->
  Client.call p e s = Some s' ->
  (Client.connectionState s' = Client.conn_4_clientConnected ->
   Client.fresh_connection (Client.trace s') = true) /\
  Client.requests_on_fresh_connections (Client.trace s') = true.
Proof.
  destruct s as [mc er sr lh wt ct wc cc st buf tr].
  cbn [Client.connectionState Client.trace]. intros [Hf Hr].
  destruct p, st; cbn;
    unfold Client.connectToWiFi, Client.tryConnectingToWiFi, Client.connectToServer,
      Client.tryConnectingWithServer, Client.assembleServerResponse, Client.heartbeat;
    cbn; repeat (progress (split_atoms; cbn; split_tests; cbn)); intros [= <-];
    cbn; rewrite ?Hr; try rewrite (Hf eq_refl); cbn;
    (split; [first [discriminate | reflexivity | exact Hf | intros _; exact (Hf eq_refl)]
            | reflexivity]).
Qed.

(** X16.  One request per connection.  At any time of a run of the client
    from reset, every request sent so far was sent on a new connection:
    [client.connect] had succeeded and, since then, no other request had
    been sent, [client.stop] had not been called and the link had not
    been announced lost. *)
Theorem one_request_per_connection (ws : list Client.pass) (s : Client.state) :
  Client.run ws Client.init = Some s ->
  Client.requests_on_fresh_connections (Client.trace s) = true.
Proof.
  intros H.
  apply (client_run_invariant
           (fun s => (Client.connectionState s = Client.conn_4_clientConnected ->
                      Client.fresh_connection (Client.trace s) = true) /\
                     Client.requests_on_fresh_connections (Client.trace s) = true)
           client_call_fresh ws Client.init s); [|exact H].
  split; [discriminate | reflexivity].
Qed.

Lemma one_request_per_connection_witness :
  exists s,
    Client.run [fun _ => quiet 0; fun _ => deliver LF (quiet 50); fun _ => quiet 200]
      Client.init = Some s /\
    Client.requests (Client.trace s) = [1230002; 1230001] /\
    Client.requests_on_fresh_connections (Client.trace s) = true.
Proof.
  destruct (Client.run [fun _ => quiet 0; fun _ => deliver LF (quiet 50); fun _ => quiet 200]
              Client.init) as [s|] eqn:E; [|vm_compute in E; discriminate E].
  exists s. split; [reflexivity|].
  split; [|exact (one_request_per_connection _ s E)].
  vm_compute in E. injection E as <-. reflexivity.
Defined.

(** ** Loss of the WiFi link during an exchange *)









(** ** Polling in silence *)

Lemma server_call_silent (p : Server.procedure) (e : env) (s : Server.state) :
  Server.connectionState s = Server.conn_2_wifiConnected ->
  Server.reportToSerialMonitor s = false ->
  (p = Server.ConnectToWiFi -> WiFi_status e = WL_CONNECTED) ->
  (p = Server.ConnectToClient -> client_connected e = false) ->
  exists s',
    Server.call p e s = Some s' /\
    Server.connectionState s' = Server.conn_2_wifiConnected /\
    Server.reportToSerialMonitor s' = false /\
    count_events is_report (Server.trace s')
    = count_events is_report (Server.trace s) /\
    count_events is_connect_attempt (Server.trace s')
    = (count_events is_connect_attempt (Server.trace s)
       + if Server.driver_call p ServerAvailable then 1 else 0)%nat.
Proof.
  destruct s as [er sr lh wt ct wc cc tries rs rep st buf tr].
  cbn [Server.connectionState Server.reportToSerialMonitor]. intros -> -> Hw Hc.
  destruct p; cbn;
    unfold Server.connectToWiFi, Server.connectToClient, Server.tryConnectingClient,
      Server.heartbeat; cbn;
    try rewrite (Hw eq_refl); try rewrite (Hc eq_refl); cbn;
    repeat (progress (split_atoms; cbn; split_tests; cbn));
    eexists; (split; [reflexivity|]); cbn; unfold count_events; cbn;
    repeat split; try reflexivity; try lia.
  all: rewrite Bool.andb_false_r in *; discriminate.
Qed.

(** X18.  Polling in silence.  Once the server has stopped reporting
    ([reportToSerialMonitor] is false) while it waits for a client, it
    keeps polling the listening socket, once per pass, for as long as the
    WiFi link is up and no client shows up; it stays in
    [conn_2_wifiConnected] and prints nothing but heartbeat lines: no poll
    marks, no announcement. *)
Theorem server_polls_in_silence (ws : list Server.pass) :
  forall s,
    Server.connectionState s = Server.conn_2_wifiConnected ->
    Server.reportToSerialMonitor s = false ->
    Forall Server.idle ws ->
    exists s',
      Server.run ws s = Some s' /\
      Server.connectionState s' = Server.conn_2_wifiConnected /\
      Server.reportToSerialMonitor s' = false /\
      count_events is_report (Server.trace s')
      = count_events is_report (Server.trace s) /\
      count_events is_connect_attempt (Server.trace s')
      = (count_events is_connect_attempt (Server.trace s) + List.length ws)%nat.
Proof.
  induction ws as [|w ws IH]; intros s Hst Hrep Hidle.
  - exists s. cbn. repeat split; auto.
  - inversion Hidle as [|? ? [Hw Hc] Hrest]; subst.
    cbn [Server.run]. unfold Server.loop, Server.loop_order. cbn [Server.calls].
    destruct (server_call_silent Server.ConnectToWiFi (w Server.ConnectToWiFi) s Hst Hrep)
      as (s1 & E1 & S1 & R1 & T1 & P1); [intros _; exact Hw | discriminate |].
    rewrite E1.
    destruct (server_call_silent Server.ConnectToClient (w Server.ConnectToClient) s1 S1 R1)
      as (s2 & E2 & S2 & R2 & T2 & P2); [discriminate | intros _; exact Hc |].
    rewrite E2.
    destruct (server_call_silent Server.AssembleClientRequest
                (w Server.AssembleClientRequest) s2 S2 R2)
      as (s3 & E3 & S3 & R3 & T3 & P3); [discriminate | discriminate |].
    rewrite E3.
    destruct (server_call_silent Server.SendResponseToClient
                (w Server.SendResponseToClient) s3 S3 R3)
      as (s4 & E4 & S4 & R4 & T4 & P4); [discriminate | discriminate |].
    rewrite E4.
    destruct (server_call_silent Server.StopTCPconnection
                (w Server.StopTCPconnection) s4 S4 R4)
      as (s5 & E5 & S5 & R5 & T5 & P5); [discriminate | discriminate |].
    rewrite E5.
    destruct (server_call_silent Server.LastConnectionReport
                (w Server.LastConnectionReport) s5 S5 R5)
      as (s6 & E6 & S6 & R6 & T6 & P6); [discriminate | discriminate |].
    rewrite E6.
    destruct (server_call_silent Server.Heartbeat (w Server.Heartbeat) s6 S6 R6)
      as (s7 & E7 & S7 & R7 & T7 & P7); [discriminate | discriminate |].
    rewrite E7.
    destruct (IH s7 S7 R7 Hrest) as (s' & E & S' & R' & T' & P').
    exists s'. split; [exact E|]. split; [exact S'|]. split; [exact R'|].
    cbn [Server.driver_call List.length] in *. split; [congruence | lia].
Qed.

Lemma server_polls_in_silence_witness :
  exists s',
    Server.run (Server.waiting [131000; 132000; 133000])
      (Server.set_reportToSerialMonitor false
         (Server.set_connectionState Server.conn_2_wifiConnected Server.init)) = Some s' /\
    Server.connectionState s' = Server.conn_2_wifiConnected /\
    Server.reportToSerialMonitor s' = false /\
    count_events is_report (Server.trace s') = 0%nat /\
    count_events is_connect_attempt (Server.trace s') = 3%nat.
Proof.
  apply (server_polls_in_silence (Server.waiting [131000; 132000; 133000])
           (Server.set_reportToSerialMonitor false
              (Server.set_connectionState Server.conn_2_wifiConnected Server.init)));
    try reflexivity.
  repeat constructor.
Defined.

(** ** One driver call per procedure and per pass *)

Lemma client_call_driver (p : Client.procedure) (e : env) (s s' : Client.state) :
  Client.call p e s = Some s' ->
  forall q,
    count_events (Client.driver_call q) (Client.trace s')
    = count_events (Client.driver_call q) (Client.trace s) \/
    (q = p /\
     count_events (Client.driver_call q) (Client.trace s')
     = S (count_events (Client.driver_call q) (Client.trace s))).
Proof.
  destruct s as [mc er sr lh wt ct wc cc st buf tr].
  destruct p, st; cbn;
    unfold Client.connectToWiFi, Client.tryConnectingToWiFi, Client.connectToServer,
      Client.tryConnectingWithServer, Client.assembleServerResponse, Client.heartbeat;
    cbn; repeat (progress (split_atoms; cbn; split_tests; cbn)); intros [= <-] q;
    unfold count_events; destruct q; cbn; auto.
Qed.

Lemma server_call_driver (p : Server.procedure) (e : env) (s s' : Server.state) :
  Server.call p e s = Some s' ->
  forall q,
    count_events (Server.driver_call q) (Server.trace s')
    = count_events (Server.driver_call q) (Server.trace s) \/
    (q = p /\
     count_events (Server.driver_call q) (Server.trace s')
     = S (count_events (Server.driver_call q) (Server.trace s))).
Proof.
  destruct s as [er sr lh wt ct wc cc tries rs rep st buf tr].
  destruct p, st; cbn;
    unfold Server.connectToWiFi, Server.tryConnectingToWiFi, Server.connectToClient,
      Server.tryConnectingClient, Server.assembleClientRequest, Server.heartbeat;
    cbn; repeat (progress (split_atoms; cbn; split_tests; cbn)); intros [= <-] q;
    unfold count_events; destruct q; cbn; auto.
Qed.

(** X19.  One driver call per procedure and per pass.  In one pass of
    [loop()], each procedure makes the driver call it is there for at most
    once: the client makes at most one [WiFi.begin], one [client.connect],
    one [client.println] of a request, one [client.read] and one
    [client.stop]; the server at most one [WiFi.begin], one
    [server.available], one [client.read], one [client.print] of a
    response and one [client.stop]. *)
Theorem one_driver_call_per_pass :
  (forall w s s' q,
      Client.loop w s = Some s' ->
      (count_events (Client.driver_call q) (Client.trace s)
       <= count_events (Client.driver_call q) (Client.trace s')
       <= S (count_events (Client.driver_call q) (Client.trace s)))%nat) /\
  (forall w s s' q,
      Server.loop w s = Some s' ->
      (count_events (Server.driver_call q) (Server.trace s)
       <= count_events (Server.driver_call q) (Server.trace s')
       <= S (count_events (Server.driver_call q) (Server.trace s)))%nat).
Proof.
  split; intros w s s' q.
  - unfold Client.loop, Client.loop_order. cbn [Client.calls].
    destruct (Client.call Client.ConnectToWiFi (w Client.ConnectToWiFi) s)
      as [s1|] eqn:E1; [|discriminate].
    destruct (Client.call Client.ConnectToServer (w Client.ConnectToServer) s1)
      as [s2|] eqn:E2; [|discriminate].
    destruct (Client.call Client.SendRequestToServer (w Client.SendRequestToServer) s2)
      as [s3|] eqn:E3; [|discriminate].
    destruct (Client.call Client.AssembleServerResponse
                (w Client.AssembleServerResponse) s3) as [s4|] eqn:E4; [|discriminate].
    destruct (Client.call Client.StopTCPconnection (w Client.StopTCPconnection) s4)
      as [s5|] eqn:E5; [|discriminate].
    destruct (Client.call Client.LastConnectionReport (w Client.LastConnectionReport) s5)
      as [s6|] eqn:E6; [|discriminate].
    destruct (Client.call Client.Heartbeat (w Client.Heartbeat) s6)
      as [s7|] eqn:E7; [|discriminate].
    intros [= <-].
    pose proof (client_call_driver _ _ _ _ E1 q) as H1.
    pose proof (client_call_driver _ _ _ _ E2 q) as H2.
    pose proof (client_call_driver _ _ _ _ E3 q) as H3.
    pose proof (client_call_driver _ _ _ _ E4 q) as H4.
    pose proof (client_call_driver _ _ _ _ E5 q) as H5.
    pose proof (client_call_driver _ _ _ _ E6 q) as H6.
    pose proof (client_call_driver _ _ _ _ E7 q) as H7.
    destruct q;
      destruct H1 as [H1|[? H1]], H2 as [H2|[? H2]], H3 as [H3|[? H3]],
               H4 as [H4|[? H4]], H5 as [H5|[? H5]], H6 as [H6|[? H6]],
               H7 as [H7|[? H7]]; try discriminate; lia.
  - unfold Server.loop, Server.loop_order. cbn [Server.calls].
    destruct (Server.call Server.ConnectToWiFi (w Server.ConnectToWiFi) s)
      as [s1|] eqn:E1; [|discriminate].
    destruct (Server.call Server.ConnectToClient (w Server.ConnectToClient) s1)
      as [s2|] eqn:E2; [|discriminate].
    destruct (Server.call Server.AssembleClientRequest
                (w Server.AssembleClientRequest) s2) as [s3|] eqn:E3; [|discriminate].
    destruct (Server.call Server.SendResponseToClient (w Server.SendResponseToClient) s3)
      as [s4|] eqn:E4; [|discriminate].
    destruct (Server.call Server.StopTCPconnection (w Server.StopTCPconnection) s4)
      as [s5|] eqn:E5; [|discriminate].
    destruct (Server.call Server.LastConnectionReport (w Server.LastConnectionReport) s5)
      as [s6|] eqn:E6; [|discriminate].
    destruct (Server.call Server.Heartbeat (w Server.Heartbeat) s6)
      as [s7|] eqn:E7; [|discriminate].
    intros [= <-].
    pose proof (server_call_driver _ _ _ _ E1 q) as H1.
    pose proof (server_call_driver _ _ _ _ E2 q) as H2.
    pose proof (server_call_driver _ _ _ _ E3 q) as H3.
    pose proof (server_call_driver _ _ _ _ E4 q) as H4.
    pose proof (server_call_driver _ _ _ _ E5 q) as H5.
    pose proof (server_call_driver _ _ _ _ E6 q) as H6.
    pose proof (server_call_driver _ _ _ _ E7 q) as H7.
    destruct q;
      destruct H1 as [H1|[? H1]], H2 as [H2|[? H2]], H3 as [H3|[? H3]],
               H4 as [H4|[? H4]], H5 as [H5|[? H5]], H6 as [H6|[? H6]],
               H7 as [H7|[? H7]]; try discriminate; lia.
Qed.

Lemma one_driver_call_per_pass_witness :
  (exists s',
      Client.loop (fun _ => deliver LF (quiet 0)) Client.init = Some s' /\
      forall q,
        (count_events (Client.driver_call q) (Client.trace Client.init)
         <= count_events (Client.driver_call q) (Client.trace s')
         <= S (count_events (Client.driver_call q) (Client.trace Client.init)))%nat) /\
  (exists s',
      Server.loop (fun _ => deliver LF (quiet 0)) Server.init = Some s' /\
      forall q,
        (count_events (Server.driver_call q) (Server.trace Server.init)
         <= count_events (Server.driver_call q) (Server.trace s')
         <= S (count_events (Server.driver_call q) (Server.trace Server.init)))%nat).
Proof.
  split.
  - destruct (Client.loop (fun _ => deliver LF (quiet 0)) Client.init) as [s'|] eqn:E;
      [|vm_compute in E; discriminate E].
    exists s'. split; [reflexivity|].
    intros q. exact (proj1 one_driver_call_per_pass _ _ s' q E).
  - destruct (Server.loop (fun _ => deliver LF (quiet 0)) Server.init) as [s'|] eqn:E;
      [|vm_compute in E; discriminate E].
    exists s'. split; [reflexivity|].
    intros q. exact (proj2 one_driver_call_per_pass _ _ s' q E).
Defined.

(** ** The LED on pin 13 *)

Lemma client_call_led (p : Client.procedure) (e : env) (s s' : Client.state) :
  pin13_high (Client.trace s) = Client.connection_open (Client.connectionState s) ->
  (Client.connectionState s = Client.conn_7_report -> p = Client.LastConnectionReport) ->
  Client.call p e s = Some s' ->
  pin13_high (Client.trace s') = Client.connection_open (Client.connectionState s') /\
  (Client.connectionState s' = Client.conn_7_report -> p = Client.StopTCPconnection).
Proof.
  destruct s as [mc er sr lh wt ct wc cc st buf tr].
  cbn [Client.connectionState Client.trace]. intros H H7.
  destruct p, st; try (specialize (H7 eq_refl); discriminate H7); clear H7; cbn;
    unfold Client.connectToWiFi, Client.tryConnectingToWiFi, Client.connectToServer,
      Client.tryConnectingWithServer, Client.assembleServerResponse, Client.heartbeat;
    cbn; repeat (progress (split_atoms; cbn; split_tests; cbn)); intros [= <-];
    cbn in *; (split; [first [reflexivity | exact H] | try discriminate; reflexivity]).
Qed.

Lemma server_call_led (p : Server.procedure) (e : env) (s s' : Server.state) :
  pin13_high (Server.trace s) = Server.connection_open (Server.connectionState s) ->
  (Server.connectionState s = Server.conn_7_report -> p = Server.LastConnectionReport) ->
  Server.call p e s = Some s' ->
  pin13_high (Server.trace s') = Server.connection_open (Server.connectionState s') /\
  (Server.connectionState s' = Server.conn_7_report -> p = Server.StopTCPconnection).
Proof.
  destruct s as [er sr lh wt ct wc cc tries rs rep st buf tr].
  cbn [Server.connectionState Server.trace]. intros H H7.
  destruct p, st; try (specialize (H7 eq_refl); discriminate H7); clear H7; cbn;
    unfold Server.connectToWiFi, Server.tryConnectingToWiFi, Server.connectToClient,
      Server.tryConnectingClient, Server.assembleClientRequest, Server.heartbeat;
    cbn; repeat (progress (split_atoms; cbn; split_tests; cbn)); intros [= <-];
    cbn in *; (split; [first [reflexivity | exact H] | try discriminate; reflexivity]).
Qed.

Lemma client_pass_led (w : Client.pass) (s s' : Client.state) :
  pin13_high (Client.trace s) = Client.connection_open (Client.connectionState s) ->
  Client.connectionState s <> Client.conn_7_report ->
  Client.loop w s = Some s' ->
  pin13_high (Client.trace s') = Client.connection_open (Client.connectionState s') /\
  Client.connectionState s' <> Client.conn_7_report.
Proof.
  intros H0 N0. unfold Client.loop, Client.loop_order. cbn [Client.calls].
  destruct (Client.call Client.ConnectToWiFi (w Client.ConnectToWiFi) s)
    as [s1|] eqn:E1; [|discriminate].
  destruct (Client.call Client.ConnectToServer (w Client.ConnectToServer) s1)
    as [s2|] eqn:E2; [|discriminate].
  destruct (Client.call Client.SendRequestToServer (w Client.SendRequestToServer) s2)
    as [s3|] eqn:E3; [|discriminate].
  destruct (Client.call Client.AssembleServerResponse
              (w Client.AssembleServerResponse) s3) as [s4|] eqn:E4; [|discriminate].
  destruct (Client.call Client.StopTCPconnection (w Client.StopTCPconnection) s4)
    as [s5|] eqn:E5; [|discriminate].
  destruct (Client.call Client.LastConnectionReport (w Client.LastConnectionReport) s5)
    as [s6|] eqn:E6; [|discriminate].
  destruct (Client.call Client.Heartbeat (w Client.Heartbeat) s6)
    as [s7|] eqn:E7; [|discriminate].
  intros [= <-].
  destruct (client_call_led _ _ _ _ H0 ltac:(intros; contradiction) E1) as [H1 N1].
  destruct (client_call_led _ _ _ _ H1 ltac:(intros X; discriminate (N1 X)) E2) as [H2 N2].
  destruct (client_call_led _ _ _ _ H2 ltac:(intros X; discriminate (N2 X)) E3) as [H3 N3].
  destruct (client_call_led _ _ _ _ H3 ltac:(intros X; discriminate (N3 X)) E4) as [H4 N4].
  destruct (client_call_led _ _ _ _ H4 ltac:(intros X; discriminate (N4 X)) E5) as [H5 N5].
  destruct (client_call_led _ _ _ _ H5 ltac:(intros; reflexivity) E6) as [H6 N6].
  destruct (client_call_led _ _ _ _ H6 ltac:(intros X; discriminate (N6 X)) E7) as [H7 N7].
  split; [exact H7 | intros X; discriminate (N7 X)].
Qed.

Lemma server_pass_led (w : Server.pass) (s s' : Server.state) :
  pin13_high (Server.trace s) = Server.connection_open (Server.connectionState s) ->
  Server.connectionState s <> Server.conn_7_report ->
  Server.loop w s = Some s' ->
  pin13_high (Server.trace s') = Server.connection_open (Server.connectionState s') /\
  Server.connectionState s' <> Server.conn_7_report.
Proof.
  intros H0 N0. unfold Server.loop, Server.loop_order. cbn [Server.calls].
  destruct (Server.call Server.ConnectToWiFi (w Server.ConnectToWiFi) s)
    as [s1|] eqn:E1; [|discriminate].
  destruct (Server.call Server.ConnectToClient (w Server.ConnectToClient) s1)
    as [s2|] eqn:E2; [|discriminate].
  destruct (Server.call Server.AssembleClientRequest
              (w Server.AssembleClientRequest) s2) as [s3|] eqn:E3; [|discriminate].
  destruct (Server.call Server.SendResponseToClient (w Server.SendResponseToClient) s3)
    as [s4|] eqn:E4; [|discriminate].
  destruct (Server.call Server.StopTCPconnection (w Server.StopTCPconnection) s4)
    as [s5|] eqn:E5; [|discriminate].
  destruct (Server.call Server.LastConnectionReport (w Server.LastConnectionReport) s5)
    as [s6|] eqn:E6; [|discriminate].
  destruct (Server.call Server.Heartbeat (w Server.Heartbeat) s6)
    as [s7|] eqn:E7; [|discriminate].
  intros [= <-].
  destruct (server_call_led _ _ _ _ H0 ltac:(intros; contradiction) E1) as [H1 N1].
  destruct (server_call_led _ _ _ _ H1 ltac:(intros X; discriminate (N1 X)) E2) as [H2 N2].
  destruct (server_call_led _ _ _ _ H2 ltac:(intros X; discriminate (N2 X)) E3) as [H3 N3].
  destruct (server_call_led _ _ _ _ H3 ltac:(intros X; discriminate (N3 X)) E4) as [H4 N4].
  destruct (server_call_led _ _ _ _ H4 ltac:(intros X; discriminate (N4 X)) E5) as [H5 N5].
  destruct (server_call_led _ _ _ _ H5 ltac:(intros; reflexivity) E6) as [H6 N6].
  destruct (server_call_led _ _ _ _ H6 ltac:(intros X; discriminate (N6 X)) E7) as [H7 N7].
  split; [exact H7 | intros X; discriminate (N7 X)].
Qed.

(** X20.  The LED on pin 13 shows the open connection.  After any number
    of passes of [loop()] from reset, in both sketches, the level last
    written to pin 13 is high exactly in the states
    [conn_4_clientConnected] to [conn_6_stopClientNow], that is from the
    connection to the call of [client.stop]. *)
Theorem led_shows_open_connection :
  (forall ws s, Client.run ws Client.init = Some s ->
                pin13_high (Client.trace s)
                = Client.connection_open (Client.connectionState s)) /\
  (forall ws s, Server.run ws Server.init = Some s ->
                pin13_high (Server.trace s)
                = Server.connection_open (Server.connectionState s)).
Proof.
  split; intros ws.
  - assert (G : forall s0 s,
               pin13_high (Client.trace s0)
               = Client.connection_open (Client.connectionState s0) ->
               Client.connectionState s0 <> Client.conn_7_report ->
               Client.run ws s0 = Some s ->
               pin13_high (Client.trace s)
               = Client.connection_open (Client.connectionState s)).
    { induction ws as [|w ws IH]; cbn [Client.run]; intros s0 s H N R.
      - injection R as <-. exact H.
      - destruct (Client.loop w s0) as [s1|] eqn:E; [|discriminate].
        destruct (client_pass_led w s0 s1 H N E) as [H1 N1].
        exact (IH s1 s H1 N1 R). }
    intros s. apply G; [reflexivity | discriminate].
  - assert (G : forall s0 s,
               pin13_high (Server.trace s0)
               = Server.connection_open (Server.connectionState s0) ->
               Server.connectionState s0 <> Server.conn_7_report ->
               Server.run ws s0 = Some s ->
               pin13_high (Server.trace s)
               = Server.connection_open (Server.connectionState s)).
    { induction ws as [|w ws IH]; cbn [Server.run]; intros s0 s H N R.
      - injection R as <-. exact H.
      - destruct (Server.loop w s0) as [s1|] eqn:E; [|discriminate].
        destruct (server_pass_led w s0 s1 H N E) as [H1 N1].
        exact (IH s1 s H1 N1 R). }
    intros s. apply G; [reflexivity | discriminate].
Qed.

Lemma led_shows_open_connection_witness :
  (exists s, Client.run [fun _ => quiet 0] Client.init = Some s /\
             Client.connectionState s = Client.conn_5_requestSent /\
             pin13_high (Client.trace s)
             = Client.connection_open (Client.connectionState s)) /\
  (exists s, Server.run [fun _ => quiet 0; fun _ => nobody (quiet 20000)] Server.init
             = Some s /\
             Server.connectionState s = Server.conn_3_clientDelayConnection /\
             pin13_high (Server.trace s)
             = Server.connection_open (Server.connectionState s)).
Proof.
  split.
  - destruct (Client.run [fun _ => quiet 0] Client.init) as [s|] eqn:E;
      [|vm_compute in E; discriminate E].
    exists s. split; [reflexivity|].
    split; [|exact (proj1 led_shows_open_connection _ s E)].
    vm_compute in E. injection E as <-. reflexivity.
  - destruct (Server.run [fun _ => quiet 0; fun _ => nobody (quiet 20000)] Server.init)
      as [s|] eqn:E; [|vm_compute in E; discriminate E].
    exists s. split; [reflexivity|].
    split; [|exact (proj2 led_shows_open_connection _ s E)].
    vm_compute in E. injection E as <-. reflexivity.
Defined.
